(** * SicilyChessBot: orientation inference, FEN repair and engine queries

    A shallow embedding of the decision logic of [sicily.py] and [test.py]:
    board orientation detection, the 180 degree rotation of a placement, the
    cascade that repairs a position string until Stockfish accepts it, the
    restart-and-fallback ladder around the engine, the sign normalisation of
    evaluations, and the square-to-pixel mapping used for annotation.

    Python values are modelled as follows.
    - [str] is [string]; a character is read as the code point 0..255 it
      denotes (the vision step only emits ASCII).
    - [int] is [Z]; the float arithmetic of [square_to_coordinates] is done
      in [Q], which is exact for it: every intermediate value is an integer
      multiple of 1/16 (pixel coordinates are far below 2^48).
    - exceptions are the [Raise] case of [result]; a [try/except] block is
      a handler that replaces [Raise] by the code of the [except] branch.
    - the Stockfish process is an oracle answering each call from the
      history of calls issued so far; every call is logged.
    - the console is the list of the lines still to be typed, of
      characters 0..255; [input()] takes the first one and raises
      [EOFError] when none is left. *)

From Stdlib Require Import ZArith QArith List String Ascii Bool Lia.
Import ListNotations.

Close Scope Q_scope.
Local Open Scope string_scope.
Local Open Scope list_scope.

(** ** Python values, exceptions and strings *)

Module Py.

Inductive exn : Type :=
| AttributeError
| IndexError
| ValueError
| TypeError
| EngineError.

Inductive result (A : Type) : Type :=
| Ok (a : A)
| Raise (e : exn).

Arguments Ok {A} a.
Arguments Raise {A} e.

Definition rbind {A B : Type} (m : result A) (k : A -> result B) : result B :=
  match m with
  | Ok a => k a
  | Raise e => Raise e
  end.

(** The values a caller may hand to the functions that take a position
    string: a [str], or something else on which [.split] fails. *)
Inductive pyval : Type :=
| PyNone
| PyInt (z : Z)
| PyStr (s : string).

Definition code (c : ascii) : N := N_of_ascii c.

Definition in_range (lo hi : N) (c : ascii) : bool :=
  (lo <=? code c)%N && (code c <=? hi)%N.

(** [c.isupper()] for a one-character string, code points 0..255. *)
Definition isupper (c : ascii) : bool :=
  in_range 65 90 c || in_range 192 214 c || in_range 216 222 c.

(** [c.islower()] for a one-character string, code points 0..255. *)
Definition islower (c : ascii) : bool :=
  in_range 97 122 c || (code c =? 170)%N || (code c =? 181)%N
  || (code c =? 186)%N || in_range 223 246 c || in_range 248 255 c.

(** [c.isalpha()]: in this range the letters are the cased characters. *)
Definition isalpha (c : ascii) : bool := isupper c || islower c.

Definition isdigit (c : ascii) : bool := in_range 48 57 c.

(** [sum(1 for c in s if p(c))] *)
Fixpoint count (p : ascii -> bool) (s : string) : Z :=
  match s with
  | EmptyString => 0
  | String c s' => (if p c then 1 else 0) + count p s'
  end.

(** [c in s] for a one-character [c] *)
Fixpoint contains (c : ascii) (s : string) : bool :=
  match s with
  | EmptyString => false
  | String d s' => Ascii.eqb d c || contains c s'
  end.

(** [s[::-1]] *)
Fixpoint reversed_str (s : string) : string :=
  match s with
  | EmptyString => EmptyString
  | String c s' => reversed_str s' ++ String c EmptyString
  end.

(** [s.split(sep)] for a one-character separator: never the empty list. *)
Fixpoint split (sep : ascii) (s : string) : list string :=
  match s with
  | EmptyString => [EmptyString]
  | String c s' =>
      if Ascii.eqb c sep then EmptyString :: split sep s'
      else match split sep s' with
           | r :: rs => String c r :: rs
           | [] => [String c EmptyString]
           end
  end.

(** [sep.join(l)] *)
Definition join (sep : string) (l : list string) : string := String.concat sep l.

(** [fen.split('/')]: an [AttributeError] on anything that is not a [str]. *)
Definition py_split (fen : pyval) (sep : ascii) : result (list string) :=
  match fen with
  | PyStr s => Ok (split sep s)
  | _ => Raise AttributeError
  end.

(** [l[0]] and [l[-1]] *)
Definition index_first {A : Type} (l : list A) : result A :=
  match l with
  | x :: _ => Ok x
  | [] => Raise IndexError
  end.

Fixpoint index_last {A : Type} (l : list A) : result A :=
  match l with
  | [] => Raise IndexError
  | [x] => Ok x
  | _ :: l' => index_last l'
  end.

End Py.

Import Py.

Declare Scope result_scope.
Delimit Scope result_scope with result.
Notation "x <- m ;; k" := (rbind m (fun x => k))
  (at level 61, m at next level, right associativity) : result_scope.

(** ** The Stockfish session, as the scripts use it *)

Module Stockfish.

(** A session object; the n-th [Stockfish(path=...)] of a run has handle n. *)
Definition handle : Type := nat.

(** An entry of [get_top_moves]: the keys ['Move'], ['Centipawn'] and
    ['Mate'] that the library fills in, the two scores being an integer or
    [None] (a ranked move has a centipawn score or a mate distance). The
    scripts read ['Move'] and ['Centipawn'] only. *)
Record move_data : Type :=
  { Move : string; Centipawn : option Z; Mate : option Z }.

(** What [get_evaluation] hands to the caller: a dict with a ['type'] and
    an integer or [None] ['value'], the placeholder
    [{"type": "unknown", "value": "N/A"}] that sicily.py substitutes, or
    something that is not a dict. *)
Inductive evaluation : Type :=
| Score (type : string) (value : option Z)
| Placeholder
| NotADict (v : pyval).

Inductive call : Type :=
| Stockfish_new
| reset_engine_parameters (sf : handle)
| set_skill_level (sf : handle) (level : Z)
| set_depth (sf : handle) (depth : Z)
| is_fen_valid (sf : handle) (fen : string)
| set_fen_position (sf : handle) (fen : string)
| get_top_moves (sf : handle) (n : Z)
| get_best_move (sf : handle)
| get_evaluation (sf : handle).

(** The type of the value each call returns. *)
Definition resp (c : call) : Type :=
  match c with
  | is_fen_valid _ _ => bool
  | get_top_moves _ _ => option (list move_data)
  | get_best_move _ => option string
  | get_evaluation _ => evaluation
  | _ => unit
  end.

(** The engine: given the calls issued so far (oldest first) and the next
    call, it returns a value or raises. *)
Definition engine : Type := list call -> forall c : call, result (resp c).

Record state (O : Type) : Type := { calls : list call; printed : list O }.
Arguments calls {O} s.
Arguments printed {O} s.
Arguments Build_state {O} calls printed.

(** How a block of a Python function ends: it falls through with a value,
    raises, or executes [return r]. *)
Inductive outcome (R A : Type) : Type :=
| Next (a : A)
| Raised (e : exn)
| Returned (r : R).
Arguments Next {R A} a.
Arguments Raised {R A} e.
Arguments Returned {R A} r.

Definition M (R O A : Type) : Type := state O -> state O * outcome R A.

Definition sessions (t : list call) : nat :=
  List.length (filter (fun c => match c with Stockfish_new => true | _ => false end) t).

Definition validations (t : list call) : nat :=
  List.length (filter (fun c => match c with is_fen_valid _ _ => true | _ => false end) t).

Definition best_move_requests (t : list call) : nat :=
  List.length (filter (fun c => match c with get_best_move _ => true | _ => false end) t).

Section Run.

Context {R O : Type}.
Variable W : engine.

Definition ret {A : Type} (a : A) : M R O A := fun st => (st, Next a).

Definition bind {A B : Type} (m : M R O A) (k : A -> M R O B) : M R O B :=
  fun st =>
    match m st with
    | (st', Next a) => k a st'
    | (st', Raised e) => (st', Raised e)
    | (st', Returned r) => (st', Returned r)
    end.

(** [return r] *)
Definition return_ {A : Type} (r : R) : M R O A := fun st => (st, Returned r).

(** [raise e] *)
Definition raise {A : Type} (e : exn) : M R O A := fun st => (st, Raised e).

(** [try: body except: handler] *)
Definition try_except {A : Type} (body handler : M R O A) : M R O A :=
  fun st =>
    match body st with
    | (st', Raised _) => handler st'
    | other => other
    end.

Definition log (c : call) (st : state O) : state O :=
  {| calls := calls st ++ [c]; printed := printed st |}.

(** One call to the engine. *)
Definition ask (c : call) : M R O (resp c) :=
  fun st =>
    match W (calls st) c with
    | Ok a => (log c st, Next a)
    | Raise e => (log c st, Raised e)
    end.

(** [Stockfish(path=stockfish_path)] *)
Definition Stockfish : M R O handle :=
  fun st =>
    match W (calls st) Stockfish_new with
    | Ok _ => (log Stockfish_new st, Next (sessions (calls st)))
    | Raise e => (log Stockfish_new st, Raised e)
    end.

(** [print(...)] of a computed value *)
Definition print (o : O) : M R O unit :=
  fun st => ({| calls := calls st; printed := printed st ++ [o] |}, Next tt).

End Run.

Definition start {O : Type} : state O := {| calls := []; printed := [] |}.

(** Two blocks that do the same from every state. *)
Definition same {R O A : Type} (m1 m2 : M R O A) : Prop :=
  forall st : state O, m1 st = m2 st.

(** The state after the calls [l], nothing printed. *)
Definition after {O : Type} (l : list call) (st : state O) : state O :=
  {| calls := calls st ++ l; printed := printed st |}.

(** Does the engine raise on [c], after the calls [t]? *)
Definition raises (W : engine) (t : list call) (c : call) : bool :=
  match W t c with
  | Raise _ => true
  | Ok _ => false
  end.

(** Does the engine answer all the calls [l] in a row, after [t]? *)
Fixpoint answers_all (W : engine) (t l : list call) : bool :=
  match l with
  | [] => true
  | c :: l' => negb (raises W t c) && answers_all W (t ++ [c]) l'
  end.

(** True when [fen] was accepted by an [is_fen_valid] among the calls
    [rest], which were issued after the calls [seen]. *)
Fixpoint accepted (W : engine) (seen rest : list call) (fen : string) : bool :=
  match rest with
  | [] => false
  | c :: rest' =>
      match c with
      | is_fen_valid sf f =>
          String.eqb f fen
          && match W seen (is_fen_valid sf f) with Ok true => true | _ => false end
      | _ => false
      end
      || accepted W (seen ++ [c]) rest' fen
  end.

(** Validation precedes position assignment: every [set_fen_position] of the
    trace is issued on a position that an earlier [is_fen_valid] accepted. *)
Fixpoint validated_before_set (W : engine) (seen rest : list call) : bool :=
  match rest with
  | [] => true
  | c :: rest' =>
      match c with
      | set_fen_position _ fen => accepted W [] seen fen
      | _ => true
      end
      && validated_before_set W (seen ++ [c]) rest'
  end.

End Stockfish.

Import Stockfish.

Declare Scope py_scope.
Delimit Scope py_scope with py.
Notation "x <- m ;; k" := (bind m (fun x => k))
  (at level 61, m at next level, right associativity) : py_scope.
Notation "m ;; k" := (bind m (fun _ => k))
  (at level 61, right associativity) : py_scope.

(** ** What the excluded collaborators deliver *)

Module Vision.

(** [corners = [x0, y0, x1, y1]] *)
Record corners : Type := { x0 : Z; y0 : Z; x1 : Z; y1 : Z }.

(** The loaded picture; its content plays no part here. *)
Inductive img : Type := Img.

(** Loading the image file. *)
Inductive image_step : Type :=
| image_missing
| image_raises
| image_loaded (i : img).

(** [chessboard_finder.findGrayscaleTilesInImage(img)] *)
Inductive board_step : Type :=
| board_raises
| board_not_found
| board_found (c : corners).

(** The [try] block around [predictor.getPrediction(tiles)]: something in
    it raises, the predicted position is [None], or it is a string. *)
Inductive prediction_step : Type :=
| prediction_raises
| prediction_none
| prediction_fen (fen : string).

Record scene : Type :=
  { image : image_step; board : board_step; prediction : prediction_step }.

End Vision.

Import Vision.

(** ** sicily.py: orientation and rotation *)

Module Sicily.

Inductive orientation : Type := normal | flipped.

(** The side to move, ['w'] or ['b']. *)
Inductive player : Type := w | b.

Definition player_letter (p : player) : string :=
  match p with w => "w" | b => "b" end.

Definition is_white_piece (c : ascii) : bool := isupper c && isalpha c.
Definition is_black_piece (c : ascii) : bool := islower c && isalpha c.

(** The body of the [try] block of [detect_board_orientation]. *)
Definition detect_board_orientation_try (fen : pyval)
  : result (orientation * player) :=
  (ranks <- py_split fen "/" ;;
   bottom_rank <- index_last ranks ;;
   top_rank <- index_first ranks ;;
   let bottom_white := count is_white_piece bottom_rank in
   let bottom_black := count is_black_piece bottom_rank in
   let top_white := count is_white_piece top_rank in
   let top_black := count is_black_piece top_rank in
   if (bottom_white >? bottom_black)%Z then Ok (normal, w)
   else if (bottom_black >? bottom_white)%Z then Ok (flipped, b)
   else if contains "r" bottom_rank || contains "k" bottom_rank
           || contains "q" bottom_rank
        then Ok (flipped, b)
        else Ok (normal, w))%result.

(** [detect_board_orientation(fen)]: the bare [except] returns the default. *)
Definition detect_board_orientation (fen : pyval) : orientation * player :=
  match detect_board_orientation_try fen with
  | Ok r => r
  | Raise _ => (normal, w)
  end.

(** The body of the [try] block of [flip_fen]. *)
Definition flip_fen_try (fen : pyval) : result pyval :=
  (ranks <- py_split fen "/" ;;
   let flipped_ranks := map reversed_str (rev ranks) in
   Ok (PyStr (join "/" flipped_ranks)))%result.

(** [flip_fen(fen)]: on an exception the argument is returned as it is. *)
Definition flip_fen (fen : pyval) : pyval :=
  match flip_fen_try fen with
  | Ok r => r
  | Raise _ => fen
  end.

(** [flip_fen] on a [str], as the pipeline calls it. *)
Definition flip_fen_str (fen : string) : string :=
  join "/" (map reversed_str (rev (split "/" fen))).

(** A well-formed placement: exactly 8 ranks, each accounting for exactly
    8 squares, a letter for an occupied square and a digit for that many
    consecutive empty squares. *)
Fixpoint rank_squares (rank : string) : option Z :=
  match rank with
  | EmptyString => Some 0%Z
  | String c r =>
      match rank_squares r with
      | None => None
      | Some n =>
          if isalpha c then Some (1 + n)%Z
          else if isdigit c then Some (Z.of_N (code c) - 48 + n)%Z
          else None
      end
  end.

Definition well_formed_rank (rank : string) : bool :=
  match rank_squares rank with
  | Some n => (n =? 8)%Z
  | None => false
  end.

Definition well_formed (placement : string) : bool :=
  let ranks := split "/" placement in
  (List.length ranks =? 8)%nat && forallb well_formed_rank ranks.

(** *** sicily.py: the pipeline *)

(** [(fen, best_move, success)] *)
Definition retval : Type := option string * option string * bool.

(** The lines printed from computed values at the end of a query. *)
Inductive output : Type :=
| best_move_line (active_player : player) (best_move : string)
| evaluation_line (display_evaluation : evaluation)
| top_move_line (i : Z) (move : string) (centipawn : option Z).

(** [stockfish_params] *)
Record params : Type := { skill_level : Z; elo : Z; depth : Z }.

Definition sample_fen : string := "rnbqkbnr/pppppppp/8/8/4P3/8/PPPP1PPP/RNBQKBNR".

Definition start_fen : string :=
  "rnbqkbnr/pppppppp/8/8/8/8/PPPPPPPP/RNBQKBNR w KQkq - 0 1".

(** [f"{short_fen} {active_player} KQkq - 0 1"] *)
Definition with_full_rights (short_fen : string) (active_player : player) : string :=
  short_fen ++ " " ++ player_letter active_player ++ " KQkq - 0 1".

(** [f"{short_fen} {active_player} - - 0 1"] *)
Definition with_no_rights (short_fen : string) (active_player : player) : string :=
  short_fen ++ " " ++ player_letter active_player ++ " - - 0 1".

(** ['b' if active_player == 'w' else 'w'] *)
Definition opposite (active_player : player) : player :=
  match active_player with w => b | b => w end.

(** The placeholder of line 419. *)
Definition unknown_evaluation : evaluation := Placeholder.

(** Lines 425-430: the evaluation as displayed. *)
Definition display_evaluation (active_player : player)
  (evaluation : Stockfish.evaluation) : Stockfish.evaluation :=
  match active_player with
  | b =>
      match evaluation with
      | Score type (Some value) =>
          if String.eqb type "cp" then Score type (Some (- value)%Z)
          else if String.eqb type "mate" then Score type (Some (- value)%Z)
          else evaluation
      | _ => evaluation
      end
  | w => evaluation
  end.

(** Lines 437-439: the centipawn score of a ranked move as displayed. *)
Definition display_centipawn (active_player : player) (centipawn : option Z)
  : option Z :=
  match active_player, centipawn with
  | b, Some c => Some (- c)%Z
  | _, _ => centipawn
  end.

(** [if best_move:] *)
Definition truthy (best_move : option string) : bool :=
  match best_move with
  | Some (String _ _) => true
  | _ => false
  end.

(** A block of [test_move_generation]. *)
Definition block (A : Type) : Type := M retval output A.

Section Pipeline.

Variable W : engine.

(** [helper_functions.shortenFEN], which is not part of the repository. *)
Variable shortenFEN : string -> string.

Local Open Scope py_scope.


(** [init_stockfish(stockfish_params)]: the session, or [None]. *)
Definition init_stockfish (stockfish_params : option params) : block (option handle) :=
  try_except
    (stockfish <- Stockfish W ;;
     ask W (reset_engine_parameters stockfish) ;;
     match stockfish_params with
     | Some p =>
         ask W (set_skill_level stockfish (skill_level p)) ;;
         ask W (set_depth stockfish (depth p))
     | None =>
         ask W (set_skill_level stockfish 10) ;;
         ask W (set_depth stockfish 6)
     end ;;
     ret (Some stockfish))
    (ret None).

(** Lines 272-334: from the prediction to
    [(fen, short_fen, active_player, full_fen)]. *)
Definition analyse_board (p : prediction_step) (manual_side : option player)
  : block (string * string * player * string) :=
  match p with
  | prediction_none => return_ (None, None, false)
  | prediction_fen fen =>
      let short_fen := shortenFEN fen in
      let '(short_fen, active_player) :=
        match manual_side with
        | Some side =>
            match side with
            | b => (flip_fen_str short_fen, side)
            | w => (short_fen, side)
            end
        | None =>
            let '(orientation, active_player) :=
              detect_board_orientation (PyStr short_fen) in
            match orientation with
            | flipped => (flip_fen_str short_fen, active_player)
            | normal => (short_fen, active_player)
            end
        end in
      ret (fen, short_fen, active_player, with_full_rights short_fen active_player)
  | prediction_raises =>
      let fen := sample_fen in
      let short_fen := shortenFEN fen in
      let '(orientation, active_player) :=
        detect_board_orientation (PyStr short_fen) in
      ret (fen, short_fen, active_player, with_full_rights short_fen active_player)
  end.

(** Lines 340-360: validate the position before it is set, repairing it
    if the engine rejects it. Yields [(full_fen, active_player)]. *)
Definition repair (stockfish : handle) (short_fen : string)
  (active_player : player) (full_fen : string) : block (string * player) :=
  valid <- (ask W (is_fen_valid stockfish full_fen) : block bool) ;;
  if negb valid then
    let simplified_fen := with_no_rights short_fen active_player in
    valid <- (ask W (is_fen_valid stockfish simplified_fen) : block bool) ;;
    if valid then ret (simplified_fen, active_player)
    else
      let opposite_player := opposite active_player in
      let opposite_fen := with_no_rights short_fen opposite_player in
      valid <- (ask W (is_fen_valid stockfish opposite_fen) : block bool) ;;
      if valid then ret (opposite_fen, opposite_player)
      else return_ (Some short_fen, None, false)
  else ret (full_fen, active_player).

(** Lines 365-373: is the engine still responsive? *)
Definition probe (stockfish : handle) (fen : string) : block unit :=
  try_except
    (alive <- (ask W (is_fen_valid stockfish start_fen) : block bool) ;;
     if negb alive then return_ (Some fen, None, false) else ret tt)
    (return_ (Some fen, None, false)).

(** Lines 375-406: the ranked moves, with one restart of the engine and one
    best-move request as the last resort. Yields the session in use and
    [top_moves]. *)
Definition ranked_moves (stockfish : handle) (stockfish_params : option params)
  (fen short_fen full_fen : string)
  : block (handle * option (list move_data)) :=
  try_except
    (top_moves <- (ask W (get_top_moves stockfish 3)
                   : block (option (list move_data))) ;;
     ret (stockfish, top_moves))
    (restarted <- init_stockfish stockfish_params ;;
     match restarted with
     | None => return_ (Some fen, None, false)
     | Some stockfish =>
         try_except
           (ask W (set_fen_position stockfish full_fen) ;;
            top_moves <- (ask W (get_top_moves stockfish 3)
                   : block (option (list move_data))) ;;
            ret (stockfish, top_moves))
           (try_except
              (best_move <- (ask W (get_best_move stockfish) : block (option string)) ;;
               if truthy best_move
               then return_ (Some short_fen, best_move, true)
               else return_ (Some fen, None, false))
              (return_ (Some fen, None, false)))
     end).

(** Lines 434-440: one line per ranked move, numbered from 1. *)
Fixpoint print_top_moves (active_player : player) (i : Z)
  (top_moves : list move_data) : block unit :=
  match top_moves with
  | [] => ret tt
  | move_data :: rest =>
      print (top_move_line i (Move move_data)
               (display_centipawn active_player (Centipawn move_data))) ;;
      print_top_moves active_player (i + 1)%Z rest
  end.

(** Lines 408-442: from [top_moves] to the result. *)
Definition report (stockfish : handle) (fen short_fen : string)
  (active_player : player) (top_moves : option (list move_data)) : block unit :=
  match top_moves with
  | None | Some [] => return_ (Some fen, None, false)
  | Some ((first :: _) as top_moves) =>
      let best_move := Move first in
      evaluation <- try_except (ask W (get_evaluation stockfish) : block evaluation)
                               (ret unknown_evaluation) ;;
      print (best_move_line active_player best_move) ;;
      print (evaluation_line (display_evaluation active_player evaluation)) ;;
      print_top_moves active_player 1 top_moves ;;
      return_ (Some short_fen, Some best_move, true)
  end.

(** Lines 362-442: the query on a validated position. *)
Definition query (stockfish : handle) (stockfish_params : option params)
  (fen short_fen : string) (active_player : player) (full_fen : string)
  : block unit :=
  ask W (set_fen_position stockfish full_fen) ;;
  probe stockfish fen ;;
  session <- ranked_moves stockfish stockfish_params fen short_fen full_fen ;;
  report (fst session) fen short_fen active_player (snd session).

(** Lines 336-446: the [try] block around validation and query. *)
Definition generate (stockfish : handle) (stockfish_params : option params)
  (fen short_fen : string) (active_player : player) (full_fen : string)
  : block unit :=
  try_except
    (position <- repair stockfish short_fen active_player full_fen ;;
     query stockfish stockfish_params fen short_fen (snd position) (fst position))
    (return_ (Some fen, None, false)).

(** [test_move_generation(image_path, stockfish_params, manual_side)] *)
Definition test_move_generation_body (sc : scene)
  (stockfish_params : option params) (manual_side : option player) : block unit :=
  stockfish <- init_stockfish stockfish_params ;;
  match stockfish with
  | None => return_ (None, None, false)
  | Some stockfish =>
      match image sc with
      | image_loaded _ => ret tt
      | _ => return_ (None, None, false)
      end ;;
      match board sc with
      | board_found _ => ret tt
      | _ => return_ (None, None, false)
      end ;;
      position <- analyse_board (prediction sc) manual_side ;;
      let '(fen, short_fen, active_player, full_fen) := position in
      generate stockfish stockfish_params fen short_fen active_player full_fen
  end.

(** A call of the function from a fresh process: the final state, and the
    returned tuple or the exception that escapes. Falling off the end of
    a Python function returns [None]. *)
Definition test_move_generation (sc : scene)
  (stockfish_params : option params) (manual_side : option player)
  : state output * result (option retval) :=
  match test_move_generation_body sc stockfish_params manual_side start with
  | (st, Returned r) => (st, Ok (Some r))
  | (st, Next _) => (st, Ok None)
  | (st, Raised e) => (st, Raise e)
  end.

End Pipeline.

End Sicily.

(** ** test.py *)

Module TestPy.

(** [square[i]] *)
Definition char_at (square : string) (i : nat) : result ascii :=
  match String.get i square with
  | Some c => Ok c
  | None => Raise IndexError
  end.

(** [int(c)] for a one-character string. *)
Definition int_of_char (c : ascii) : result Z :=
  if isdigit c then Ok (Z.of_N (code c) - 48)%Z else Raise ValueError.

(** [int(x)] for a float: truncation towards zero. *)
Definition int_of_float (x : Q) : Z := Z.quot (Qnum x) (Zpos (Qden x)).

(** [square_to_coordinates(square, corners)]: [None], or the pixel. *)
Definition square_to_coordinates (square : string) (corners : corners)
  : result (option (Z * Z)) :=
  if negb (String.length square =? 2)%nat then Ok None
  else
    (c0 <- char_at square 0 ;;
     c1 <- char_at square 1 ;;
     let file := (Z.of_N (code c0) - Z.of_N (code "a"))%Z in
     digit <- int_of_char c1 ;;
     let rank := (digit - 1)%Z in
     let board_width := (x1 corners - x0 corners)%Z in
     let board_height := (y1 corners - y0 corners)%Z in
     let square_width := (inject_Z board_width / 8)%Q in
     let square_height := (inject_Z board_height / 8)%Q in
     let x := (inject_Z (x0 corners) + (inject_Z file + (1 # 2)) * square_width)%Q in
     let y := (inject_Z (y1 corners) - (inject_Z rank + (1 # 2)) * square_height)%Q in
     Ok (Some (int_of_float x, int_of_float y)))%result.

(** [(fen, best_move, corners, img, success)] *)
Definition retval : Type :=
  option string * option string * option corners * option img * bool.

Inductive output : Type :=
| best_move_line (best_move : string)
| evaluation_line (evaluation : Stockfish.evaluation)
| top_move_line (i : Z) (move : string) (centipawn : option Z).

Definition block (A : Type) : Type := M retval output A.

Definition sample_fen : string := "rnbqkbnr/pppppppp/8/8/4P3/8/PPPP1PPP/RNBQKBNR".

Section Pipeline.

Variable W : engine.

(** [helper_functions.shortenFEN], which is not part of the repository. *)
Variable shortenFEN : string -> string.

Local Open Scope py_scope.

(** Lines 294-298: one line per ranked move, numbered from 1. *)
Fixpoint print_top_moves (i : Z) (top_moves : list move_data) : block unit :=
  match top_moves with
  | [] => ret tt
  | move_data :: rest =>
      print (top_move_line i (Move move_data) (Centipawn move_data)) ;;
      print_top_moves (i + 1)%Z rest
  end.

(** Lines 256-304: the position is set first and checked afterwards. *)
Definition generate (stockfish : handle) (fen short_fen full_fen : string)
  (corners : corners) (img : img) : block unit :=
  try_except
    (ask W (set_fen_position stockfish full_fen) ;;
     valid <- (ask W (is_fen_valid stockfish full_fen) : block bool) ;;
     full_fen <-
       (if negb valid then
          let simplified_fen := (short_fen ++ " w - - 0 1")%string in
          valid <- (ask W (is_fen_valid stockfish simplified_fen) : block bool) ;;
          if valid then ret simplified_fen
          else
            let black_fen := (short_fen ++ " b - - 0 1")%string in
            valid <- (ask W (is_fen_valid stockfish black_fen) : block bool) ;;
            if valid then ret black_fen
            else return_ (Some short_fen, None, Some corners, Some img, false)
        else ret full_fen) ;;
     best_move <- (ask W (get_best_move stockfish) : block (option string)) ;;
     match best_move with
     | None => return_ (Some fen, None, Some corners, Some img, false)
     | Some move =>
         evaluation <- (ask W (get_evaluation stockfish) : block evaluation) ;;
         print (best_move_line move) ;;
         print (evaluation_line evaluation) ;;
         top_moves <- (ask W (get_top_moves stockfish 3)
                       : block (option (list move_data))) ;;
         match top_moves with
         | Some l => print_top_moves 1 l
         | None => raise TypeError
         end ;;
         return_ (Some short_fen, best_move, Some corners, Some img, true)
     end)
    (return_ (Some fen, None, Some corners, Some img, false)).

(** [test_move_generation(image_path)] *)
Definition test_move_generation_body (sc : scene) : block unit :=
  stockfish <-
    try_except
      (stockfish <- Stockfish W ;;
       ask W (reset_engine_parameters stockfish) ;;
       ask W (set_skill_level stockfish 10) ;;
       ask W (set_depth stockfish 6) ;;
       ret stockfish)
      (return_ (None, None, None, None, false)) ;;
  img <- match image sc with
         | image_loaded i => ret i
         | _ => return_ (None, None, None, None, false)
         end ;;
  corners <- match board sc with
             | board_found c => ret c
             | _ => return_ (None, None, None, None, false)
             end ;;
  position <-
    match prediction sc with
    | prediction_none => return_ (None, None, None, None, false)
    | prediction_fen fen =>
        let short_fen := shortenFEN fen in
        ret (fen, short_fen, (short_fen ++ " w KQkq - 0 1")%string)
    | prediction_raises =>
        let fen := sample_fen in
        ret (fen, shortenFEN fen, (fen ++ " w KQkq - 0 1")%string)
    end ;;
  let '(fen, short_fen, full_fen) := position in
  generate stockfish fen short_fen full_fen corners img.

Definition test_move_generation (sc : scene)
  : state output * result (option retval) :=
  match test_move_generation_body sc start with
  | (st, Returned r) => (st, Ok (Some r))
  | (st, Next _) => (st, Ok None)
  | (st, Raised e) => (st, Raise e)
  end.

End Pipeline.

End TestPy.

(** ** Engines used to run the scripts on concrete inputs *)

Module Engines.

(** Every call raises. *)
Definition dead : engine := fun _ _ => Raise EngineError.

(** Every call succeeds: [valid] decides [is_fen_valid], the other
    requests return the given values. *)
Definition healthy (valid : string -> bool) (top_moves : option (list move_data))
  (best_move : option string) (ev : evaluation) : engine :=
  fun _ c =>
    match c as c0 return result (resp c0) with
    | Stockfish_new => Ok tt
    | reset_engine_parameters _ => Ok tt
    | set_skill_level _ _ => Ok tt
    | set_depth _ _ => Ok tt
    | is_fen_valid _ fen => Ok (valid fen)
    | set_fen_position _ _ => Ok tt
    | get_top_moves _ _ => Ok top_moves
    | get_best_move _ => Ok best_move
    | get_evaluation _ => Ok ev
    end.

(** The process behind the sessions answers its first [n] calls and then
    hangs: sessions can still be created and configured, every request
    on them raises. *)
Definition hangs_after (n : nat) (E : engine) : engine :=
  fun t c =>
    if (List.length t <? n)%nat then E t c
    else
      match c as c0 return result (resp c0) with
      | Stockfish_new => Ok tt
      | reset_engine_parameters _ => Ok tt
      | set_skill_level _ _ => Ok tt
      | set_depth _ _ => Ok tt
      | _ => Raise EngineError
      end.

(** [get_evaluation] raises, everything else is answered by [E]. *)
Definition without_evaluation (E : engine) : engine :=
  fun t c =>
    match c as c0 return result (resp c0) with
    | get_evaluation _ => Raise EngineError
    | c0 => E t c0
    end.

(** Requests for moves raise, everything else is answered by [E]. *)
Definition without_moves (E : engine) : engine :=
  fun t c =>
    match c as c0 return result (resp c0) with
    | get_top_moves _ _ => Raise EngineError
    | get_best_move _ => Raise EngineError
    | c0 => E t c0
    end.

Definition accept_all (fen : string) : bool := true.
Definition reject_all (fen : string) : bool := false.
Definition accept_only (good fen : string) : bool := String.eqb fen good.

Definition start_placement : string := "rnbqkbnr/pppppppp/8/8/8/8/PPPPPPPP/RNBQKBNR".

Definition e2e4 : move_data :=
  {| Move := "e2e4"; Centipawn := Some 35%Z; Mate := None |}.
Definition d2d4 : move_data :=
  {| Move := "d2d4"; Centipawn := None; Mate := Some 3%Z |}.

(** A ranked move that mates in [n]. *)
Definition mate_in (move : string) (n : Z) : move_data :=
  {| Move := move; Centipawn := None; Mate := Some n |}.

Definition photo : scene :=
  {| image := image_loaded Img;
     board := board_found {| x0 := 0; y0 := 0; x1 := 800; y1 := 800 |};
     prediction := prediction_fen "rnbqkbnr/pppppppp/8/8/8/8/PPPPPPPP/RNBQKBNR" |}.

(** A stand-in for [shortenFEN] on positions that are already short. *)
Definition already_short (fen : string) : string := fen.

End Engines.

(** ** The lines a query prints, in the words of the specification *)

Module Display.

(** [enumerate(l, start)] *)
Fixpoint enumerate {A : Type} (start : Z) (l : list A) : list (Z * A) :=
  match l with
  | [] => []
  | x :: l' => (start, x) :: enumerate (start + 1)%Z l'
  end.

(** One line per ranked move: its number from 1, the move, and its
    centipawn score seen from the side to move. *)
Definition top_move_lines (active_player : Sicily.player)
  (top_moves : list move_data) : list Sicily.output :=
  map (fun im : Z * move_data =>
         Sicily.top_move_line (fst im) (Move (snd im))
           (Sicily.display_centipawn active_player (Centipawn (snd im))))
      (enumerate 1 top_moves).

(** What a query has printed once it reports a best move. *)
Definition report_lines (active_player : Sicily.player) (ev : evaluation)
  (top_moves : list move_data) : list Sicily.output :=
  match top_moves with
  | [] => []
  | first :: _ =>
      Sicily.best_move_line active_player (Move first)
      :: Sicily.evaluation_line (Sicily.display_evaluation active_player ev)
      :: top_move_lines active_player top_moves
  end.

Definition printing (lines : list Sicily.output) (st : state Sicily.output)
  : state Sicily.output :=
  {| calls := calls st; printed := printed st ++ lines |}.

End Display.

Import Display.

(** ** The restart of the engine, in the words of the specification *)

Module Ladder.

(** The skill level and the depth that [init_stockfish] configures. *)
Definition settings (stockfish_params : option Sicily.params) : Z * Z :=
  match stockfish_params with
  | Some p => (Sicily.skill_level p, Sicily.depth p)
  | None => (10, 6)%Z
  end.

(** Constructing the session [sf] with a configuration. *)
Definition construction (sf : handle) (stockfish_params : option Sicily.params)
  : list call :=
  [Stockfish_new; reset_engine_parameters sf;
   set_skill_level sf (fst (settings stockfish_params));
   set_depth sf (snd (settings stockfish_params))].

End Ladder.

Import Ladder.

(** ** The centre of a square, in the words of the specification *)

Module Geometry.

(** [file] and [rank] are the indices of the square, which is one eighth
    of the box in each direction; the vertical axis of the image points
    down, so the rank is counted from the lower edge [y1]. *)
Definition centre (file rank : Z) (c : corners) : Z * Z :=
  (TestPy.int_of_float
     (inject_Z (x0 c) + (inject_Z file + (1 # 2)) * (inject_Z (x1 c - x0 c) / 8)),
   TestPy.int_of_float
     (inject_Z (y1 c) - (inject_Z rank + (1 # 2)) * (inject_Z (y1 c - y0 c) / 8))).

Definition board_800 : corners := {| x0 := 0; y0 := 0; x1 := 800; y1 := 800 |}.

End Geometry.

Import Geometry.

(** ** Console input: the string operations of the entry points *)

Module Console.

(** [c.isspace()], the characters that [str.strip()] removes. *)
Definition isspace (c : ascii) : bool :=
  in_range 9 13 c || in_range 28 32 c || (code c =? 133)%N || (code c =? 160)%N.

(** The characters that [int()] skips around a number. *)
Definition int_space (c : ascii) : bool :=
  in_range 9 13 c || (code c =? 32)%N || (code c =? 133)%N || (code c =? 160)%N.

Fixpoint lstrip (p : ascii -> bool) (s : string) : string :=
  match s with
  | EmptyString => EmptyString
  | String c s' => if p c then lstrip p s' else s
  end.

Definition rstrip (p : ascii -> bool) (s : string) : string :=
  reversed_str (lstrip p (reversed_str s)).

(** [s.strip()] *)
Definition strip (s : string) : string := rstrip isspace (lstrip isspace s).

(** [c.lower()] for a one-character string, code points 0..255. *)
Definition lower_char (c : ascii) : ascii :=
  if isupper c then ascii_of_N (code c + 32) else c.

(** [s.lower()] *)
Fixpoint lower (s : string) : string :=
  match s with
  | EmptyString => EmptyString
  | String c s' => String (lower_char c) (lower s')
  end.

(** [s[a:b]] for [0 <= a <= b]: the indices are clipped to the string. *)
Fixpoint slice (a b : nat) (s : string) : string :=
  match s with
  | EmptyString => EmptyString
  | String c s' =>
      match a, b with
      | _, O => EmptyString
      | O, S b' => String c (slice 0 b' s')
      | S a', S b' => slice a' b' s'
      end
  end.

(** [s[a:]] *)
Fixpoint slice_from (a : nat) (s : string) : string :=
  match a, s with
  | O, _ => s
  | S a', String _ s' => slice_from a' s'
  | S _, EmptyString => EmptyString
  end.

(** The digits of a decimal literal, single underscores allowed between
    them: the value and the number of digits read. [after_digit] tells
    whether the previous character was a digit. *)
Fixpoint digits (s : string) (acc : Z) (n : nat) (after_digit : bool)
  : option (Z * nat) :=
  match s with
  | EmptyString => if after_digit then Some (acc, n) else None
  | String c s' =>
      if isdigit c then digits s' (10 * acc + (Z.of_N (code c) - 48))%Z (S n) true
      else if Ascii.eqb c "_" then
             if after_digit then digits s' acc n false else None
           else None
  end.

(** The largest number of digits [int()] converts
    ([sys.get_int_max_str_digits()]). *)
Definition max_str_digits : nat := 4300.

(** [int(s)] for a [str]. *)
Definition int_of_str (s : string) : result Z :=
  let t := rstrip int_space (lstrip int_space s) in
  let '(negative, body) :=
    match t with
    | String "+" r => (false, r)
    | String "-" r => (true, r)
    | _ => (false, t)
    end in
  match digits body 0 0 false with
  | Some (v, n) =>
      if (max_str_digits <? n)%nat then Raise ValueError
      else Ok (if negative then (- v)%Z else v)
  | None => Raise ValueError
  end.

End Console.

Import Console.

(** ** sicily.py: configuration prompt and interactive loop *)

Module SicilyCli.

(** What a function that reads the console ends with: a value, or the
    [EOFError] that [input()] raises at the end of the input, which no
    handler of these functions catches. *)
Inductive console (A : Type) : Type :=
| Returns (a : A)
| EOFError.
Arguments Returns {A} a.
Arguments EOFError {A}.

(** [min(20, max(0, int((elo - 800) / 120)))] *)
Definition skill_of_elo (elo : Z) : Z :=
  Z.min 20 (Z.max 0 (TestPy.int_of_float (inject_Z (elo - 800) / 120)%Q)).

(** Lines 28-79 of [get_stockfish_parameters]: the loop that reads the
    strength, on the lines still to be read. Yields
    [(skill_level, elo)] and the lines left. *)
Fixpoint read_strength (inputs : list string) : console (Z * Z * list string) :=
  match inputs with
  | [] => EOFError
  | line :: rest =>
      let choice := strip line in
      if String.eqb choice "1" then Returns (0, 800, rest)%Z
      else if String.eqb choice "2" then Returns (3, 1200, rest)%Z
      else if String.eqb choice "3" then Returns (6, 1600, rest)%Z
      else if String.eqb choice "4" then Returns (10, 2000, rest)%Z
      else if String.eqb choice "5" then Returns (15, 2400, rest)%Z
      else if String.eqb choice "6" then Returns (20, 2800, rest)%Z
      else if String.eqb choice "" then
        match rest with
        | [] => EOFError
        | answer :: rest' =>
            match int_of_str answer with
            | Ok elo =>
                if (800 <=? elo)%Z && (elo <=? 3200)%Z
                then Returns (skill_of_elo elo, elo, rest')
                else read_strength rest'
            | Raise _ => read_strength rest'
            end
        end
      else read_strength rest
  end.

(** Lines 82-92: the loop that reads the depth. *)
Fixpoint read_depth (inputs : list string) : console (Z * list string) :=
  match inputs with
  | [] => EOFError
  | line :: rest =>
      match int_of_str line with
      | Ok depth =>
          if (1 <=? depth)%Z && (depth <=? 20)%Z then Returns (depth, rest)
          else read_depth rest
      | Raise _ => read_depth rest
      end
  end.

(** [get_stockfish_parameters()], on the lines typed: the parameters and
    the lines left for the caller. *)
Definition get_stockfish_parameters (inputs : list string)
  : console (Sicily.params * list string) :=
  match read_strength inputs with
  | EOFError => EOFError
  | Returns (skill_level, elo, rest) =>
      match read_depth rest with
      | EOFError => EOFError
      | Returns (depth, rest') =>
          Returns ({| Sicily.skill_level := skill_level; Sicily.elo := elo;
                      Sicily.depth := depth |}, rest')
      end
  end.

(** What a line typed at the [Ready>] prompt asks for. *)
Inductive command : Type :=
| quit
| analyse (manual_side : option Sicily.player)
| unknown.

(** Lines 471-495 and 521-522: [input().strip().lower()] and its cases. *)
Definition parse_command (line : string) : command :=
  let user_input := lower (strip line) in
  if String.eqb user_input "q" then quit
  else if String.eqb user_input "" then analyse None
  else if String.eqb user_input "w" then analyse (Some Sicily.w)
  else if String.eqb user_input "b" then analyse (Some Sicily.b)
  else unknown.

(** What the collaborators of one analysis deliver: no screenshot, or the
    tuple that [test_move_generation] returns on it. *)
Inductive analysis : Type :=
| no_screenshot
| analysed (r : Sicily.retval).

(** The results that [main] prints. *)
Inductive event : Type :=
| analysis_header (analysis_count : nat)
| skipping
| success_lines (fen : option string) (best_move from_square to_square : string)
    (promotion : option string)
| failed_line
| unknown_command
| error_line
| goodbye.

(** Lines 504-512: the report of one result. With [success] and no move,
    [best_move[:2]] raises, which is the [None] here. *)
Definition result_lines (r : Sicily.retval) : option (list event) :=
  let '(fen, best_move, success) := r in
  if success then
    match best_move with
    | Some move =>
        Some [success_lines fen move (slice 0 2 move) (slice 2 4 move)
                (if (4 <? String.length move)%nat then Some (slice_from 4 move)
                 else None)]
    | None => None
    end
  else Some [failed_line].

(** Lines 468-529: [fuel] iterations of the [while True] loop, on the
    lines typed. The result is what was printed and whether the loop was
    left. At the end of the input [input()] raises [EOFError], which the
    handler of line 527 catches like any other exception. A
    [KeyboardInterrupt] (line 524) is no line of the input and has no
    place here. *)
Fixpoint main_loop (fuel : nat) (shots : nat -> option Sicily.player -> analysis)
  (inputs : list string) (analysis_count : nat) : list event * bool :=
  match fuel with
  | O => ([], false)
  | S fuel' =>
      match inputs with
      | [] =>
          let '(events, exited) := main_loop fuel' shots [] analysis_count in
          (error_line :: events, exited)
      | line :: rest =>
          match parse_command line with
          | quit => ([goodbye], true)
          | analyse manual_side =>
              let analysis_count := S analysis_count in
              let printed :=
                match shots analysis_count manual_side with
                | no_screenshot => [analysis_header analysis_count; skipping]
                | analysed r =>
                    match result_lines r with
                    | Some lines => analysis_header analysis_count :: lines
                    | None => [analysis_header analysis_count; error_line]
                    end
                end in
              let '(events, exited) := main_loop fuel' shots rest analysis_count in
              (printed ++ events, exited)
          | unknown =>
              let '(events, exited) := main_loop fuel' shots rest analysis_count in
              (unknown_command :: events, exited)
          end
      end
  end.

(** [main()]: the configuration, then the loop. *)
Definition main (fuel : nat) (shots : nat -> option Sicily.player -> analysis)
  (inputs : list string) : console (list event * bool) :=
  match get_stockfish_parameters inputs with
  | EOFError => EOFError
  | Returns (_, rest) => Returns (main_loop fuel shots rest 0)
  end.

End SicilyCli.

(** ** test.py: annotation of the image *)

Module TestPyCli.

(** A file letter a-h followed by a rank digit 1-8. *)
Definition board_square (c0 c1 : ascii) : bool :=
  in_range 97 104 c0 && in_range 49 56 c1.

(** [draw_move_on_image(img, move, corners, output_path)], lines 61-78 and
    the final [return]: [None], or the pixels between which the arrow is
    drawn. The drawing itself is left to the imaging library. *)
Definition draw_move_on_image (move : option string) (corners : corners)
  : result (option ((Z * Z) * (Z * Z))) :=
  match move with
  | None => Ok None
  | Some move =>
      if String.eqb move "" || (String.length move <? 4)%nat then Ok None
      else
        let from_square := slice 0 2 move in
        let to_square := slice 2 4 move in
        (from_coords <- TestPy.square_to_coordinates from_square corners ;;
         to_coords <- TestPy.square_to_coordinates to_square corners ;;
         match from_coords, to_coords with
         | Some f, Some t => Ok (Some (f, t))
         | _, _ => Ok None
         end)%result
  end.

(** [f"{image_path.split('.')[0]}_out.png"], line 338. *)
Definition output_path (image_path : string) : result string :=
  (stem <- index_first (split "." image_path) ;;
   Ok (stem ++ "_out.png")%string)%result.

End TestPyCli.

(** ** What the runs promise, in words of their own *)

Module Runs.

(** The shape of a tuple that sicily.py returns: a move exactly on
    success, and then with a position. *)
Definition well_shaped (r : Sicily.retval) : Prop :=
  let '(fen, best_move, success) := r in
  (success = true <-> best_move <> None) /\ (success = true -> fen <> None).

(** A block ends well: it raises, returns a well-shaped tuple, or (when
    it may) falls through. *)
Definition outcome_shaped {A : Type} (may_fall_through : bool)
  (o : outcome Sicily.retval A) : Prop :=
  match o with
  | Next _ => may_fall_through = true
  | Raised _ => True
  | Returned r => well_shaped r
  end.

(** The shape of a tuple that test.py returns: a move exactly on success;
    corners and image together, and always with a position. *)
Definition test_py_well_shaped (r : TestPy.retval) : Prop :=
  let '(fen, best_move, corners, img, success) := r in
  (success = true <-> best_move <> None)
  /\ (fen <> None <-> corners <> None)
  /\ (corners <> None <-> img <> None).

Definition test_py_outcome_shaped {A : Type} (may_fall_through : bool)
  (o : outcome TestPy.retval A) : Prop :=
  match o with
  | Next _ => may_fall_through = true
  | Raised _ => True
  | Returned r => test_py_well_shaped r
  end.

(** Did the vision steps deliver an image, a board and a position (or
    fail in the prediction, which falls back to the sample position)? *)
Definition vision_ready (sc : scene) : bool :=
  match image sc, board sc, prediction sc with
  | image_loaded _, board_found _, prediction_none => false
  | image_loaded _, board_found _, _ => true
  | _, _, _ => false
  end.

(** Is the position analysed for Black? *)
Definition plays_black (manual_side : option Sicily.player) (short_fen : string)
  : bool :=
  match manual_side with
  | Some Sicily.b => true
  | Some Sicily.w => false
  | None =>
      match Sicily.detect_board_orientation (PyStr short_fen) with
      | (Sicily.flipped, _) => true
      | (Sicily.normal, _) => false
      end
  end.

(** The first position handed to the validator. *)
Definition first_position (black : bool) (short_fen : string) : string :=
  if black then (reversed_str short_fen ++ " b KQkq - 0 1")%string
  else (short_fen ++ " w KQkq - 0 1")%string.

End Runs.

(** ** The answers at the prompts, in words of their own *)

Module Menu.

(** The six presets: skill level and ELO. *)
Definition presets : list (string * (Z * Z)) :=
  [("1", (0, 800)); ("2", (3, 1200)); ("3", (6, 1600));
   ("4", (10, 2000)); ("5", (15, 2400)); ("6", (20, 2800))]%Z.

Fixpoint lookup (key : string) (table : list (string * (Z * Z))) : option (Z * Z) :=
  match table with
  | [] => None
  | (k, v) :: table' => if String.eqb key k then Some v else lookup key table'
  end.

(** The preset that a line selects. *)
Definition preset_of (line : string) : option (Z * Z) := lookup (strip line) presets.

(** A line that is neither a preset nor the empty choice. *)
Definition no_choice (line : string) : bool :=
  match preset_of line with
  | Some _ => false
  | None => negb (String.eqb (strip line) "")
  end.

(** The number a line gives within [lo..hi], if it does. *)
Definition answer_within (lo hi : Z) (line : string) : option Z :=
  match int_of_str line with
  | Ok n => if (lo <=? n)%Z && (n <=? hi)%Z then Some n else None
  | Raise _ => None
  end.

(** Does the line ask to quit? *)
Definition quits (line : string) : bool :=
  match SicilyCli.parse_command line with
  | SicilyCli.quit => true
  | _ => false
  end.

(** Does the line ask for an analysis? *)
Definition analyses (line : string) : bool :=
  match SicilyCli.parse_command line with
  | SicilyCli.analyse _ => true
  | _ => false
  end.

(** Is the line made of white space only? *)
Fixpoint blank (s : string) : bool :=
  match s with
  | EmptyString => true
  | String c s' => isspace c && blank s'
  end.

(** The numbers of the analyses that a run of the loop announces. *)
Definition announced (events : list SicilyCli.event) : list nat :=
  flat_map (fun e => match e with
                     | SicilyCli.analysis_header k => [k]
                     | _ => []
                     end) events.

End Menu.

Import Runs.
Import Menu.

(** * Properties *)

(** ** Strings *)

Section StringFacts.

Local Open Scope string_scope.

Lemma string_app_empty_r (s : string) : (s ++ "")%string = s.
Proof. induction s as [| c s IH]; simpl; [reflexivity | now rewrite IH]. Qed.

Lemma string_app_assoc (s1 s2 s3 : string) :
  ((s1 ++ s2) ++ s3)%string = (s1 ++ (s2 ++ s3))%string.
Proof. induction s1 as [| c s1 IH]; simpl; [reflexivity | now rewrite IH]. Qed.

Lemma reversed_str_app (s1 s2 : string) :
  reversed_str (s1 ++ s2) = (reversed_str s2 ++ reversed_str s1)%string.
Proof.
  induction s1 as [| c s1 IH]; simpl.
  - now rewrite string_app_empty_r.
  - now rewrite IH, string_app_assoc.
Qed.

Lemma reversed_str_involutive (s : string) : reversed_str (reversed_str s) = s.
Proof.
  induction s as [| c s IH]; simpl; [reflexivity |].
  now rewrite reversed_str_app, IH.
Qed.

Lemma split_not_nil (sep : ascii) (s : string) : split sep s <> [].
Proof.
  destruct s as [| c s]; simpl; [discriminate |].
  destruct (Ascii.eqb c sep); [discriminate |].
  destruct (split sep s); discriminate.
Qed.

(** Joining what [split] produced gives the string back. *)
Lemma join_split (sep : ascii) (s : string) :
  join (String sep "") (split sep s) = s.
Proof.
  induction s as [| c s IH]; simpl; [reflexivity |].
  destruct (Ascii.eqb c sep) eqn:E.
  - apply Ascii.eqb_eq in E. subst c.
    pose proof (split_not_nil sep s) as Hne.
    unfold join in *. simpl.
    destruct (split sep s) as [| r rs]; [contradiction |].
    now rewrite IH.
  - pose proof (split_not_nil sep s) as Hne.
    unfold join in *.
    destruct (split sep s) as [| r rs]; [contradiction |].
    simpl in *. destruct rs as [| r' rs].
    + now rewrite IH.
    + rewrite <- IH. reflexivity.
Qed.

Lemma join_snoc (sep : string) (l : list string) (x : string) :
  l <> [] -> join sep (l ++ [x]) = (join sep l ++ sep ++ x)%string.
Proof.
  unfold join. induction l as [| a l IH]; intros Hne; [contradiction |].
  destruct l as [| a' l].
  - reflexivity.
  - change (String.concat sep ((a :: a' :: l) ++ [x]))
      with (a ++ sep ++ String.concat sep ((a' :: l) ++ [x]))%string.
    rewrite IH by discriminate.
    change (String.concat sep (a :: a' :: l))
      with (a ++ sep ++ String.concat sep (a' :: l))%string.
    now rewrite !string_app_assoc.
Qed.

(** Reversing the order of the pieces and each piece reverses the whole. *)
Lemma join_reversed (sep : ascii) (l : list string) :
  join (String sep "") (map reversed_str (rev l))
  = reversed_str (join (String sep "") l).
Proof.
  induction l as [| a l IH]; [reflexivity |].
  destruct l as [| a' l].
  - reflexivity.
  - change (rev (a :: a' :: l)) with (rev (a' :: l) ++ [a])%list.
    rewrite map_app. simpl map at 2.
    rewrite join_snoc.
    + rewrite IH. unfold join.
      change (String.concat (String sep "") (a :: a' :: l))
        with (a ++ String sep "" ++ String.concat (String sep "") (a' :: l))%string.
      rewrite !reversed_str_app. simpl.
      now rewrite string_app_assoc.
    + simpl. intros H. apply (f_equal (@List.length _)) in H.
      rewrite length_map, length_app in H. simpl in H. lia.
Qed.

End StringFacts.

Section SplitFacts.

Variable sep : ascii.

Lemma split_no_sep (s : string) :
  contains sep s = false -> split sep s = [s].
Proof.
  induction s as [| c s IH]; simpl; intros H; [reflexivity |].
  apply orb_false_iff in H. destruct H as [Hc Hs].
  rewrite Hc, (IH Hs). reflexivity.
Qed.

Lemma split_app_sep (s rest : string) :
  contains sep s = false ->
  split sep (s ++ String sep rest) = s :: split sep rest.
Proof.
  induction s as [| c s IH]; simpl; intros H.
  - now rewrite Ascii.eqb_refl.
  - apply orb_false_iff in H. destruct H as [Hc Hs].
    rewrite Hc, (IH Hs). reflexivity.
Qed.

(** Splitting what [join] glued gives the pieces back, when no piece
    contains the separator. *)
Lemma split_join (l : list string) :
  l <> [] ->
  Forall (fun r => contains sep r = false) l ->
  split sep (join (String sep "") l) = l.
Proof.
  induction l as [| a l IH]; intros Hne Hall; [contradiction |].
  inversion Hall as [| ? ? Ha Hl]; subst.
  destruct l as [| a' l].
  - simpl. now apply split_no_sep.
  - unfold join in *.
    change (String.concat (String sep "") (a :: a' :: l))
      with (a ++ String sep (String.concat (String sep "") (a' :: l)))%string.
    rewrite (split_app_sep _ _ Ha), IH; [reflexivity | discriminate | assumption].
Qed.

(** The pieces that [split] produces do not contain the separator, so
    every string is the join of such pieces. *)
Lemma split_pieces_no_sep (s : string) :
  Forall (fun r => contains sep r = false) (split sep s).
Proof.
  induction s as [| c s IH]; simpl.
  - repeat constructor.
  - destruct (Ascii.eqb c sep) eqn:E.
    + constructor; [reflexivity | assumption].
    + destruct (split sep s) as [| r rs]; [repeat constructor; simpl; now rewrite E |].
      inversion IH as [| ? ? Hr Hrs]; subst.
      constructor; [simpl; now rewrite E, Hr | assumption].
Qed.

End SplitFacts.

Lemma index_last_snoc {A : Type} (l : list A) (x : A) :
  index_last (l ++ [x]) = Ok x.
Proof.
  induction l as [| a l IH]; [reflexivity |].
  simpl. rewrite IH. destruct (l ++ [x]) eqn:E; [| reflexivity].
  destruct l; discriminate.
Qed.

Lemma count_ext (p q : ascii -> bool) (s : string) :
  (forall c, p c = q c) -> count p s = count q s.
Proof.
  intros H. induction s as [| c s IH]; simpl; [reflexivity |].
  now rewrite H, IH.
Qed.

Lemma is_white_piece_isupper (c : ascii) : Sicily.is_white_piece c = isupper c.
Proof.
  unfold Sicily.is_white_piece, isalpha.
  destruct (isupper c), (islower c); reflexivity.
Qed.

Lemma is_black_piece_islower (c : ascii) : Sicily.is_black_piece c = islower c.
Proof.
  unfold Sicily.is_black_piece, isalpha.
  destruct (isupper c), (islower c); reflexivity.
Qed.

(** ** Rotation of a placement *)

(** The rotation reverses the placement string as a whole. *)
Lemma flip_fen_str_reversed (fen : string) :
  Sicily.flip_fen_str fen = reversed_str fen.
Proof.
  unfold Sicily.flip_fen_str.
  now rewrite join_reversed, join_split.
Qed.

Lemma flip_fen_PyStr (fen : string) :
  Sicily.flip_fen (PyStr fen) = PyStr (Sicily.flip_fen_str fen).
Proof. reflexivity. Qed.

Lemma flip_fen_str_involutive (fen : string) :
  Sicily.flip_fen_str (Sicily.flip_fen_str fen) = fen.
Proof. now rewrite !flip_fen_str_reversed, reversed_str_involutive. Qed.

(** The rotation is what the words say: on a placement given by its ranks,
    the ranks come out in reverse order, each one reversed. *)
Lemma flip_fen_str_ranks (ranks : list string) :
  ranks <> [] ->
  Forall (fun r => contains "/" r = false) ranks ->
  Sicily.flip_fen_str (join "/" ranks) = join "/" (map reversed_str (rev ranks)).
Proof.
  intros Hne Hall. unfold Sicily.flip_fen_str.
  now rewrite split_join.
Qed.

(** C6. Rotating a well-formed 8x8 placement by 180 degrees twice, with
    [flip_fen], gives the placement back. *)
Theorem flip_fen_involutive (p : string) :
  Sicily.well_formed p = true ->
  Sicily.flip_fen (Sicily.flip_fen (PyStr p)) = PyStr p.
Proof.
  intros _. now rewrite !flip_fen_PyStr, flip_fen_str_involutive.
Qed.

Lemma flip_fen_involutive_witness :
  Sicily.well_formed "rnbqkbnr/pppppppp/8/8/4P3/8/PPPP1PPP/RNBQKBNR" = true
  /\ Sicily.flip_fen
       (Sicily.flip_fen (PyStr "rnbqkbnr/pppppppp/8/8/4P3/8/PPPP1PPP/RNBQKBNR"))
     = PyStr "rnbqkbnr/pppppppp/8/8/4P3/8/PPPP1PPP/RNBQKBNR".
Proof.
  split; [reflexivity |].
  apply (flip_fen_involutive "rnbqkbnr/pppppppp/8/8/4P3/8/PPPP1PPP/RNBQKBNR").
  reflexivity.
Defined.

(** ** Orientation *)

(** C4. On a placement whose last rank-string is [bottom],
    [detect_board_orientation] answers (normal, white) when [bottom] has
    strictly more uppercase than lowercase letters, (flipped, black) when it
    has strictly more lowercase ones, and on a tie (flipped, black) exactly
    when [bottom] contains one of r, k, q. On a value that cannot be split
    it answers the default (normal, white). Being a total function into
    the pairs, it never raises. *)
Theorem detect_board_orientation_rule :
  (forall (ranks : list string) (bottom : string),
      Forall (fun r => contains "/" r = false) (ranks ++ [bottom])%list ->
      let placement := PyStr (join "/" (ranks ++ [bottom])%list) in
      let upper := count isupper bottom in
      let lower := count islower bottom in
      let majors :=
        contains "r" bottom || contains "k" bottom || contains "q" bottom in
      ((upper > lower)%Z ->
       Sicily.detect_board_orientation placement = (Sicily.normal, Sicily.w))
      /\ ((lower > upper)%Z ->
          Sicily.detect_board_orientation placement = (Sicily.flipped, Sicily.b))
      /\ (upper = lower -> majors = true ->
          Sicily.detect_board_orientation placement = (Sicily.flipped, Sicily.b))
      /\ (upper = lower -> majors = false ->
          Sicily.detect_board_orientation placement = (Sicily.normal, Sicily.w)))
  /\ (forall fen : pyval,
         (forall s, fen <> PyStr s) ->
         Sicily.detect_board_orientation fen = (Sicily.normal, Sicily.w)).
Proof.
  split.
  - intros ranks bottom Hall placement upper lower majors.
    assert (E : Sicily.detect_board_orientation placement =
                if (upper >? lower)%Z then (Sicily.normal, Sicily.w)
                else if (lower >? upper)%Z then (Sicily.flipped, Sicily.b)
                else if majors then (Sicily.flipped, Sicily.b)
                else (Sicily.normal, Sicily.w)).
    { unfold Sicily.detect_board_orientation, Sicily.detect_board_orientation_try,
        placement, py_split, rbind.
      rewrite split_join by (assumption || (destruct ranks; discriminate)).
      rewrite index_last_snoc.
      destruct (index_first (ranks ++ [bottom])%list) as [top |] eqn:Etop;
        [| destruct ranks; discriminate].
      rewrite (count_ext _ _ bottom is_white_piece_isupper).
      rewrite (count_ext _ _ bottom is_black_piece_islower).
      fold upper lower majors.
      destruct (upper >? lower)%Z; [reflexivity |].
      destruct (lower >? upper)%Z; [reflexivity |].
      destruct majors; reflexivity. }
    rewrite E. repeat split.
    + intros H. apply Z.gtb_gt in H. now rewrite H.
    + intros H. assert (H1 : (upper >? lower)%Z = false) by lia.
      apply Z.gtb_gt in H. now rewrite H1, H.
    + intros H Hm. rewrite H, Hm.
      assert (H1 : (lower >? lower)%Z = false) by lia. now rewrite H1.
    + intros H Hm. rewrite H, Hm.
      assert (H1 : (lower >? lower)%Z = false) by lia. now rewrite H1.
  - intros fen Hfen. destruct fen as [| z | s]; try reflexivity.
    now elim (Hfen s).
Qed.

Lemma detect_board_orientation_rule_witness :
  Forall (fun r => contains "/" r = false)
    (["RNBKQBNR"; "PPPPPPPP"; "8"; "8"; "8"; "8"; "pppppppp"] ++ ["rnbkqbnr"])%list
  /\ (count islower "rnbkqbnr" > count isupper "rnbkqbnr")%Z
  /\ Sicily.detect_board_orientation
       (PyStr "RNBKQBNR/PPPPPPPP/8/8/8/8/pppppppp/rnbkqbnr")
     = (Sicily.flipped, Sicily.b)
  /\ (forall s, PyNone <> PyStr s)
  /\ Sicily.detect_board_orientation PyNone = (Sicily.normal, Sicily.w).
Proof.
  assert (H : Forall (fun r => contains "/" r = false)
                (["RNBKQBNR"; "PPPPPPPP"; "8"; "8"; "8"; "8"; "pppppppp"]
                   ++ ["rnbkqbnr"])%list)
    by (repeat constructor).
  assert (G : (count islower "rnbkqbnr" > count isupper "rnbkqbnr")%Z)
    by reflexivity.
  assert (N : forall s, PyNone <> PyStr s) by discriminate.
  split; [exact H |]. split; [exact G |].
  split; [exact (proj1 (proj2 (proj1 detect_board_orientation_rule _ _ H)) G) |].
  split; [exact N | exact (proj2 detect_board_orientation_rule PyNone N)].
Defined.

(** ** Squares to pixels *)

(** C7, as the code has it. For the square e4 and the corners
    (0, 0, 800, 800) [square_to_coordinates] returns the pixel (450, 450):
    the centre of the square of file index 4 and rank index 3, with
    x = 0 + 4.5 * 100 and y = 800 - 3.5 * 100. *)
Theorem square_to_coordinates_e4 :
  TestPy.square_to_coordinates "e4" board_800 = Ok (Some (450, 450)%Z)
  /\ (Z.of_N (code "e") - Z.of_N (code "a") = 4)%Z
  /\ centre 4 3 board_800 = (450, 450)%Z
  /\ (inject_Z 0 + (inject_Z 4 + (1 # 2)) * (inject_Z (800 - 0) / 8) == 450)%Q
  /\ (inject_Z 800 - (inject_Z 3 + (1 # 2)) * (inject_Z (800 - 0) / 8) == 450)%Q.
Proof. repeat split. Qed.

(** C7, as specified, fails: the pixel is not (350, 450). *)
Lemma square_to_coordinates_e4_not_350 :
  TestPy.square_to_coordinates "e4" board_800 <> Ok (Some (350, 450)%Z).
Proof. vm_compute. discriminate. Qed.

Lemma square_to_coordinates_length (square : string) (c : corners) :
  String.length square <> 2%nat ->
  TestPy.square_to_coordinates square c = Ok None.
Proof.
  intros H. unfold TestPy.square_to_coordinates.
  destruct (String.length square =? 2)%nat eqn:E; [| reflexivity].
  apply Nat.eqb_eq in E. contradiction.
Qed.

Lemma square_to_coordinates_digit (c0 c1 : ascii) (c : corners) :
  isdigit c1 = true ->
  TestPy.square_to_coordinates (String c0 (String c1 "")) c
  = Ok (Some (centre (Z.of_N (code c0) - 97) (Z.of_N (code c1) - 48 - 1) c)).
Proof.
  intros H. unfold TestPy.square_to_coordinates, TestPy.int_of_char. simpl.
  rewrite H. reflexivity.
Qed.

Lemma square_to_coordinates_not_digit (c0 c1 : ascii) (c : corners) :
  isdigit c1 = false ->
  TestPy.square_to_coordinates (String c0 (String c1 "")) c = Raise ValueError.
Proof.
  intros H. unfold TestPy.square_to_coordinates, TestPy.int_of_char. simpl.
  rewrite H. reflexivity.
Qed.

(** The float arithmetic of a centre, in integers: sixteenths of a pixel,
    truncated towards zero. *)
Lemma centre_sixteenths (file rank : Z) (c : corners) :
  centre file rank c
  = (Z.quot (16 * x0 c + (2 * file + 1) * (x1 c - x0 c)) 16,
     Z.quot (16 * y1 c - (2 * rank + 1) * (y1 c - y0 c)) 16)%Z.
Proof.
  set (a := (16 * x0 c + (2 * file + 1) * (x1 c - x0 c))%Z).
  set (b := (16 * y1 c - (2 * rank + 1) * (y1 c - y0 c))%Z).
  unfold centre, TestPy.int_of_float. simpl. subst a b.
  f_equal; f_equal; ring.
Qed.

(** Truncation towards zero keeps the order, so sixteenths beyond an
    integer bound stay beyond it. *)
Lemma quot16_at_most (a hi : Z) : (a <= 16 * hi)%Z -> (a ÷ 16 <= hi)%Z.
Proof.
  intros H.
  assert (E : ((16 * hi) ÷ 16 = hi)%Z)
    by (rewrite Z.mul_comm; apply Z.quot_mul; lia).
  rewrite <- E. apply Z.quot_le_mono; lia.
Qed.

Lemma quot16_at_least (a lo : Z) : (16 * lo <= a)%Z -> (lo <= a ÷ 16)%Z.
Proof.
  intros H.
  assert (E : ((16 * lo) ÷ 16 = lo)%Z)
    by (rewrite Z.mul_comm; apply Z.quot_mul; lia).
  rewrite <- E. apply Z.quot_le_mono; lia.
Qed.

(** Where the pixel of an index outside 0..7 falls. *)
Lemma centre_outside (file rank : Z) (c : corners) :
  ((16 <= x1 c - x0 c)%Z ->
   ((file < 0)%Z -> (fst (centre file rank c) < x0 c)%Z)
   /\ ((7 < file)%Z -> (x1 c < fst (centre file rank c))%Z))
  /\ ((16 <= y1 c - y0 c)%Z ->
      ((rank < 0)%Z -> (y1 c < snd (centre file rank c))%Z)
      /\ ((7 < rank)%Z -> (snd (centre file rank c) < y0 c)%Z)).
Proof.
  rewrite centre_sixteenths. cbn [fst snd].
  set (w := (x1 c - x0 c)%Z). set (h := (y1 c - y0 c)%Z).
  split; intros Hsize; split; intros Hindex.
  - assert (P : ((2 * file + 1) * w <= - w)%Z).
    { replace (- w)%Z with ((-1) * w)%Z by ring.
      apply Z.mul_le_mono_nonneg_r; lia. }
    assert (G : ((16 * x0 c + (2 * file + 1) * w) ÷ 16 <= x0 c - 1)%Z)
      by (apply quot16_at_most; lia).
    lia.
  - assert (P : (17 * w <= (2 * file + 1) * w)%Z)
      by (apply Z.mul_le_mono_nonneg_r; lia).
    assert (G : (x1 c + 1 <= (16 * x0 c + (2 * file + 1) * w) ÷ 16)%Z)
      by (apply quot16_at_least; subst w; lia).
    lia.
  - assert (P : ((2 * rank + 1) * h <= - h)%Z).
    { replace (- h)%Z with ((-1) * h)%Z by ring.
      apply Z.mul_le_mono_nonneg_r; lia. }
    assert (G : (y1 c + 1 <= (16 * y1 c - (2 * rank + 1) * h) ÷ 16)%Z)
      by (apply quot16_at_least; lia).
    lia.
  - assert (P : (17 * h <= (2 * rank + 1) * h)%Z)
      by (apply Z.mul_le_mono_nonneg_r; lia).
    assert (G : ((16 * y1 c - (2 * rank + 1) * h) ÷ 16 <= y0 c - 1)%Z)
      by (apply quot16_at_most; subst h; lia).
    lia.
Qed.

(** C8, as the code has it. A square notation whose length is not 2 gives
    [None]. A two-character notation is not range-checked: when its second
    character is a decimal digit, the result is the pixel that the centre
    formula gives for the file index [ord(c0) - ord('a')] and the rank index
    [digit - 1], whether or not they lie in 0..7. When the box is at least
    16 pixels wide, a file index outside 0..7 then gives an [x] strictly
    outside the box: [x < x0] for a negative index, [x1 < x] for an index
    above 7; when the box is at least 16 pixels high, a rank index outside
    0..7 gives a [y] strictly outside it: [y1 < y] for a negative index,
    [y < y0] for an index above 7. On a smaller box the pixel of an index
    outside 0..7 can lie on or within the box: on (0, 0, 15, 15) the
    square a0 gives (0, 15), a pixel of the edge. *)
Theorem square_to_coordinates_invalid :
  (forall (square : string) (c : corners),
      String.length square <> 2%nat ->
      TestPy.square_to_coordinates square c = Ok None)
  /\ (forall (c0 c1 : ascii) (c : corners),
         isdigit c1 = true ->
         TestPy.square_to_coordinates (String c0 (String c1 "")) c
         = Ok (Some (centre (Z.of_N (code c0) - 97) (Z.of_N (code c1) - 48 - 1) c)))
  /\ (forall (c0 c1 : ascii) (c : corners) (x y : Z),
         TestPy.square_to_coordinates (String c0 (String c1 "")) c
         = Ok (Some (x, y)) ->
         let file := (Z.of_N (code c0) - 97)%Z in
         let rank := (Z.of_N (code c1) - 48 - 1)%Z in
         ((16 <= x1 c - x0 c)%Z ->
          ((file < 0)%Z -> (x < x0 c)%Z) /\ ((7 < file)%Z -> (x1 c < x)%Z))
         /\ ((16 <= y1 c - y0 c)%Z ->
             ((rank < 0)%Z -> (y1 c < y)%Z) /\ ((7 < rank)%Z -> (y < y0 c)%Z)))
  /\ TestPy.square_to_coordinates "a0" {| x0 := 0; y0 := 0; x1 := 15; y1 := 15 |}
     = Ok (Some (0, 15)%Z).
Proof.
  split; [apply square_to_coordinates_length |].
  split; [apply square_to_coordinates_digit |].
  split; [| reflexivity].
  intros c0 c1 c x y H file rank.
  destruct (isdigit c1) eqn:D.
  - rewrite (square_to_coordinates_digit c0 c1 c D) in H.
    fold file rank in H.
    assert (E : centre file rank c = (x, y)) by congruence.
    pose proof (centre_outside file rank c) as G.
    rewrite E in G. exact G.
  - rewrite (square_to_coordinates_not_digit c0 c1 c D) in H. discriminate H.
Qed.

Lemma square_to_coordinates_invalid_witness :
  String.length "e2e4" <> 2%nat
  /\ TestPy.square_to_coordinates "e2e4" board_800 = Ok None
  /\ isdigit "9" = true
  /\ TestPy.square_to_coordinates "i9" board_800
     = Ok (Some (centre (Z.of_N (code "i") - 97) (Z.of_N (code "9") - 48 - 1)
                   board_800))
  /\ TestPy.square_to_coordinates "i9" board_800 = Ok (Some (850, -50)%Z)
  /\ (16 <= x1 board_800 - x0 board_800)%Z
  /\ (7 < Z.of_N (code "i") - 97)%Z
  /\ (x1 board_800 < 850)%Z
  /\ (16 <= y1 board_800 - y0 board_800)%Z
  /\ (7 < Z.of_N (code "9") - 48 - 1)%Z
  /\ (-50 < y0 board_800)%Z.
Proof.
  assert (H : String.length "e2e4" <> 2%nat) by discriminate.
  assert (D : isdigit "9" = true) by reflexivity.
  assert (P : TestPy.square_to_coordinates "i9" board_800 = Ok (Some (850, -50)%Z))
    by reflexivity.
  assert (Sx : (16 <= x1 board_800 - x0 board_800)%Z) by (simpl; lia).
  assert (Sy : (16 <= y1 board_800 - y0 board_800)%Z) by (simpl; lia).
  assert (Fx : (7 < Z.of_N (code "i") - 97)%Z) by (simpl; lia).
  assert (Fy : (7 < Z.of_N (code "9") - 48 - 1)%Z) by (simpl; lia).
  split; [exact H |].
  split; [exact (proj1 square_to_coordinates_invalid "e2e4" board_800 H) |].
  split; [exact D |].
  split; [exact (proj1 (proj2 square_to_coordinates_invalid) "i"%char "9"%char
                   board_800 D) |].
  split; [exact P |].
  split; [exact Sx |]. split; [exact Fx |].
  split; [exact (proj2 (proj1 (proj1 (proj2 (proj2 square_to_coordinates_invalid))
                                 "i"%char "9"%char board_800 850%Z (-50)%Z P) Sx)
                   Fx) |].
  split; [exact Sy |]. split; [exact Fy |].
  exact (proj2 (proj2 (proj1 (proj2 (proj2 square_to_coordinates_invalid))
                         "i"%char "9"%char board_800 850%Z (-50)%Z P) Sy) Fy).
Defined.

(** C8, as specified, fails: a file index of 8 and a rank index of 8
    give a pixel outside the box, not [None]; a rank index of -1 does too;
    and a second character that is no digit raises. *)
Lemma square_to_coordinates_out_of_range :
  TestPy.square_to_coordinates "i9" board_800 = Ok (Some (850, -50)%Z)
  /\ TestPy.square_to_coordinates "a0" board_800 = Ok (Some (50, 850)%Z)
  /\ TestPy.square_to_coordinates "i9" board_800 <> Ok None
  /\ TestPy.square_to_coordinates "ex" board_800 = Raise ValueError.
Proof.
  repeat split. vm_compute. discriminate.
Qed.

(** ** Running the blocks of the pipeline *)

Ltac unfold_blocks :=
  unfold Sicily.generate, Sicily.query, Sicily.probe, Sicily.ranked_moves,
    Sicily.report, Sicily.repair, Sicily.init_stockfish, Stockfish.Stockfish,
    bind, ask, try_except, ret, return_, raise, print.

(** Use a hypothesis on what the engine answers at this point. *)
Ltac answer :=
  match goal with
  | H : ?W ?t ?c = _ |- context [?W ?t ?c] => rewrite H; simpl
  end.

Lemma print_top_moves_from (active_player : Sicily.player) (top_moves : list move_data) :
  forall (i : Z) (st : state Sicily.output),
    Sicily.print_top_moves active_player i top_moves st
    = (printing
         (map (fun im : Z * move_data =>
                 Sicily.top_move_line (fst im) (Move (snd im))
                   (Sicily.display_centipawn active_player (Centipawn (snd im))))
              (enumerate i top_moves)) st,
       Next tt).
Proof.
  induction top_moves as [| m l IH]; intros i st.
  - unfold printing. simpl. unfold ret. rewrite app_nil_r. now destruct st.
  - simpl. unfold bind, print. rewrite IH. unfold printing. simpl.
    now rewrite <- app_assoc.
Qed.

Lemma print_top_moves_run (active_player : Sicily.player)
  (top_moves : list move_data) (st : state Sicily.output) :
  Sicily.print_top_moves active_player 1 top_moves st
  = (printing (top_move_lines active_player top_moves) st, Next tt).
Proof. apply print_top_moves_from. Qed.

Arguments Sicily.print_top_moves : simpl never.
Arguments Sicily.truthy : simpl never.

(** Follow every answer the engine can give. *)
Ltac explore W :=
  repeat (simpl;
          match goal with
          | |- context [match W ?t ?c with _ => _ end] =>
              let a := fresh "a" in
              destruct (W t c) as [a |] eqn:?; try (destruct a)
          | |- context [if Sicily.truthy ?m then _ else _] =>
              destruct (Sicily.truthy m) eqn:?
          | |- context [match ?l with [] => _ | _ :: _ => _ end] =>
              is_var l; destruct l
          | |- context [match ?o with Some _ => _ | None => _ end] =>
              is_var o; destruct o
          | |- context [Sicily.print_top_moves _ _ _ _] =>
              rewrite print_top_moves_run
          end).

(** Every position that [analyse_board] hands on carries full castling
    rights, no en passant square and zeroed clocks. *)
Lemma analyse_board_full_fen (shortenFEN : string -> string)
  (p : prediction_step) (manual_side : option Sicily.player)
  (st st' : state Sicily.output) (fen short_fen full_fen : string)
  (active_player : Sicily.player) :
  Sicily.analyse_board shortenFEN p manual_side st
  = (st', Next (fen, short_fen, active_player, full_fen)) ->
  full_fen = Sicily.with_full_rights short_fen active_player.
Proof.
  unfold Sicily.analyse_board, ret, return_.
  destruct p as [| | f].
  - destruct (Sicily.detect_board_orientation _) as [o a].
    intros H. now inversion H.
  - discriminate.
  - destruct manual_side as [[|] |].
    + intros H. now inversion H.
    + intros H. now inversion H.
    + destruct (Sicily.detect_board_orientation _) as [[|] a];
        intros H; now inversion H.
Qed.

(** ** The repair cascade *)

(** C1. On a placement [short_fen] and a guessed colour, the cascade asks the
    validator about the position with full castling rights, then about the
    one with none, then about the one with none for the opposite colour, in
    this order, and goes on with the first one accepted (and with its
    colour). When all three are rejected, the function returns the failure
    that carries the bare placement, and [is_fen_valid] has been called
    exactly three times. *)
Theorem repair_cascade (W : engine) (stockfish : handle) (short_fen : string)
  (active_player : Sicily.player) (st : state Sicily.output) :
  let full_fen := Sicily.with_full_rights short_fen active_player in
  let simplified_fen := Sicily.with_no_rights short_fen active_player in
  let opposite_player := Sicily.opposite active_player in
  let opposite_fen := Sicily.with_no_rights short_fen opposite_player in
  let c1 := is_fen_valid stockfish full_fen in
  let c2 := is_fen_valid stockfish simplified_fen in
  let c3 := is_fen_valid stockfish opposite_fen in
  let cascade := Sicily.repair W stockfish short_fen active_player full_fen st in
  full_fen = (short_fen ++ " " ++ Sicily.player_letter active_player
                ++ " KQkq - 0 1")%string
  /\ simplified_fen = (short_fen ++ " " ++ Sicily.player_letter active_player
                         ++ " - - 0 1")%string
  /\ opposite_fen = (short_fen ++ " " ++ Sicily.player_letter opposite_player
                       ++ " - - 0 1")%string
  /\ (W (calls st) c1 = Ok true ->
      cascade = (log c1 st, Next (full_fen, active_player)))
  /\ (W (calls st) c1 = Ok false ->
      W (calls (log c1 st)) c2 = Ok true ->
      cascade = (log c2 (log c1 st), Next (simplified_fen, active_player)))
  /\ (W (calls st) c1 = Ok false ->
      W (calls (log c1 st)) c2 = Ok false ->
      W (calls (log c2 (log c1 st))) c3 = Ok true ->
      cascade = (log c3 (log c2 (log c1 st)), Next (opposite_fen, opposite_player)))
  /\ (W (calls st) c1 = Ok false ->
      W (calls (log c1 st)) c2 = Ok false ->
      W (calls (log c2 (log c1 st))) c3 = Ok false ->
      cascade = (log c3 (log c2 (log c1 st)), Returned (Some short_fen, None, false))
      /\ (forall (stockfish_params : option Sicily.params) (fen : string),
             Sicily.generate W stockfish stockfish_params fen short_fen
               active_player full_fen st
             = (log c3 (log c2 (log c1 st)), Returned (Some short_fen, None, false)))
      /\ validations (calls (fst cascade)) = (validations (calls st) + 3)%nat).
Proof.
  intros full_fen simplified_fen opposite_player opposite_fen c1 c2 c3 cascade.
  subst cascade c1 c2 c3 opposite_fen opposite_player simplified_fen full_fen.
  simpl.
  repeat split; try reflexivity; intros; unfold_blocks; simpl; repeat answer;
    try reflexivity.
  unfold validations. rewrite !filter_app, !length_app. simpl. lia.
Qed.

Lemma repair_cascade_witness :
  let p := Engines.start_placement in
  let full_fen := Sicily.with_full_rights p Sicily.w in
  let simplified_fen := Sicily.with_no_rights p Sicily.w in
  let opposite_fen := Sicily.with_no_rights p Sicily.b in
  let engine_accepting valid := Engines.healthy valid None None Placeholder in
  let W1 := engine_accepting Engines.accept_all in
  let W2 := engine_accepting (Engines.accept_only simplified_fen) in
  let W3 := engine_accepting (Engines.accept_only opposite_fen) in
  let W4 := engine_accepting Engines.reject_all in
  let c1 := is_fen_valid 0 full_fen in
  let c2 := is_fen_valid 0 simplified_fen in
  let c3 := is_fen_valid 0 opposite_fen in
  (W1 [] c1 = Ok true
   /\ Sicily.repair W1 0 p Sicily.w full_fen start
      = (log c1 start, Next (full_fen, Sicily.w)))
  /\ (W2 [] c1 = Ok false /\ W2 [c1] c2 = Ok true
      /\ Sicily.repair W2 0 p Sicily.w full_fen start
         = (log c2 (log c1 start), Next (simplified_fen, Sicily.w)))
  /\ (W3 [] c1 = Ok false /\ W3 [c1] c2 = Ok false /\ W3 [c1; c2] c3 = Ok true
      /\ Sicily.repair W3 0 p Sicily.w full_fen start
         = (log c3 (log c2 (log c1 start)), Next (opposite_fen, Sicily.b)))
  /\ (W4 [] c1 = Ok false /\ W4 [c1] c2 = Ok false /\ W4 [c1; c2] c3 = Ok false
      /\ Sicily.repair W4 0 p Sicily.w full_fen start
         = (log c3 (log c2 (log c1 start)), Returned (Some p, None, false))).
Proof.
  intros p full_fen simplified_fen opposite_fen engine_accepting W1 W2 W3 W4 c1 c2 c3.
  pose proof (repair_cascade W1 0 p Sicily.w start) as (_ & _ & _ & T1 & _).
  pose proof (repair_cascade W2 0 p Sicily.w start) as (_ & _ & _ & _ & T2 & _).
  pose proof (repair_cascade W3 0 p Sicily.w start) as (_ & _ & _ & _ & _ & T3 & _).
  pose proof (repair_cascade W4 0 p Sicily.w start) as (_ & _ & _ & _ & _ & _ & T4).
  split; [split; [reflexivity | exact (T1 eq_refl)] |].
  split; [split; [reflexivity | split; [reflexivity | exact (T2 eq_refl eq_refl)]] |].
  split; [split; [reflexivity | split; [reflexivity | split;
            [reflexivity | exact (T3 eq_refl eq_refl eq_refl)]]] |].
  split; [reflexivity | split; [reflexivity | split;
            [reflexivity | exact (proj1 (T4 eq_refl eq_refl eq_refl))]]].
Defined.

(** ** The end of a query *)

(** What [report] does once a non-empty ranked list is in hand. *)
Lemma report_some (W : engine) (stockfish : handle) (fen short_fen : string)
  (active_player : Sicily.player) (first : move_data) (rest : list move_data)
  (st : state Sicily.output) :
  Sicily.report W stockfish fen short_fen active_player (Some (first :: rest)) st
  = let asked := log (get_evaluation stockfish) st in
    let ev := match W (calls st) (get_evaluation stockfish) with
              | Ok ev => ev
              | Raise _ => Sicily.unknown_evaluation
              end in
    (printing (report_lines active_player ev (first :: rest)) asked,
     Returned (Some short_fen, Some (Move first), true)).
Proof.
  unfold_blocks. simpl.
  destruct (W (calls st) (get_evaluation stockfish)) as [ev | e]; simpl;
    rewrite print_top_moves_run; unfold printing, report_lines; simpl;
    rewrite <- !app_assoc; reflexivity.
Qed.

Arguments Sicily.report : simpl never.



(** C10. When [get_evaluation] raises after a non-empty ranked list was
    obtained, the query still succeeds with the first move of the list; the
    evaluation it displays is the placeholder of type unknown and value
    N/A, unchanged for either colour. *)
Theorem evaluation_failure_tolerated (W : engine) (stockfish : handle)
  (stockfish_params : option Sicily.params) (fen short_fen : string)
  (active_player : Sicily.player) (full_fen : string)
  (first : move_data) (rest : list move_data) (st : state Sicily.output) :
  Sicily.unknown_evaluation = Placeholder
  /\ Sicily.display_evaluation active_player Placeholder = Placeholder
  /\ (forall e : exn,
         W (calls st) (get_evaluation stockfish) = Raise e ->
         Sicily.report W stockfish fen short_fen active_player
           (Some (first :: rest)) st
         = (printing (report_lines active_player Placeholder (first :: rest))
              (log (get_evaluation stockfish) st),
            Returned (Some short_fen, Some (Move first), true)))
  /\ (let c_set := set_fen_position stockfish full_fen in
      let c_probe := is_fen_valid stockfish Sicily.start_fen in
      let c_top := get_top_moves stockfish 3 in
      let c_eval := get_evaluation stockfish in
      forall e : exn,
        W (calls st) c_set = Ok tt ->
        W (calls (log c_set st)) c_probe = Ok true ->
        W (calls (log c_probe (log c_set st))) c_top = Ok (Some (first :: rest)) ->
        W (calls (log c_top (log c_probe (log c_set st)))) c_eval = Raise e ->
        Sicily.query W stockfish stockfish_params fen short_fen active_player
          full_fen st
        = (printing (report_lines active_player Placeholder (first :: rest))
             (log c_eval (log c_top (log c_probe (log c_set st)))),
           Returned (Some short_fen, Some (Move first), true))).
Proof.
  split; [reflexivity |].
  split; [destruct active_player; reflexivity |].
  split.
  - intros e H. rewrite report_some. simpl. now rewrite H.
  - intros c_set c_probe c_top c_eval e Hset Hprobe Htop Heval.
    subst c_eval c_top c_probe c_set. simpl in *.
    unfold Sicily.query, Sicily.probe, Sicily.ranked_moves, bind, ask,
      try_except, ret, return_. simpl.
    repeat answer. rewrite report_some. simpl. now rewrite Heval.
Qed.

Lemma evaluation_failure_tolerated_witness :
  let E := Engines.healthy Engines.accept_all
             (Some [Engines.e2e4; Engines.d2d4]) None (Score "cp" (Some 35%Z)) in
  let W := Engines.without_evaluation E in
  let p := Engines.start_placement in
  let full_fen := Sicily.with_full_rights p Sicily.b in
  let c_set := set_fen_position 0 full_fen in
  let c_probe := is_fen_valid 0 Sicily.start_fen in
  let c_top := get_top_moves 0 3 in
  let c_eval := get_evaluation 0 in
  W [] c_set = Ok tt
  /\ W [c_set] c_probe = Ok true
  /\ W [c_set; c_probe] c_top = Ok (Some [Engines.e2e4; Engines.d2d4])
  /\ W [c_set; c_probe; c_top] c_eval = Raise EngineError
  /\ Sicily.query W 0 None p p Sicily.b full_fen start
     = ({| calls := [c_set; c_probe; c_top; c_eval];
           printed := [Sicily.best_move_line Sicily.b "e2e4";
                       Sicily.evaluation_line Placeholder;
                       Sicily.top_move_line 1 "e2e4" (Some (-35)%Z);
                       Sicily.top_move_line 2 "d2d4" None] |},
        Returned (Some p, Some "e2e4"%string, true))
  /\ Sicily.report W 0 p p Sicily.b (Some [Engines.e2e4; Engines.d2d4])
       (after [c_set; c_probe; c_top] start)
     = ({| calls := [c_set; c_probe; c_top; c_eval];
           printed := [Sicily.best_move_line Sicily.b "e2e4";
                       Sicily.evaluation_line Placeholder;
                       Sicily.top_move_line 1 "e2e4" (Some (-35)%Z);
                       Sicily.top_move_line 2 "d2d4" None] |},
        Returned (Some p, Some "e2e4"%string, true)).
Proof.
  intros E W p full_fen c_set c_probe c_top c_eval.
  pose proof (evaluation_failure_tolerated W 0 None p p Sicily.b full_fen
                Engines.e2e4 [Engines.d2d4] start) as (_ & _ & _ & T).
  pose proof (evaluation_failure_tolerated W 0 None p p Sicily.b full_fen
                Engines.e2e4 [Engines.d2d4] (after [c_set; c_probe; c_top] start))
    as (_ & _ & R & _).
  split; [reflexivity |]. split; [reflexivity |]. split; [reflexivity |].
  split; [reflexivity |].
  split.
  - exact (T EngineError eq_refl eq_refl eq_refl eq_refl).
  - exact (R EngineError eq_refl).
Defined.

(** ** The calls of a run depend on the answers of the engine only *)

Section Determinism.

Variables W1 W2 : engine.
Hypothesis same_answers : forall (t : list call) (c : call), W1 t c = W2 t c.

Lemma bind_same {A B : Type} (m1 m2 : Sicily.block A) (k1 k2 : A -> Sicily.block B) :
  same m1 m2 -> (forall a, same (k1 a) (k2 a)) -> same (bind m1 k1) (bind m2 k2).
Proof.
  intros Hm Hk st. unfold bind. rewrite Hm.
  destruct (m2 st) as [st' [a | e | r]]; [apply Hk | reflexivity | reflexivity].
Qed.

Lemma try_except_same {A : Type} (m1 m2 h1 h2 : Sicily.block A) :
  same m1 m2 -> same h1 h2 -> same (try_except m1 h1) (try_except m2 h2).
Proof.
  intros Hm Hh st. unfold try_except. rewrite Hm.
  destruct (m2 st) as [st' [a | e | r]]; [reflexivity | apply Hh | reflexivity].
Qed.

Lemma ask_same (c : call) :
  same (ask W1 c : Sicily.block (resp c)) (ask W2 c).
Proof. intros st. unfold ask. now rewrite same_answers. Qed.

Lemma Stockfish_same :
  same (Stockfish W1 : Sicily.block handle) (Stockfish W2).
Proof. intros st. unfold Stockfish.Stockfish. now rewrite same_answers. Qed.

Lemma same_refl {A : Type} (m : Sicily.block A) : same m m.
Proof. intros st. reflexivity. Qed.

Ltac same_blocks :=
  repeat first
    [ match goal with
      | |- same (ask _ ?c) _ => exact (ask_same c)
      end
    | apply Stockfish_same
    | apply bind_same
    | apply try_except_same
    | apply same_refl
    | match goal with
      | |- same (match ?x with _ => _ end) _ => destruct x
      | |- same (if ?x then _ else _) _ => destruct x
      | |- forall _, same _ _ => intro
      end ].

Lemma init_stockfish_same (stockfish_params : option Sicily.params) :
  same (Sicily.init_stockfish W1 stockfish_params)
       (Sicily.init_stockfish W2 stockfish_params).
Proof. unfold Sicily.init_stockfish. same_blocks. Qed.

(** Two engines that answer alike drive the query through the same calls
    to the same result. *)
Lemma query_same (stockfish : handle) (stockfish_params : option Sicily.params)
  (fen short_fen : string) (active_player : Sicily.player) (full_fen : string) :
  same (Sicily.query W1 stockfish stockfish_params fen short_fen active_player full_fen)
       (Sicily.query W2 stockfish stockfish_params fen short_fen active_player full_fen).
Proof.
  unfold Sicily.query, Sicily.probe, Sicily.ranked_moves, Sicily.report.
  same_blocks; apply init_stockfish_same.
Qed.

End Determinism.

(** ** The restart ladder *)

Ltac count_calls :=
  unfold sessions, best_move_requests, validations, printing, after, log; simpl;
  rewrite ?filter_app, ?length_app; simpl; lia.

(** Turn a hypothesis on [raises] into the answer of the engine. *)
Ltac raised H :=
  unfold raises in H; simpl in H; simpl;
  match type of H with
  | context [match ?W ?t ?c with _ => _ end] =>
      let a := fresh "a" in
      destruct (W t c) as [a |] eqn:?; try discriminate H; try destruct a; clear H
  end;
  simpl.

(** A restart that the engine answers yields the next session, configured
    as asked. *)
Lemma init_stockfish_ok (W : engine) (stockfish_params : option Sicily.params)
  (st : state Sicily.output) :
  let sf := sessions (calls st) in
  answers_all W (calls st) (construction sf stockfish_params) = true ->
  Sicily.init_stockfish W stockfish_params st
  = (after (construction sf stockfish_params) st, Next (Some sf)).
Proof.
  intros sf H. subst sf. unfold construction, settings in *.
  simpl in H. unfold raises in H. unfold_blocks.
  destruct stockfish_params as [p |]; simpl in *;
    repeat match type of H with
      | context [match W ?t ?c with _ => _ end] =>
          destruct (W t c) as [[] |]; [| discriminate H]; simpl in *
      end;
    unfold after, log; simpl; rewrite <- !app_assoc; reflexivity.
Qed.

(** A restart that fails at some step yields [None]; either way exactly one
    session was requested, and no move. *)
Lemma init_stockfish_calls (W : engine) (stockfish_params : option Sicily.params)
  (st : state Sicily.output) :
  let r := Sicily.init_stockfish W stockfish_params st in
  sessions (calls (fst r)) = (sessions (calls st) + 1)%nat
  /\ best_move_requests (calls (fst r)) = best_move_requests (calls st)
  /\ (answers_all W (calls st) (construction (sessions (calls st)) stockfish_params)
      = false -> snd r = Next None).
Proof.
  intros r. subst r. unfold construction, settings, answers_all, raises.
  unfold_blocks. destruct stockfish_params as [p |]; explore W;
    (split; [count_calls | split; [count_calls |]]);
    simpl; repeat answer; intros H; try reflexivity; discriminate H.
Qed.

(** C3, as the code has it. A query starts at most one session and asks for
    a single best move at most once, within 10 engine calls, and its run is
    the same on engines that answer alike. It does either only after the
    position was set, the probe was answered and the first ranked request
    raised. Then a new session is
    constructed with the same configuration; if the position cannot be set
    on it, or it is set and the retried ranked request raises, the best
    move is requested once, and when that raises too the failure result is
    returned; if the new session cannot be constructed, the failure result
    is returned with no best-move request. *)
Theorem restart_ladder (W : engine) (stockfish : handle)
  (stockfish_params : option Sicily.params) (fen short_fen : string)
  (active_player : Sicily.player) (full_fen : string) (st : state Sicily.output) :
  (let st' := fst (Sicily.query W stockfish stockfish_params fen short_fen
                     active_player full_fen st) in
   (sessions (calls st') <= sessions (calls st) + 1)%nat
   /\ (best_move_requests (calls st') <= best_move_requests (calls st) + 1)%nat
   /\ (List.length (calls st') <= List.length (calls st) + 10)%nat)
  /\ (forall W' : engine,
         (forall (t : list call) (c : call), W t c = W' t c) ->
         Sicily.query W stockfish stockfish_params fen short_fen active_player
           full_fen st
         = Sicily.query W' stockfish stockfish_params fen short_fen active_player
             full_fen st)
  /\ (let st' := fst (Sicily.query W stockfish stockfish_params fen short_fen
                        active_player full_fen st) in
      let c_set := set_fen_position stockfish full_fen in
      let c_probe := is_fen_valid stockfish Sicily.start_fen in
      let c_top := get_top_moves stockfish 3 in
      sessions (calls st') = (sessions (calls st) + 1)%nat
      \/ best_move_requests (calls st') = (best_move_requests (calls st) + 1)%nat ->
      W (calls st) c_set = Ok tt
      /\ W (calls (log c_set st)) c_probe = Ok true
      /\ raises W (calls (log c_probe (log c_set st))) c_top = true)
  /\ (let ladder := Sicily.ranked_moves W stockfish stockfish_params fen short_fen
                      full_fen st in
      let c_top := get_top_moves stockfish 3 in
      let s1 := log c_top st in
      let restarted := sessions (calls s1) in
      let s2 := after (construction restarted stockfish_params) s1 in
      let c_set := set_fen_position restarted full_fen in
      let s3 := log c_set s2 in
      let c_retry := get_top_moves restarted 3 in
      let s4 := log c_retry s3 in
      let c_best := get_best_move restarted in
      raises W (calls st) c_top = true ->
      (answers_all W (calls s1) (construction restarted stockfish_params) = true ->
       raises W (calls s2) c_set = true ->
       raises W (calls s3) c_best = true ->
       ladder = (log c_best s3, Returned (Some fen, None, false)))
      /\ (answers_all W (calls s1) (construction restarted stockfish_params) = true ->
          raises W (calls s2) c_set = false ->
          raises W (calls s3) c_retry = true ->
          raises W (calls s4) c_best = true ->
          ladder = (log c_best s4, Returned (Some fen, None, false)))
      /\ (answers_all W (calls s1) (construction restarted stockfish_params) = false ->
          snd ladder = Returned (Some fen, None, false)
          /\ sessions (calls (fst ladder)) = (sessions (calls st) + 1)%nat
          /\ best_move_requests (calls (fst ladder)) = best_move_requests (calls st))).
Proof.
  split.
  - intros st'. subst st'. unfold_blocks.
    destruct stockfish_params as [p |]; explore W;
      (split; [| split]); count_calls.
  - split; [intros W' H; now apply query_same |].
    split.
    { intros st' c_set c_probe c_top. subst st' c_set c_probe c_top.
      unfold raises. unfold_blocks.
      destruct stockfish_params as [p |]; explore W; intros [H | H];
        first [ solve [repeat split; reflexivity]
              | exfalso; revert H; count_calls ]. }
    intros ladder c_top s1 restarted s2 c_set s3 c_retry s4 c_best Htop.
    split; [| split].
    + intros Hnew Hset Hbest.
      pose proof (init_stockfish_ok W stockfish_params s1 Hnew) as Hinit.
      clear Hnew.
      subst ladder c_best s4 c_retry s3 c_set s2 restarted s1 c_top.
      unfold Sicily.ranked_moves, try_except, bind, ask, ret, return_.
      simpl in *. raised Htop. rewrite Hinit. simpl.
      raised Hset. raised Hbest. reflexivity.
    + intros Hnew Hset Hretry Hbest.
      pose proof (init_stockfish_ok W stockfish_params s1 Hnew) as Hinit.
      clear Hnew.
      subst ladder c_best s4 c_retry s3 c_set s2 restarted s1 c_top.
      unfold Sicily.ranked_moves, try_except, bind, ask, ret, return_.
      simpl in *. raised Htop. rewrite Hinit. simpl.
      raised Hset. raised Hretry. raised Hbest. reflexivity.
    + intros Hnew.
      pose proof (init_stockfish_calls W stockfish_params s1) as (Hs & Hb & Hn).
      specialize (Hn Hnew). clear Hnew.
      subst ladder c_best s4 c_retry s3 c_set s2 restarted s1 c_top.
      unfold Sicily.ranked_moves, try_except, bind, ask, ret, return_.
      simpl in *. raised Htop.
      destruct (Sicily.init_stockfish W stockfish_params _) as [st1 o1].
      simpl in *. subst o1. simpl.
      split; [reflexivity |]. rewrite Hs, Hb. split; count_calls.
Qed.

Lemma restart_ladder_witness :
  let E := Engines.healthy Engines.accept_all (Some [Engines.e2e4]) None Placeholder in
  let p := Engines.start_placement in
  let full_fen := Sicily.with_full_rights p Sicily.w in
  let st : state Sicily.output :=
    after (construction 0 None
             ++ [is_fen_valid 0 full_fen; set_fen_position 0 full_fen;
                 is_fen_valid 0 Sicily.start_fen]) start in
  let s0 : state Sicily.output :=
    after (construction 0 None ++ [is_fen_valid 0 full_fen]) start in
  let s1 := log (get_top_moves 0 3) st in
  let s2 := after (construction 1 None) s1 in
  let s3 := log (set_fen_position 1 full_fen) s2 in
  let s4 := log (get_top_moves 1 3) s3 in
  let W1 := Engines.hangs_after 7 E in
  let W2 := Engines.without_moves E in
  let W3 := Engines.dead in
  (raises W1 (calls st) (get_top_moves 0 3) = true
   /\ answers_all W1 (calls s1) (construction 1 None) = true
   /\ raises W1 (calls s2) (set_fen_position 1 full_fen) = true
   /\ raises W1 (calls s3) (get_best_move 1) = true
   /\ Sicily.ranked_moves W1 0 None p p full_fen st
      = (log (get_best_move 1) s3, Returned (Some p, None, false)))
  /\ (raises W2 (calls st) (get_top_moves 0 3) = true
      /\ answers_all W2 (calls s1) (construction 1 None) = true
      /\ raises W2 (calls s2) (set_fen_position 1 full_fen) = false
      /\ raises W2 (calls s3) (get_top_moves 1 3) = true
      /\ raises W2 (calls s4) (get_best_move 1) = true
      /\ Sicily.ranked_moves W2 0 None p p full_fen st
         = (log (get_best_move 1) s4, Returned (Some p, None, false)))
  /\ (raises W3 (calls st) (get_top_moves 0 3) = true
      /\ answers_all W3 (calls s1) (construction 1 None) = false
      /\ snd (Sicily.ranked_moves W3 0 None p p full_fen st)
         = Returned (Some p, None, false))
  /\ (forall (t : list call) (c : call), W3 t c = W3 t c)
  /\ Sicily.query W3 0 None p p Sicily.w full_fen st
     = Sicily.query W3 0 None p p Sicily.w full_fen st
  /\ sessions (calls (fst (Sicily.query W1 0 None p p Sicily.w full_fen s0)))
     = (sessions (calls s0) + 1)%nat
  /\ raises W1 (calls (log (is_fen_valid 0 Sicily.start_fen)
                         (log (set_fen_position 0 full_fen) s0)))
       (get_top_moves 0 3) = true.
Proof.
  intros E p full_fen st s0 s1 s2 s3 s4 W1 W2 W3.
  pose proof (proj2 (proj2 (proj2
                (restart_ladder W1 0 None p p Sicily.w full_fen st)))
                eq_refl) as (T1 & _ & _).
  pose proof (proj2 (proj2 (proj2
                (restart_ladder W2 0 None p p Sicily.w full_fen st)))
                eq_refl) as (_ & T2 & _).
  pose proof (proj2 (proj2 (proj2
                (restart_ladder W3 0 None p p Sicily.w full_fen st)))
                eq_refl) as (_ & _ & T3).
  pose proof (proj1 (proj2 (restart_ladder W3 0 None p p Sicily.w full_fen st))
                W3 (fun t c => eq_refl)) as D.
  pose proof (proj1 (proj2 (proj2
                (restart_ladder W1 0 None p p Sicily.w full_fen s0)))
                (or_introl eq_refl)) as G.
  split; [| split; [| split; [| split; [intros t c; reflexivity |
    split; [exact D | split; [reflexivity | exact (proj2 (proj2 G))]]]]]].
  - split; [reflexivity |]. split; [reflexivity |]. split; [reflexivity |].
    split; [reflexivity |]. exact (T1 eq_refl eq_refl eq_refl).
  - split; [reflexivity |]. split; [reflexivity |]. split; [reflexivity |].
    split; [reflexivity |]. split; [reflexivity |].
    exact (T2 eq_refl eq_refl eq_refl eq_refl).
  - split; [reflexivity |]. split; [reflexivity |].
    exact (proj1 (T3 eq_refl)).
Defined.

(** C3, as specified, fails. On an engine whose every call raises,
    the first call (the construction of the session) ends the run; given a
    session, the first validation does; and a query proper stops at the
    position assignment. On an engine whose sessions can be constructed
    but fail every request, the run ends at the first validation.
    None of these runs restarts the engine or asks for a best move. *)
Lemma every_call_raises_no_restart :
  let p := Engines.start_placement in
  let full_fen := Sicily.with_full_rights p Sicily.w in
  let E := Engines.healthy Engines.accept_all (Some [Engines.e2e4]) None Placeholder in
  Sicily.test_move_generation Engines.dead Engines.already_short Engines.photo
    None None
  = ({| calls := [Stockfish_new]; printed := [] |}, Ok (Some (None, None, false)))
  /\ Sicily.generate Engines.dead 0 None p p Sicily.w full_fen start
     = ({| calls := [is_fen_valid 0 full_fen]; printed := [] |},
        Returned (Some p, None, false))
  /\ Sicily.query Engines.dead 0 None p p Sicily.w full_fen start
     = ({| calls := [set_fen_position 0 full_fen]; printed := [] |},
        Raised EngineError)
  /\ Sicily.test_move_generation (Engines.hangs_after 0 E) Engines.already_short
       Engines.photo None None
     = ({| calls := construction 0 None ++ [is_fen_valid 0 full_fen];
           printed := [] |},
        Ok (Some (Some p, None, false)))
  /\ best_move_requests [Stockfish_new] = 0%nat
  /\ best_move_requests [is_fen_valid 0 full_fen] = 0%nat
  /\ best_move_requests (construction 0 None ++ [is_fen_valid 0 full_fen]) = 0%nat
  /\ sessions (construction 0 None ++ [is_fen_valid 0 full_fen]) = 1%nat
  /\ sessions [is_fen_valid 0 full_fen] = 0%nat
  /\ sessions [set_fen_position 0 full_fen] = 0%nat.
Proof. intros p full_fen E. repeat split. Qed.

(** ** Validation before position assignment *)

Lemma accepted_snoc (W : engine) (fen : string) (rest : list call) :
  forall (seen : list call) (c : call),
    accepted W seen (rest ++ [c]) fen
    = accepted W seen rest fen
      || match c with
         | is_fen_valid sf f =>
             String.eqb f fen
             && match W (seen ++ rest) (is_fen_valid sf f) with
                | Ok true => true
                | _ => false
                end
         | _ => false
         end.
Proof.
  induction rest as [| d rest IH]; intros seen c.
  - simpl. rewrite app_nil_r, orb_false_r. reflexivity.
  - simpl. rewrite IH, <- app_assoc. simpl. now rewrite orb_assoc.
Qed.

Lemma validated_before_set_snoc (W : engine) (rest : list call) :
  forall (seen : list call) (c : call),
    validated_before_set W seen (rest ++ [c])
    = validated_before_set W seen rest
      && match c with
         | set_fen_position _ fen => accepted W [] (seen ++ rest) fen
         | _ => true
         end.
Proof.
  induction rest as [| d rest IH]; intros seen c.
  - simpl. rewrite app_nil_r, andb_true_r. reflexivity.
  - simpl. rewrite IH, <- app_assoc. simpl. now rewrite andb_assoc.
Qed.

Ltac validated :=
  simpl;
  repeat (rewrite ?validated_before_set_snoc, ?accepted_snoc; simpl);
  repeat answer;
  rewrite ?String.eqb_refl; simpl;
  rewrite ?orb_true_r, ?andb_true_r; simpl;
  try assumption; try reflexivity.

(** The engine phase of sicily.py only sets positions that were accepted. *)
Lemma generate_validates_before_setting (W : engine) (stockfish : handle)
  (stockfish_params : option Sicily.params) (fen short_fen : string)
  (active_player : Sicily.player) (full_fen : string) (st : state Sicily.output) :
  validated_before_set W [] (calls st) = true ->
  validated_before_set W []
    (calls (fst (Sicily.generate W stockfish stockfish_params fen short_fen
                   active_player full_fen st))) = true.
Proof.
  intros V. unfold_blocks.
  destruct stockfish_params as [p |]; explore W; unfold printing; validated.
Qed.

Lemma init_stockfish_validated (W : engine) (stockfish_params : option Sicily.params)
  (st : state Sicily.output) :
  validated_before_set W [] (calls st) = true ->
  validated_before_set W []
    (calls (fst (Sicily.init_stockfish W stockfish_params st))) = true.
Proof.
  intros V. unfold_blocks.
  destruct stockfish_params as [p |]; explore W; validated.
Qed.

(** X1. In every run of sicily.py's [test_move_generation], each position
    handed to [set_fen_position] was accepted by [is_fen_valid] before. *)
Lemma sicily_validates_before_setting (W : engine) (shortenFEN : string -> string)
  (sc : scene) (stockfish_params : option Sicily.params)
  (manual_side : option Sicily.player) :
  validated_before_set W []
    (calls (fst (Sicily.test_move_generation W shortenFEN sc stockfish_params
                   manual_side))) = true.
Proof.
  unfold Sicily.test_move_generation, Sicily.test_move_generation_body.
  unfold bind at 1.
  pose proof (init_stockfish_validated W stockfish_params start eq_refl) as V.
  destruct (Sicily.init_stockfish W stockfish_params start) as [st1 [[sf |] | e | r]];
    simpl in V; try exact V.
  unfold bind, ret, return_.
  destruct (image sc); try exact V.
  destruct (board sc); try exact V.
  unfold Sicily.analyse_board, ret, return_.
  assert (G : forall fen short_fen active_player full_fen,
             validated_before_set W []
               (calls (fst (let (st, o) :=
                              Sicily.generate W sf stockfish_params fen short_fen
                                active_player full_fen st1 in
                            match o with
                            | Next _ => (st, Ok None)
                            | Raised e => (st, Raise e)
                            | Returned r => (st, Ok (Some r))
                            end))) = true).
  { intros fen short_fen active_player full_fen.
    pose proof (generate_validates_before_setting W sf stockfish_params fen
                  short_fen active_player full_fen st1 V) as H.
    destruct (Sicily.generate W sf stockfish_params fen short_fen active_player
                full_fen st1) as [st2 [u | e | r]]; exact H. }
  destruct (prediction sc) as [| | fen]; try exact V.
  - destruct (Sicily.detect_board_orientation _) as [o a]. apply G.
  - destruct manual_side as [[|] |]; try apply G.
    destruct (Sicily.detect_board_orientation _) as [[|] a]; apply G.
Qed.

Lemma test_py_print_top_moves_run (top_moves : list move_data) :
  forall (i : Z) (st : state TestPy.output),
    TestPy.print_top_moves i top_moves st
    = ({| calls := calls st;
          printed := printed st
                     ++ map (fun im : Z * move_data =>
                               TestPy.top_move_line (fst im) (Move (snd im))
                                 (Centipawn (snd im)))
                            (enumerate i top_moves) |},
       Next tt).
Proof.
  induction top_moves as [| m l IH]; intros i st.
  - simpl. unfold ret. rewrite app_nil_r. now destruct st.
  - simpl. unfold bind, print. rewrite IH. simpl. now rewrite <- app_assoc.
Qed.

Arguments TestPy.print_top_moves : simpl never.

(** In test.py the assignment is the first request on the session,
    whatever the engine answers: a run satisfies validation-before-assignment
    only if it never reaches the engine with a position. *)
Lemma test_py_never_validates_first (W : engine) (shortenFEN : string -> string)
  (sc : scene) :
  let t := calls (fst (TestPy.test_move_generation W shortenFEN sc)) in
  validated_before_set W [] t = true ->
  forall (sf : handle) (fen : string), ~ In (set_fen_position sf fen) t.
Proof.
  unfold TestPy.test_move_generation, TestPy.test_move_generation_body,
    TestPy.generate, Stockfish.Stockfish, bind, ask, try_except, ret, return_,
    raise, print.
  destruct (image sc), (board sc), (prediction sc);
    repeat (simpl;
            match goal with
            | |- context [match W ?t ?c with _ => _ end] =>
                let a := fresh "a" in
                destruct (W t c) as [a |] eqn:?; try (destruct a)
            | |- context [match ?o with Some _ => _ | None => _ end] =>
                is_var o; destruct o
            | |- context [TestPy.print_top_moves _ _ _] =>
                rewrite test_py_print_top_moves_run
            end);
    simpl; intros V sf0 fen0; try discriminate V;
    simpl; intuition discriminate.
Qed.

(** C2 on test.py. On a position that the engine rejects with full castling
    rights and accepts without them, test.py's [test_move_generation] sets
    the rejected position first, asks about it afterwards, never sets the
    accepted one, and reports success: validation does not precede the
    assignment, and the session is left on a position that was rejected. *)
Theorem test_py_sets_position_before_validation :
  let p := Engines.start_placement in
  let full_fen := (p ++ " w KQkq - 0 1")%string in
  let simplified_fen := (p ++ " w - - 0 1")%string in
  let W := Engines.healthy (Engines.accept_only simplified_fen)
             (Some [Engines.e2e4]) (Some "e2e4"%string) (Score "cp" (Some 35%Z)) in
  let run := TestPy.test_move_generation W Engines.already_short Engines.photo in
  calls (fst run)
  = [Stockfish_new; reset_engine_parameters 0; set_skill_level 0 10;
     set_depth 0 6; set_fen_position 0 full_fen; is_fen_valid 0 full_fen;
     is_fen_valid 0 simplified_fen; get_best_move 0; get_evaluation 0;
     get_top_moves 0 3]
  /\ snd run
     = Ok (Some (Some p, Some "e2e4"%string, Some Geometry.board_800, Some Img, true))
  /\ validated_before_set W [] (calls (fst run)) = false
  /\ accepted W [] (calls (fst run)) full_fen = false
  /\ validated_before_set W []
       (calls (fst (Sicily.test_move_generation W Engines.already_short
                      Engines.photo None None))) = true.
Proof. intros p full_fen simplified_fen W run. repeat split. Qed.

(** ** Evaluations from the side to move *)

Lemma display_centipawn_black (centipawn : option Z) :
  Sicily.display_centipawn Sicily.b centipawn = option_map Z.opp centipawn.
Proof. destruct centipawn; reflexivity. Qed.

(** C5, as the code has it. For Black the displayed evaluation negates
    the value of a centipawn score and of a mate distance, and the line of
    every ranked move shows its centipawn score negated; for White the
    evaluation and every line are shown as they are. An evaluation of
    another type, one whose value is [None], the unknown placeholder, a
    value that is not a dict, and a ranked move without a centipawn score
    are shown unchanged. The mate distance of a ranked move is not read:
    whatever it is, the lines are the same, and a ranked move that mates
    is shown with the centipawn score [None] for either side. The query
    prints exactly these displayed values. *)
Theorem evaluation_normalisation :
  (forall value : Z,
      Sicily.display_evaluation Sicily.b (Score "cp" (Some value))
      = Score "cp" (Some (- value)%Z))
  /\ (forall value : Z,
         Sicily.display_evaluation Sicily.b (Score "mate" (Some value))
         = Score "mate" (Some (- value)%Z))
  /\ (forall top_moves : list move_data,
         top_move_lines Sicily.b top_moves
         = map (fun im : Z * move_data =>
                  Sicily.top_move_line (fst im) (Move (snd im))
                    (option_map Z.opp (Centipawn (snd im))))
               (enumerate 1 top_moves))
  /\ (forall ev : evaluation, Sicily.display_evaluation Sicily.w ev = ev)
  /\ (forall top_moves : list move_data,
         top_move_lines Sicily.w top_moves
         = map (fun im : Z * move_data =>
                  Sicily.top_move_line (fst im) (Move (snd im)) (Centipawn (snd im)))
               (enumerate 1 top_moves))
  /\ (forall (type : string) (value : option Z),
         type <> "cp"%string -> type <> "mate"%string ->
         Sicily.display_evaluation Sicily.b (Score type value) = Score type value)
  /\ (forall type : string,
         Sicily.display_evaluation Sicily.b (Score type None) = Score type None)
  /\ Sicily.display_evaluation Sicily.b Placeholder = Placeholder
  /\ (forall v : pyval,
         Sicily.display_evaluation Sicily.b (NotADict v) = NotADict v)
  /\ Sicily.display_centipawn Sicily.b None = None
  /\ (forall (active_player : Sicily.player) (mate : move_data -> option Z)
        (top_moves : list move_data),
         top_move_lines active_player
           (map (fun m => {| Move := Move m; Centipawn := Centipawn m;
                             Mate := mate m |}) top_moves)
         = top_move_lines active_player top_moves)
  /\ (forall (active_player : Sicily.player) (move : string) (n : Z),
         top_move_lines active_player [Engines.mate_in move n]
         = [Sicily.top_move_line 1 move None])
  /\ (forall (W : engine) (stockfish : handle) (fen short_fen : string)
        (active_player : Sicily.player) (first : move_data)
        (rest : list move_data) (st : state Sicily.output) (ev : evaluation),
         W (calls st) (get_evaluation stockfish) = Ok ev ->
         Sicily.report W stockfish fen short_fen active_player
           (Some (first :: rest)) st
         = (printing (report_lines active_player ev (first :: rest))
              (log (get_evaluation stockfish) st),
            Returned (Some short_fen, Some (Move first), true))).
Proof.
  split; [intros; reflexivity |].
  split; [intros; reflexivity |].
  split.
  { intros top_moves. unfold top_move_lines. apply map_ext.
    intros im. now rewrite display_centipawn_black. }
  split; [intros; reflexivity |].
  split.
  { intros top_moves. unfold top_move_lines. apply map_ext.
    intros im. destruct (Centipawn (snd im)); reflexivity. }
  split.
  { intros type value Hcp Hmate. simpl.
    destruct value as [v |]; [| reflexivity].
    destruct (String.eqb type "cp") eqn:E1.
    { apply String.eqb_eq in E1. contradiction. }
    destruct (String.eqb type "mate") eqn:E2.
    { apply String.eqb_eq in E2. contradiction. }
    reflexivity. }
  split; [intros; reflexivity |].
  split; [reflexivity |].
  split; [intros; reflexivity |].
  split; [reflexivity |].
  split.
  { intros active_player mate top_moves. unfold top_move_lines.
    generalize 1%Z. induction top_moves as [| m l IH]; intros i;
      [reflexivity |].
    simpl. now rewrite IH. }
  split; [intros [] move n; reflexivity |].
  intros W stockfish fen short_fen active_player first rest st ev H.
  rewrite report_some. simpl. now rewrite H.
Qed.

Lemma evaluation_normalisation_witness :
  let W := Engines.healthy Engines.accept_all
             (Some [Engines.e2e4; Engines.d2d4]) None (Score "mate" (Some 3%Z)) in
  let p := Engines.start_placement in
  ("unknown" <> "cp" /\ "unknown" <> "mate")%string
  /\ Sicily.display_evaluation Sicily.b (Score "unknown" (Some 7%Z))
     = Score "unknown" (Some 7%Z)
  /\ W [] (get_evaluation 0) = Ok (Score "mate" (Some 3%Z))
  /\ Sicily.report W 0 p p Sicily.b (Some [Engines.e2e4; Engines.d2d4]) start
     = ({| calls := [get_evaluation 0];
           printed := [Sicily.best_move_line Sicily.b "e2e4";
                       Sicily.evaluation_line (Score "mate" (Some (-3)%Z));
                       Sicily.top_move_line 1 "e2e4" (Some (-35)%Z);
                       Sicily.top_move_line 2 "d2d4" None] |},
        Returned (Some p, Some "e2e4"%string, true)).
Proof.
  intros W p.
  assert (H1 : "unknown"%string <> "cp"%string) by discriminate.
  assert (H2 : "unknown"%string <> "mate"%string) by discriminate.
  pose proof evaluation_normalisation
    as (_ & _ & _ & _ & _ & U & _ & _ & _ & _ & _ & _ & R).
  split; [exact (conj H1 H2) |].
  split; [exact (U "unknown"%string (Some 7%Z) H1 H2) |].
  split; [reflexivity |].
  exact (R W 0 p p Sicily.b Engines.e2e4 [Engines.d2d4] start
           (Score "mate" (Some 3%Z)) eq_refl).
Defined.

(** C5, as specified, fails on the ranked list: for Black, a ranked move
    that mates in 1 is printed with the centipawn score [None] and its
    mate distance is not negated, it is not printed at all: the run prints
    what it prints for White, and what it prints for the distance -1. *)
Lemma ranked_mate_not_negated :
  Sicily.print_top_moves Sicily.b 1 [Engines.mate_in "d8h4" 1] start
  = ({| calls := []; printed := [Sicily.top_move_line 1 "d8h4" None] |}, Next tt)
  /\ Sicily.print_top_moves Sicily.b 1 [Engines.mate_in "d8h4" 1] start
     = Sicily.print_top_moves Sicily.w 1 [Engines.mate_in "d8h4" 1] start
  /\ Sicily.print_top_moves Sicily.b 1 [Engines.mate_in "d8h4" 1] start
     = Sicily.print_top_moves Sicily.b 1 [Engines.mate_in "d8h4" (-1)] start
  /\ Mate (Engines.mate_in "d8h4" 1) = Some 1%Z.
Proof. repeat split. Qed.

(** * Further properties of the two scripts *)

Local Open Scope list_scope.

(** ** Pixels of squares *)

Lemma board_square_indices (c0 c1 : ascii) :
  TestPyCli.board_square c0 c1 = true ->
  (0 <= Z.of_N (code c0) - 97 <= 7)%Z /\ (0 <= Z.of_N (code c1) - 48 - 1 <= 7)%Z
  /\ isdigit c1 = true.
Proof.
  unfold TestPyCli.board_square, isdigit, in_range. intros H.
  apply andb_true_iff in H. destruct H as [H0 H1].
  apply andb_true_iff in H0. apply andb_true_iff in H1.
  destruct H0 as [A B], H1 as [C D].
  apply N.leb_le in A, B, C, D.
  repeat split; try lia.
  apply andb_true_iff. split; apply N.leb_le; lia.
Qed.

(** Truncation towards zero of sixteenths stays between integer bounds. *)
Lemma quot16_between (a lo hi : Z) :
  (16 * lo <= a <= 16 * hi)%Z -> (lo <= a ÷ 16 <= hi)%Z.
Proof.
  intros H. pose proof (Z.quot_rem' a 16) as E.
  destruct (Z_le_gt_dec 0 a) as [P | N].
  - pose proof (Z.rem_bound_pos a 16 P ltac:(lia)). lia.
  - pose proof (Z.rem_bound_pos_neg a 16 ltac:(lia) ltac:(lia)). lia.
Qed.

Lemma quot16_div (a : Z) : (0 <= a)%Z -> (a ÷ 16 = a / 16)%Z.
Proof. intros H. apply Z.quot_div_nonneg; lia. Qed.

(** An index of a file or of a rank is one of eight. *)
Ltac eight f :=
  match goal with
  | H : (0 <= f <= 7)%Z |- _ =>
      assert (f = 0 \/ f = 1 \/ f = 2 \/ f = 3 \/ f = 4 \/ f = 5 \/ f = 6 \/ f = 7)%Z
        as [-> | [-> | [-> | [-> | [-> | [-> | [-> | ->]]]]]]] by lia;
      clear H
  end.

(** The pixel of a square of the board lies within the box of the board. *)
Lemma square_pixel_inside (c0 c1 : ascii) (c : corners) :
  TestPyCli.board_square c0 c1 = true ->
  (x0 c <= x1 c)%Z -> (y0 c <= y1 c)%Z ->
  exists x y : Z,
    TestPy.square_to_coordinates (String c0 (String c1 "")) c = Ok (Some (x, y))
    /\ (x0 c <= x <= x1 c)%Z /\ (y0 c <= y <= y1 c)%Z.
Proof.
  intros Hsq Hx Hy.
  destruct (board_square_indices c0 c1 Hsq) as (Hf & Hr & Hd).
  rewrite (square_to_coordinates_digit c0 c1 c Hd), centre_sixteenths.
  do 2 eexists. split; [reflexivity |].
  set (f := (Z.of_N (code c0) - 97)%Z) in *.
  set (r := (Z.of_N (code c1) - 48 - 1)%Z) in *.
  clearbody f r. clear Hsq Hd.
  split; apply quot16_between; [eight f | eight r]; lia.
Qed.

(** X2. On a board box with non-negative corners that is at least 16 pixels
    wide and high, the pixel that [square_to_coordinates] gives for a
    square a1..h8 lies within that square's own cell: the file-th eighth of
    the width from the left edge, the rank-th eighth of the height from the
    lower edge (bounds multiplied by 8 to stay in the integers). *)
Theorem square_centre_in_square (c0 c1 : ascii) (c : corners) :
  TestPyCli.board_square c0 c1 = true ->
  (0 <= x0 c)%Z -> (0 <= y0 c)%Z ->
  (16 <= x1 c - x0 c)%Z -> (16 <= y1 c - y0 c)%Z ->
  let file := (Z.of_N (code c0) - 97)%Z in
  let rank := (Z.of_N (code c1) - 49)%Z in
  exists x y : Z,
    TestPy.square_to_coordinates (String c0 (String c1 "")) c = Ok (Some (x, y))
    /\ (8 * x0 c + file * (x1 c - x0 c) <= 8 * x
        < 8 * x0 c + (file + 1) * (x1 c - x0 c))%Z
    /\ (8 * y1 c - (rank + 1) * (y1 c - y0 c) <= 8 * y
        < 8 * y1 c - rank * (y1 c - y0 c))%Z.
Proof.
  intros Hsq Hx Hy Hw Hh file rank.
  destruct (board_square_indices c0 c1 Hsq) as (Hf & Hr & Hd).
  rewrite (square_to_coordinates_digit c0 c1 c Hd), centre_sixteenths.
  do 2 eexists. split; [reflexivity |].
  replace (Z.of_N (code c1) - 48 - 1)%Z with rank in * by (subst rank; lia).
  fold file in Hf |- *.
  clearbody file rank. clear Hsq Hd.
  split.
  - rewrite quot16_div by (eight file; lia).
    eight file; Z.div_mod_to_equations; lia.
  - rewrite quot16_div by (eight rank; lia).
    eight rank; Z.div_mod_to_equations; lia.
Qed.

Lemma square_centre_in_square_witness :
  exists x y : Z,
    TestPy.square_to_coordinates "c6" {| x0 := 40; y0 := 60; x1 := 680; y1 := 700 |}
    = Ok (Some (x, y))
    /\ (1600 <= 8 * x < 2240)%Z /\ (1760 <= 8 * y < 2400)%Z.
Proof.
  exact (square_centre_in_square "c" "6"
           {| x0 := 40; y0 := 60; x1 := 680; y1 := 700 |} eq_refl
           ltac:(simpl; lia) ltac:(simpl; lia) ltac:(simpl; lia) ltac:(simpl; lia)).
Defined.

Lemma sixteenths_step (a b : Z) :
  (0 <= a)%Z -> (a + 16 <= b)%Z -> (a ÷ 16 < b ÷ 16)%Z.
Proof.
  intros Ha Hb. rewrite !quot16_div by lia. Z.div_mod_to_equations. lia.
Qed.

Lemma file_pixels_ordered (c : corners) (f f' : Z) :
  (0 <= x0 c)%Z -> (8 <= x1 c - x0 c)%Z -> (0 <= f <= 7)%Z -> (0 <= f' <= 7)%Z ->
  (f < f')%Z ->
  ((16 * x0 c + (2 * f + 1) * (x1 c - x0 c)) ÷ 16
   < (16 * x0 c + (2 * f' + 1) * (x1 c - x0 c)) ÷ 16)%Z.
Proof.
  intros Hx Hw Hf Hf' L. apply sixteenths_step; eight f; eight f'; lia.
Qed.

Lemma rank_pixels_ordered (c : corners) (r r' : Z) :
  (0 <= y0 c)%Z -> (8 <= y1 c - y0 c)%Z -> (0 <= r <= 7)%Z -> (0 <= r' <= 7)%Z ->
  (r < r')%Z ->
  ((16 * y1 c - (2 * r' + 1) * (y1 c - y0 c)) ÷ 16
   < (16 * y1 c - (2 * r + 1) * (y1 c - y0 c)) ÷ 16)%Z.
Proof.
  intros Hy Hh Hr Hr' L. apply sixteenths_step; eight r; eight r'; lia.
Qed.

(** X3. On a board box with non-negative corners that is at least 8 pixels
    wide and high, the pixels of the squares a1..h8 keep the order of the
    board: a later file lies strictly to the right, a higher rank strictly
    above (a smaller y), and two squares with the same pixel are the same
    square. *)
Theorem square_order (c0 c1 d0 d1 : ascii) (c : corners) :
  TestPyCli.board_square c0 c1 = true ->
  TestPyCli.board_square d0 d1 = true ->
  (0 <= x0 c)%Z -> (0 <= y0 c)%Z ->
  (8 <= x1 c - x0 c)%Z -> (8 <= y1 c - y0 c)%Z ->
  exists x y x' y' : Z,
    TestPy.square_to_coordinates (String c0 (String c1 "")) c = Ok (Some (x, y))
    /\ TestPy.square_to_coordinates (String d0 (String d1 "")) c = Ok (Some (x', y'))
    /\ ((code c0 < code d0)%N -> (x < x')%Z)
    /\ ((code c1 < code d1)%N -> (y' < y)%Z)
    /\ ((x, y) = (x', y') -> c0 = d0 /\ c1 = d1).
Proof.
  intros Hc Hd Hx Hy Hw Hh.
  destruct (board_square_indices c0 c1 Hc) as (Hf & Hr & Hdig).
  destruct (board_square_indices d0 d1 Hd) as (Hf' & Hr' & Hdig').
  rewrite (square_to_coordinates_digit c0 c1 c Hdig),
    (square_to_coordinates_digit d0 d1 c Hdig'), !centre_sixteenths.
  do 4 eexists. split; [reflexivity |]. split; [reflexivity |].
  pose proof (file_pixels_ordered c _ _ Hx Hw Hf Hf') as A.
  pose proof (file_pixels_ordered c _ _ Hx Hw Hf' Hf) as A'.
  pose proof (rank_pixels_ordered c _ _ Hy Hh Hr Hr') as B.
  pose proof (rank_pixels_ordered c _ _ Hy Hh Hr' Hr) as B'.
  split; [intros L; apply A; lia |]. split; [intros L; apply B; lia |].
  intros E. apply pair_equal_spec in E. destruct E as [Ex Ey].
  assert (N0 : code c0 = code d0).
  { destruct (N.lt_trichotomy (code c0) (code d0)) as [L | [L | L]];
      [assert (T := A ltac:(lia)); rewrite Ex in T; elim (Z.lt_irrefl _ T) | exact L
      | assert (T := A' ltac:(lia)); rewrite Ex in T; elim (Z.lt_irrefl _ T)]. }
  assert (N1 : code c1 = code d1).
  { destruct (N.lt_trichotomy (code c1) (code d1)) as [L | [L | L]];
      [assert (T := B ltac:(lia)); rewrite Ey in T; elim (Z.lt_irrefl _ T) | exact L
      | assert (T := B' ltac:(lia)); rewrite Ey in T; elim (Z.lt_irrefl _ T)]. }
  unfold code in N0, N1.
  split.
  - rewrite <- (ascii_N_embedding c0), <- (ascii_N_embedding d0). now rewrite N0.
  - rewrite <- (ascii_N_embedding c1), <- (ascii_N_embedding d1). now rewrite N1.
Qed.

Lemma square_order_witness :
  let c := {| x0 := 3; y0 := 5; x1 := 11; y1 := 13 |} in
  TestPyCli.board_square "b" "2" = true /\ TestPyCli.board_square "g" "7" = true
  /\ exists x y x' y' : Z,
       TestPy.square_to_coordinates "b2" c = Ok (Some (x, y))
       /\ TestPy.square_to_coordinates "g7" c = Ok (Some (x', y'))
       /\ ((code "b" < code "g")%N -> (x < x')%Z)
       /\ ((code "2" < code "7")%N -> (y' < y)%Z)
       /\ ((x, y) = (x', y') -> "b"%char = "g"%char /\ "2"%char = "7"%char).
Proof.
  intros c. split; [reflexivity |]. split; [reflexivity |].
  exact (square_order "b" "2" "g" "7" c eq_refl eq_refl
           ltac:(simpl; lia) ltac:(simpl; lia) ltac:(simpl; lia) ltac:(simpl; lia)).
Defined.

(** ** The arrow of a move *)

Lemma slice_squares (c0 c1 d0 d1 : ascii) (rest : string) :
  let move := String c0 (String c1 (String d0 (String d1 rest))) in
  slice 0 2 move = String c0 (String c1 "")
  /\ slice 2 4 move = String d0 (String d1 "")
  /\ slice_from 4 move = rest.
Proof. intros move. subst move. simpl. destruct rest; repeat split. Qed.

Lemma slice_empty (s : string) : slice 0 0 s = "".
Proof. now destruct s. Qed.

Lemma short_move_length (move : string) :
  (String.length move < 4)%nat ->
  String.eqb move "" || (String.length move <? 4)%nat = true.
Proof.
  intros H. apply orb_true_iff. right. now apply Nat.ltb_lt.
Qed.

(** X4. [draw_move_on_image] draws nothing and returns [None] without a move
    or with a move of fewer than four characters; for a move that starts
    with two squares a1..h8 the arrow runs between the pixels that
    [square_to_coordinates] gives for the two squares, both within the
    box of the board, whatever follows the fourth character; and a move
    whose second or fourth character is not a digit makes it raise
    [ValueError]. *)
Theorem draw_move_on_image_endpoints :
  (forall c : corners, TestPyCli.draw_move_on_image None c = Ok None)
  /\ (forall (move : string) (c : corners),
         (String.length move < 4)%nat ->
         TestPyCli.draw_move_on_image (Some move) c = Ok None)
  /\ (forall (c0 c1 d0 d1 : ascii) (rest : string) (c : corners),
         TestPyCli.board_square c0 c1 = true ->
         TestPyCli.board_square d0 d1 = true ->
         (x0 c <= x1 c)%Z -> (y0 c <= y1 c)%Z ->
         exists fx fy tx ty : Z,
           TestPyCli.draw_move_on_image
             (Some (String c0 (String c1 (String d0 (String d1 rest))))) c
           = Ok (Some ((fx, fy), (tx, ty)))
           /\ TestPy.square_to_coordinates (String c0 (String c1 "")) c
              = Ok (Some (fx, fy))
           /\ TestPy.square_to_coordinates (String d0 (String d1 "")) c
              = Ok (Some (tx, ty))
           /\ (x0 c <= fx <= x1 c)%Z /\ (y0 c <= fy <= y1 c)%Z
           /\ (x0 c <= tx <= x1 c)%Z /\ (y0 c <= ty <= y1 c)%Z)
  /\ (forall (c0 c1 d0 d1 : ascii) (rest : string) (c : corners),
         isdigit c1 = false \/ (isdigit c1 = true /\ isdigit d1 = false) ->
         TestPyCli.draw_move_on_image
           (Some (String c0 (String c1 (String d0 (String d1 rest))))) c
         = Raise ValueError).
Proof.
  split; [reflexivity |]. split.
  { intros move c H. unfold TestPyCli.draw_move_on_image.
    now rewrite short_move_length. }
  split.
  - intros c0 c1 d0 d1 rest c Hf Ht Hx Hy.
    destruct (square_pixel_inside c0 c1 c Hf Hx Hy) as (fx & fy & Ef & Bf).
    destruct (square_pixel_inside d0 d1 c Ht Hx Hy) as (tx & ty & Et & Bt).
    exists fx, fy, tx, ty.
    unfold TestPyCli.draw_move_on_image.
    cbn [slice String.eqb String.length Nat.ltb Nat.leb orb].
    replace (match rest with "" | _ => "" end) with "" by now destruct rest.
    rewrite Ef, Et. simpl. intuition.
  - intros c0 c1 d0 d1 rest c H.
    unfold TestPyCli.draw_move_on_image.
    cbn [slice String.eqb String.length Nat.ltb Nat.leb orb].
    replace (match rest with "" | _ => "" end) with "" by now destruct rest.
    destruct H as [H | [H1 H2]].
    + now rewrite (square_to_coordinates_not_digit c0 c1 c H).
    + rewrite (square_to_coordinates_digit c0 c1 c H1).
      now rewrite (square_to_coordinates_not_digit d0 d1 c H2).
Qed.

Lemma draw_move_on_image_endpoints_witness :
  (String.length "e2" < 4)%nat
  /\ TestPyCli.draw_move_on_image (Some "e2") board_800 = Ok None
  /\ TestPyCli.board_square "e" "7" = true
  /\ TestPyCli.board_square "e" "8" = true
  /\ (x0 board_800 <= x1 board_800)%Z /\ (y0 board_800 <= y1 board_800)%Z
  /\ (exists fx fy tx ty : Z,
         TestPyCli.draw_move_on_image (Some "e7e8q") board_800
         = Ok (Some ((fx, fy), (tx, ty)))
         /\ TestPy.square_to_coordinates "e7" board_800 = Ok (Some (fx, fy))
         /\ TestPy.square_to_coordinates "e8" board_800 = Ok (Some (tx, ty))
         /\ (x0 board_800 <= fx <= x1 board_800)%Z
         /\ (y0 board_800 <= fy <= y1 board_800)%Z
         /\ (x0 board_800 <= tx <= x1 board_800)%Z
         /\ (y0 board_800 <= ty <= y1 board_800)%Z)
  /\ (isdigit "n" = false \/ (isdigit "n" = true /\ isdigit "e" = false))
  /\ TestPyCli.draw_move_on_image (Some "(none)") board_800 = Raise ValueError.
Proof.
  assert (L : (String.length "e2" < 4)%nat) by (simpl; lia).
  assert (X : (x0 board_800 <= x1 board_800)%Z) by (simpl; lia).
  assert (Y : (y0 board_800 <= y1 board_800)%Z) by (simpl; lia).
  assert (D : isdigit "n" = false \/ (isdigit "n" = true /\ isdigit "e" = false))
    by (left; reflexivity).
  pose proof draw_move_on_image_endpoints as (_ & S & V & R).
  split; [exact L |]. split; [exact (S "e2" board_800 L) |].
  split; [reflexivity |]. split; [reflexivity |].
  split; [exact X |]. split; [exact Y |].
  split; [exact (V "e"%char "7"%char "e"%char "8"%char "q" board_800
                   eq_refl eq_refl X Y) |].
  split; [exact D |].
  exact (R "("%char "n"%char "o"%char "n"%char "e)" board_800 D).
Defined.

(** ** The name of the annotated image *)

(** X5. The annotated image is named after what stands before the first
    dot of the image path: a path without a dot gets [_out.png] appended,
    and everything from the first dot on is dropped, so a path that starts
    with [./] gives the bare name [_out.png]. *)
Theorem output_path_stem (stem : string) :
  contains "." stem = false ->
  TestPyCli.output_path stem = Ok (stem ++ "_out.png")%string
  /\ (forall rest : string,
         TestPyCli.output_path (stem ++ String "." rest)%string
         = Ok (stem ++ "_out.png")%string).
Proof.
  intros H. unfold TestPyCli.output_path. split.
  - now rewrite (split_no_sep "." stem H).
  - intros rest. now rewrite (split_app_sep "." stem rest H).
Qed.

Lemma output_path_stem_witness :
  contains "." "" = false
  /\ TestPyCli.output_path "./input.png" = Ok "_out.png"
  /\ contains "." "shots/board" = false
  /\ TestPyCli.output_path "shots/board.v2.png" = Ok "shots/board_out.png".
Proof.
  split; [reflexivity |].
  split; [exact (proj2 (output_path_stem "" eq_refl) "/input.png") |].
  split; [reflexivity |].
  exact (proj2 (output_path_stem "shots/board" eq_refl) "v2.png").
Defined.

(** ** Whole runs of sicily.py *)

Lemma truthy_some (m : option string) : Sicily.truthy m = true -> m <> None.
Proof. destruct m; [discriminate | discriminate]. Qed.

Ltac shaped :=
  unfold outcome_shaped, well_shaped; simpl;
  repeat split; intros; try discriminate; try congruence;
  try (exfalso; congruence).

(** The calls issued so far stay, new ones are appended. *)
Ltac appended := eexists; simpl; rewrite <- ?app_assoc; simpl; reflexivity.

(** How [init_stockfish] ends, and what it has called by then. *)
Lemma init_stockfish_cases (W : engine)
  (stockfish_params : option Sicily.params) (st : state Sicily.output) :
  let started := Sicily.init_stockfish W stockfish_params st in
  let sf := sessions (calls st) in
  (answers_all W (calls st) (construction sf stockfish_params) = true ->
   started = (after (construction sf stockfish_params) st, Next (Some sf)))
  /\ (answers_all W (calls st) (construction sf stockfish_params) = false ->
      snd started = Next None)
  /\ (exists k : nat,
         (1 <= k <= 4)%nat
         /\ fst started = after (firstn k (construction sf stockfish_params)) st).
Proof.
  intros started sf. subst started sf.
  split; [apply init_stockfish_ok |].
  split; [apply (init_stockfish_calls W stockfish_params st) |].
  unfold construction, settings. unfold_blocks.
  destruct stockfish_params as [p |]; explore W;
    first [ exists 1%nat; split; [lia |]; unfold after, log; simpl;
            rewrite <- ?app_assoc; reflexivity
          | exists 2%nat; split; [lia |]; unfold after, log; simpl;
            rewrite <- ?app_assoc; reflexivity
          | exists 3%nat; split; [lia |]; unfold after, log; simpl;
            rewrite <- ?app_assoc; reflexivity
          | exists 4%nat; split; [lia |]; unfold after, log; simpl;
            rewrite <- ?app_assoc; reflexivity ].
Qed.


Lemma repair_outcome (W : engine) (stockfish : handle) (short_fen : string)
  (active_player : Sicily.player) (full_fen : string) (st : state Sicily.output) :
  exists (st' : state Sicily.output) (o : outcome Sicily.retval (string * Sicily.player)),
    Sicily.repair W stockfish short_fen active_player full_fen st = (st', o)
    /\ outcome_shaped true o
    /\ (List.length (calls st') <= List.length (calls st) + 3)%nat
    /\ sessions (calls st') = sessions (calls st)
    /\ (validations (calls st') <= validations (calls st) + 3)%nat
    /\ best_move_requests (calls st') = best_move_requests (calls st)
    /\ (exists l, calls st' = calls st ++ is_fen_valid stockfish full_fen :: l).
Proof.
  unfold_blocks. explore W; do 2 eexists; (split; [reflexivity |]);
    (split; [shaped |]);
    (split; [count_calls |]); (split; [count_calls |]);
    (split; [count_calls |]); (split; [count_calls |]); appended.
Qed.

Lemma query_outcome (W : engine) (stockfish : handle)
  (stockfish_params : option Sicily.params) (fen short_fen : string)
  (active_player : Sicily.player) (full_fen : string) (st : state Sicily.output) :
  exists (st' : state Sicily.output) (o : outcome Sicily.retval unit),
    Sicily.query W stockfish stockfish_params fen short_fen active_player
      full_fen st = (st', o)
    /\ outcome_shaped false o
    /\ (List.length (calls st') <= List.length (calls st) + 10)%nat
    /\ (sessions (calls st') <= sessions (calls st) + 1)%nat
    /\ (validations (calls st') <= validations (calls st) + 1)%nat
    /\ (best_move_requests (calls st') <= best_move_requests (calls st) + 1)%nat
    /\ (exists l, calls st' = calls st ++ l).
Proof.
  unfold_blocks.
  destruct stockfish_params as [p |]; explore W;
    do 2 eexists; (split; [reflexivity |]);
    (split; [shaped; try (now apply truthy_some) |]);
    (split; [count_calls |]); (split; [count_calls |]);
    (split; [count_calls |]); (split; [count_calls |]);
    unfold printing; appended.
Qed.

(** The engine phase always ends in a [return], with a well-shaped tuple,
    within 13 calls of which at most 4 validations and one restart; its
    first call is the validation of the position it was given. *)
Lemma generate_returns (W : engine) (stockfish : handle)
  (stockfish_params : option Sicily.params) (fen short_fen : string)
  (active_player : Sicily.player) (full_fen : string) (st : state Sicily.output) :
  exists (st' : state Sicily.output) (r : Sicily.retval),
    Sicily.generate W stockfish stockfish_params fen short_fen active_player
      full_fen st = (st', Returned r)
    /\ well_shaped r
    /\ (List.length (calls st') <= List.length (calls st) + 13)%nat
    /\ (sessions (calls st') <= sessions (calls st) + 1)%nat
    /\ (validations (calls st') <= validations (calls st) + 4)%nat
    /\ (best_move_requests (calls st') <= best_move_requests (calls st) + 1)%nat
    /\ (exists l, calls st' = calls st ++ is_fen_valid stockfish full_fen :: l).
Proof.
  unfold Sicily.generate, try_except, bind.
  destruct (repair_outcome W stockfish short_fen active_player full_fen st)
    as (st1 & o1 & E1 & S1 & L1 & N1 & V1 & B1 & (l1 & A1)).
  rewrite E1. destruct o1 as [[full active] | e | r]; simpl.
  - destruct (query_outcome W stockfish stockfish_params fen short_fen active
                full st1) as (st2 & o2 & E2 & S2 & L2 & N2 & V2 & B2 & (l2 & A2)).
    assert (A : exists l, calls st2 = calls st ++ is_fen_valid stockfish full_fen :: l).
    { exists (l1 ++ l2). rewrite A2, A1, <- app_assoc. reflexivity. }
    rewrite E2. destruct o2 as [u | e | r]; simpl in S2.
    + discriminate S2.
    + unfold return_. do 2 eexists. split; [reflexivity |].
      split; [shaped |]. repeat split; try lia. exact A.
    + do 2 eexists. split; [reflexivity |]. split; [exact S2 |].
      repeat split; try lia. exact A.
  - unfold return_. do 2 eexists. split; [reflexivity |].
    split; [shaped |]. repeat split; try lia. eauto.
  - do 2 eexists. split; [reflexivity |]. split; [exact S1 |].
    repeat split; try lia. eauto.
Qed.

Lemma detect_board_orientation_pairs (fen : pyval) :
  Sicily.detect_board_orientation fen = (Sicily.normal, Sicily.w)
  \/ Sicily.detect_board_orientation fen = (Sicily.flipped, Sicily.b).
Proof.
  unfold Sicily.detect_board_orientation, Sicily.detect_board_orientation_try,
    rbind.
  destruct (py_split fen "/") as [ranks | e]; [| now left].
  destruct (index_last ranks) as [bottom | e]; [| now left].
  destruct (index_first ranks) as [top | e]; [| now left].
  destruct (_ >? _)%Z; [now left |].
  destruct (_ >? _)%Z; [now right |].
  destruct (_ || _); [now right | now left].
Qed.

(** How a run of sicily.py's [test_move_generation] goes: the engine could
    not be started; or it was started and the vision steps gave no
    position; or the engine phase ran on the position analysed, which is
    the rotated placement for Black and the given one for White. *)
Lemma sicily_run_cases (W : engine) (shortenFEN : string -> string) (sc : scene)
  (stockfish_params : option Sicily.params) (manual_side : option Sicily.player) :
  let started := Sicily.init_stockfish W stockfish_params start in
  let run := Sicily.test_move_generation W shortenFEN sc stockfish_params
               manual_side in
  (snd started = Next None /\ run = (fst started, Ok (Some (None, None, false))))
  \/ (exists sf, snd started = Next (Some sf) /\ vision_ready sc = false
                 /\ run = (fst started, Ok (Some (None, None, false))))
  \/ (exists sf fen short_fen active_player st' r,
         snd started = Next (Some sf) /\ vision_ready sc = true
         /\ Sicily.generate W sf stockfish_params fen short_fen active_player
              (Sicily.with_full_rights short_fen active_player) (fst started)
            = (st', Returned r)
         /\ run = (st', Ok (Some r))
         /\ (forall f, prediction sc = prediction_fen f ->
                       Sicily.with_full_rights short_fen active_player
                       = first_position (plays_black manual_side (shortenFEN f))
                           (shortenFEN f))).
Proof.
  intros started run.
  assert (Hrun : run = Sicily.test_move_generation W shortenFEN sc
                         stockfish_params manual_side) by reflexivity.
  clearbody run. subst started.
  unfold Sicily.test_move_generation, Sicily.test_move_generation_body in Hrun.
  unfold bind at 1 in Hrun.
  destruct (answers_all W (calls (@start Sicily.output))
              (construction (sessions (calls (@start Sicily.output)))
                 stockfish_params)) eqn:Ea.
  2:{ left.
      destruct (init_stockfish_cases W stockfish_params start) as (_ & Hnone & _).
      specialize (Hnone Ea).
      destruct (Sicily.init_stockfish W stockfish_params start) as [st1 o1].
      cbn [fst snd] in *. subst o1. split; [reflexivity | exact Hrun]. }
  rewrite (init_stockfish_ok W stockfish_params start Ea) in Hrun |- *.
  change (sessions (calls (@start Sicily.output))) with 0%nat in Hrun |- *.
  set (st1 := after (construction 0 stockfish_params) (@start Sicily.output))
    in Hrun |- *.
  cbn [fst snd]. cbv beta iota in Hrun. right.
  assert (G : forall fen short_fen active_player,
             exists st' r,
               Sicily.generate W 0%nat stockfish_params fen short_fen active_player
                 (Sicily.with_full_rights short_fen active_player) st1
               = (st', Returned r)).
  { intros fen short_fen active_player.
    destruct (generate_returns W 0%nat stockfish_params fen short_fen active_player
                (Sicily.with_full_rights short_fen active_player) st1)
      as (st' & r & E & _). eauto. }
  unfold vision_ready. unfold bind, ret, return_ in Hrun.
  destruct (image sc); cbv beta iota in Hrun |- *;
    try (left; exists 0%nat; repeat split; exact Hrun).
  destruct (board sc); cbv beta iota in Hrun |- *;
    try (left; exists 0%nat; repeat split; exact Hrun).
  unfold Sicily.analyse_board, ret, return_ in Hrun.
  destruct (prediction sc) as [| | f] eqn:Ep; cbv beta iota in Hrun |- *;
    try (left; exists 0%nat; repeat split; exact Hrun); right.
  - destruct (Sicily.detect_board_orientation _) as [o a]. cbv beta iota in Hrun.
    destruct (G Sicily.sample_fen (shortenFEN Sicily.sample_fen) a) as (st' & r & E).
    exists 0%nat, Sicily.sample_fen, (shortenFEN Sicily.sample_fen), a, st', r.
    rewrite E in Hrun |- *. repeat split; [exact Hrun |]. intros f' H. discriminate H.
  - unfold plays_black, first_position.
    destruct manual_side as [[|] |]; cbv beta iota in Hrun |- *.
    + destruct (G f (shortenFEN f) Sicily.w) as (st' & r & E).
      exists 0%nat, f, (shortenFEN f), Sicily.w, st', r.
      rewrite E in Hrun |- *. repeat split; [exact Hrun |].
      intros f' H. inversion H. reflexivity.
    + destruct (G f (Sicily.flip_fen_str (shortenFEN f)) Sicily.b) as (st' & r & E).
      exists 0%nat, f, (Sicily.flip_fen_str (shortenFEN f)), Sicily.b, st', r.
      rewrite E in Hrun |- *. repeat split; [exact Hrun |].
      intros f' H. inversion H. now rewrite flip_fen_str_reversed.
    + destruct (detect_board_orientation_pairs (PyStr (shortenFEN f))) as [D | D];
        rewrite D in Hrun; cbv beta iota in Hrun.
      * destruct (G f (shortenFEN f) Sicily.w) as (st' & r & E).
        exists 0%nat, f, (shortenFEN f), Sicily.w, st', r.
        rewrite E in Hrun |- *. repeat split; [exact Hrun |].
        intros f' H. inversion H. subst f'. rewrite D. reflexivity.
      * destruct (G f (Sicily.flip_fen_str (shortenFEN f)) Sicily.b) as (st' & r & E).
        exists 0%nat, f, (Sicily.flip_fen_str (shortenFEN f)), Sicily.b, st', r.
        rewrite E in Hrun |- *. repeat split; [exact Hrun |].
        intros f' H. inversion H. subst f'. rewrite D.
        now rewrite flip_fen_str_reversed.
Qed.

(** X7. No exception escapes sicily.py's [test_move_generation], whatever the
    engine and the vision steps do: it returns a tuple, with a move
    exactly when it reports success, and then with a position. *)
Theorem sicily_run_result (W : engine) (shortenFEN : string -> string)
  (sc : scene) (stockfish_params : option Sicily.params)
  (manual_side : option Sicily.player) :
  exists r : Sicily.retval,
    snd (Sicily.test_move_generation W shortenFEN sc stockfish_params manual_side)
    = Ok (Some r)
    /\ well_shaped r.
Proof.
  destruct (sicily_run_cases W shortenFEN sc stockfish_params manual_side)
    as [(_ & E) | [(sf & _ & _ & E) | (sf & fen & short & a & st' & r & _ & _ & G & E & _)]];
    rewrite E.
  - exists (None, None, false). split; [reflexivity | shaped].
  - exists (None, None, false). split; [reflexivity | shaped].
  - exists r. split; [reflexivity |].
    destruct (generate_returns W sf stockfish_params fen short a
                (Sicily.with_full_rights short a)
                (fst (Sicily.init_stockfish W stockfish_params start)))
      as (st2 & r2 & E2 & S2 & _).
    rewrite E2 in G. inversion G. subst. exact S2.
Qed.

Lemma init_stockfish_budget (W : engine) (stockfish_params : option Sicily.params) :
  let st := fst (Sicily.init_stockfish W stockfish_params start) in
  (List.length (calls st) <= 4)%nat
  /\ sessions (calls st) = 1%nat
  /\ validations (calls st) = 0%nat
  /\ best_move_requests (calls st) = 0%nat.
Proof.
  intros st. subst st.
  destruct (init_stockfish_cases W stockfish_params start) as (_ & _ & (k & Hk & E)).
  rewrite E. unfold construction, after. simpl calls.
  destruct k as [| [| [| [| [| k]]]]]; try lia; repeat split; simpl; lia.
Qed.

(** X8. A run of sicily.py's [test_move_generation] issues at most 17 engine
    calls: it starts at most two sessions, validates at most four positions
    (three candidates and the probe) and asks for a single best move at
    most once. *)
Theorem sicily_run_budget (W : engine) (shortenFEN : string -> string)
  (sc : scene) (stockfish_params : option Sicily.params)
  (manual_side : option Sicily.player) :
  let t := calls (fst (Sicily.test_move_generation W shortenFEN sc
                         stockfish_params manual_side)) in
  (List.length t <= 17)%nat
  /\ (1 <= sessions t <= 2)%nat
  /\ (validations t <= 4)%nat
  /\ (best_move_requests t <= 1)%nat.
Proof.
  intros t. subst t.
  destruct (init_stockfish_budget W stockfish_params) as (L & S & V & B).
  destruct (sicily_run_cases W shortenFEN sc stockfish_params manual_side)
    as [(_ & E) | [(sf & _ & _ & E) | (sf & fen & short & a & st' & r & _ & _ & G & E & _)]];
    rewrite E; cbn [fst].
  - lia.
  - lia.
  - destruct (generate_returns W sf stockfish_params fen short a
                (Sicily.with_full_rights short a)
                (fst (Sicily.init_stockfish W stockfish_params start)))
      as (st2 & r2 & E2 & _ & L2 & S2 & V2 & B2 & (l & A)).
    rewrite E2 in G. inversion G. subst.
    assert (S1 : (sessions (calls (fst (Sicily.init_stockfish W stockfish_params start)))
                  <= sessions (calls st'))%nat).
    { rewrite A. unfold sessions. rewrite filter_app, length_app. lia. }
    lia.
Qed.

(** X9. When the image cannot be loaded, no board is found or no position is
    predicted, the run fails with [(None, None, False)]: the engine was
    started all the same, and nothing else was asked of it. *)
Theorem vision_failure_after_engine_start (W : engine)
  (shortenFEN : string -> string) (sc : scene)
  (stockfish_params : option Sicily.params) (manual_side : option Sicily.player) :
  vision_ready sc = false ->
  let run := Sicily.test_move_generation W shortenFEN sc stockfish_params
               manual_side in
  snd run = Ok (Some (None, None, false))
  /\ fst run = fst (Sicily.init_stockfish W stockfish_params start)
  /\ (exists k : nat,
         (1 <= k <= 4)%nat
         /\ calls (fst run) = firstn k (construction 0 stockfish_params)).
Proof.
  intros Hv run. subst run.
  destruct (init_stockfish_cases W stockfish_params start) as (_ & _ & (k & Hk & Ek)).
  destruct (sicily_run_cases W shortenFEN sc stockfish_params manual_side)
    as [(_ & E) | [(sf & _ & _ & E) | (sf & fen & short & a & st' & r & _ & V & _)]].
  - rewrite E. cbn [fst snd]. repeat split. exists k. rewrite Ek. now split.
  - rewrite E. cbn [fst snd]. repeat split. exists k. rewrite Ek. now split.
  - rewrite Hv in V. discriminate V.
Qed.

Lemma vision_failure_after_engine_start_witness :
  let W := Engines.healthy Engines.accept_all (Some [Engines.e2e4]) None Placeholder in
  let sc := {| image := image_missing; board := board_not_found;
               prediction := prediction_none |} in
  vision_ready sc = false
  /\ Sicily.test_move_generation W Engines.already_short sc None None
     = ({| calls := construction 0 None; printed := [] |},
        Ok (Some (None, None, false))).
Proof.
  intros W sc.
  pose proof (vision_failure_after_engine_start W Engines.already_short sc None None
                eq_refl) as (R & _).
  split; [reflexivity |].
  destruct (Sicily.test_move_generation W Engines.already_short sc None None)
    as [st o] eqn:E.
  cbn [snd] in R. subst o.
  vm_compute in E. inversion E. reflexivity.
Defined.

(** X10. Once the engine is started and a position is predicted, the first
    request on the session is the validation of the position with full
    castling rights: the placement as predicted with White to move, or
    the placement rotated by 180 degrees with Black to move. A manual
    choice of Black always rotates; without a manual choice the detected
    orientation decides. *)
Theorem first_position_validated (W : engine) (shortenFEN : string -> string)
  (sc : scene) (stockfish_params : option Sicily.params)
  (manual_side : option Sicily.player) (fen : string) :
  answers_all W [] (construction 0 stockfish_params) = true ->
  vision_ready sc = true ->
  prediction sc = prediction_fen fen ->
  exists rest : list call,
    calls (fst (Sicily.test_move_generation W shortenFEN sc stockfish_params
                  manual_side))
    = construction 0 stockfish_params
      ++ is_fen_valid 0
           (first_position (plays_black manual_side (shortenFEN fen))
              (shortenFEN fen))
         :: rest.
Proof.
  intros Ha Hv Hp.
  pose proof (init_stockfish_ok W stockfish_params start Ha) as Hok.
  destruct (sicily_run_cases W shortenFEN sc stockfish_params manual_side)
    as [(N & _) | [(sf & _ & V & _) | (sf & f & short & a & st' & r & S & _ & G & E & P)]].
  - rewrite Hok in N. discriminate N.
  - rewrite Hv in V. discriminate V.
  - rewrite E. cbn [fst]. rewrite Hok in S, G. cbn [fst snd] in S, G.
    inversion S. subst sf.
    destruct (generate_returns W 0%nat stockfish_params f short a
                (Sicily.with_full_rights short a)
                (after (construction 0 stockfish_params) (@start Sicily.output)))
      as (st2 & r2 & E2 & _ & _ & _ & _ & _ & (l & A)).
    change (sessions (calls (@start Sicily.output))) with 0%nat in G.
    change (sessions []) with 0%nat in G.
    rewrite E2 in G. inversion G. subst st2 r2.
    exists l. rewrite A, (P fen Hp). reflexivity.
Qed.

Lemma first_position_validated_witness :
  let W := Engines.healthy Engines.accept_all (Some [Engines.e2e4]) None Placeholder in
  answers_all W [] (construction 0 None) = true
  /\ vision_ready Engines.photo = true
  /\ prediction Engines.photo = prediction_fen Engines.start_placement
  /\ exists rest : list call,
       calls (fst (Sicily.test_move_generation W Engines.already_short
                     Engines.photo None (Some Sicily.b)))
       = construction 0 None
         ++ is_fen_valid 0 "RNBKQBNR/PPPPPPPP/8/8/8/8/pppppppp/rnbkqbnr b KQkq - 0 1"
            :: rest.
Proof.
  intros W.
  split; [reflexivity |]. split; [reflexivity |]. split; [reflexivity |].
  exact (first_position_validated W Engines.already_short Engines.photo None
           (Some Sicily.b) Engines.start_placement eq_refl eq_refl eq_refl).
Defined.

(** ** Whole runs of test.py *)

Ltac unfold_test_blocks :=
  unfold TestPy.test_move_generation, TestPy.test_move_generation_body,
    TestPy.generate, Stockfish.Stockfish, bind, ask, try_except, ret, return_,
    raise, print.

Ltac explore_test W :=
  repeat (simpl;
          match goal with
          | |- context [match W ?t ?c with _ => _ end] =>
              let a := fresh "a" in
              destruct (W t c) as [a |] eqn:?; try (destruct a)
          | |- context [match ?o with Some _ => _ | None => _ end] =>
              is_var o; destruct o
          | |- context [TestPy.print_top_moves _ _ _] =>
              rewrite test_py_print_top_moves_run
          end).

Ltac test_shaped :=
  unfold test_py_well_shaped; simpl;
  repeat split; intros; try discriminate; try congruence;
  try (exfalso; congruence).

(** X11. No exception escapes test.py's [test_move_generation]: it returns a
    tuple, with a move exactly when it reports success, and with the
    corners and the image exactly when it has a position. It uses a
    single session, never restarts it, and issues at most 11 calls. *)
Theorem test_py_run_result (W : engine) (shortenFEN : string -> string)
  (sc : scene) :
  let run := TestPy.test_move_generation W shortenFEN sc in
  (exists r : TestPy.retval, snd run = Ok (Some r) /\ test_py_well_shaped r)
  /\ (List.length (calls (fst run)) <= 11)%nat
  /\ sessions (calls (fst run)) = 1%nat
  /\ (validations (calls (fst run)) <= 3)%nat.
Proof.
  intros run. subst run. unfold_test_blocks.
  destruct (image sc), (board sc), (prediction sc); explore_test W;
    (split; [eexists; split; [reflexivity | test_shaped] |]);
    repeat split; count_calls.
Qed.

(** X12. In test.py the evaluation and the ranked moves are not optional: when
    the best move was found and [get_evaluation] raises, or
    [get_top_moves] raises or gives [None], the run reports failure and
    the move is lost. *)
Theorem test_py_reports_discard_move (W : engine) (stockfish : handle)
  (fen short_fen full_fen move : string) (c : corners) (i : img)
  (st : state TestPy.output) :
  let c_set := set_fen_position stockfish full_fen in
  let c_valid := is_fen_valid stockfish full_fen in
  let c_best := get_best_move stockfish in
  let c_eval := get_evaluation stockfish in
  let c_top := get_top_moves stockfish 3 in
  let s1 := log c_set st in
  let s2 := log c_valid s1 in
  let s3 := log c_best s2 in
  let s4 := log c_eval s3 in
  let run := TestPy.generate W stockfish fen short_fen full_fen c i st in
  W (calls st) c_set = Ok tt ->
  W (calls s1) c_valid = Ok true ->
  W (calls s2) c_best = Ok (Some move) ->
  (raises W (calls s3) c_eval = true ->
   run = (s4, Returned (Some fen, None, Some c, Some i, false)))
  /\ (raises W (calls s3) c_eval = false ->
      raises W (calls s4) c_top = true \/ W (calls s4) c_top = Ok None ->
      snd run = Returned (Some fen, None, Some c, Some i, false)).
Proof.
  intros c_set c_valid c_best c_eval c_top s1 s2 s3 s4 run Hset Hvalid Hbest.
  subst run s4 s3 s2 s1 c_top c_eval c_best c_valid c_set.
  unfold raises. simpl in *.
  unfold TestPy.generate, bind, ask, try_except, ret, return_, raise, print.
  simpl. repeat answer.
  split.
  - intros H.
    destruct (W _ (get_evaluation stockfish)) as [ev | e]; [discriminate H |].
    reflexivity.
  - intros H T.
    destruct (W _ (get_evaluation stockfish)) as [ev | e]; [| discriminate H].
    simpl in *.
    destruct T as [T | T].
    + destruct (W _ (get_top_moves stockfish 3)) as [tm | e]; [discriminate T |].
      reflexivity.
    + rewrite T. reflexivity.
Qed.

Lemma test_py_reports_discard_move_witness :
  let E := Engines.healthy Engines.accept_all (Some [Engines.e2e4])
             (Some "e2e4"%string) (Score "cp" (Some 35%Z)) in
  let W1 := Engines.without_evaluation E in
  let W2 := Engines.healthy Engines.accept_all None (Some "e2e4"%string)
              (Score "cp" (Some 35%Z)) in
  let p := Engines.start_placement in
  let full_fen := (p ++ " w KQkq - 0 1")%string in
  let c_set := set_fen_position 0 full_fen in
  let c_valid := is_fen_valid 0 full_fen in
  let c_best := get_best_move 0 in
  let c_eval := get_evaluation 0 in
  let c_top := get_top_moves 0 3 in
  (W1 [] c_set = Ok tt /\ W1 [c_set] c_valid = Ok true
   /\ W1 [c_set; c_valid] c_best = Ok (Some "e2e4"%string)
   /\ raises W1 [c_set; c_valid; c_best] c_eval = true
   /\ TestPy.generate W1 0 p p full_fen board_800 Img start
      = ({| calls := [c_set; c_valid; c_best; c_eval]; printed := [] |},
         Returned (Some p, None, Some board_800, Some Img, false)))
  /\ (W2 [] c_set = Ok tt /\ W2 [c_set] c_valid = Ok true
      /\ W2 [c_set; c_valid] c_best = Ok (Some "e2e4"%string)
      /\ raises W2 [c_set; c_valid; c_best] c_eval = false
      /\ W2 [c_set; c_valid; c_best; c_eval] c_top = Ok None
      /\ snd (TestPy.generate W2 0 p p full_fen board_800 Img start)
         = Returned (Some p, None, Some board_800, Some Img, false)).
Proof.
  intros E W1 W2 p full_fen c_set c_valid c_best c_eval c_top.
  pose proof (test_py_reports_discard_move W1 0 p p full_fen "e2e4" board_800 Img
                start eq_refl eq_refl eq_refl) as (T1 & _).
  pose proof (test_py_reports_discard_move W2 0 p p full_fen "e2e4" board_800 Img
                start eq_refl eq_refl eq_refl) as (_ & T2).
  split.
  - repeat (split; [reflexivity |]). exact (T1 eq_refl).
  - repeat (split; [reflexivity |]). exact (T2 eq_refl (or_intror eq_refl)).
Defined.

(** ** The configuration prompt *)

Lemma skill_of_elo_quotient (elo : Z) :
  (800 <= elo <= 3200)%Z ->
  SicilyCli.skill_of_elo elo = ((elo - 800) / 120)%Z
  /\ (0 <= SicilyCli.skill_of_elo elo <= 20)%Z.
Proof.
  intros H. unfold SicilyCli.skill_of_elo, TestPy.int_of_float. simpl.
  rewrite Z.mul_1_r, Z.quot_div_nonneg by lia.
  assert (0 <= (elo - 800) / 120 <= 20)%Z.
  { split; [apply Z.div_pos; lia |].
    apply Z.div_le_upper_bound; lia. }
  lia.
Qed.

Lemma preset_of_cases (line : string) (skill elo : Z) :
  preset_of line = Some (skill, elo) ->
  In (skill, elo) [(0, 800); (3, 1200); (6, 1600); (10, 2000); (15, 2400);
                   (20, 2800)]%Z
  /\ forall rest, SicilyCli.read_strength (line :: rest) = SicilyCli.Returns (skill, elo, rest).
Proof.
  unfold preset_of, presets. simpl. intros H.
  destruct (String.eqb (strip line) "1") eqn:E1;
    [inversion H; subst; split; [simpl; tauto | intros; reflexivity] |].
  destruct (String.eqb (strip line) "2") eqn:E2;
    [inversion H; subst; split; [simpl; tauto | intros; reflexivity] |].
  destruct (String.eqb (strip line) "3") eqn:E3;
    [inversion H; subst; split; [simpl; tauto | intros; reflexivity] |].
  destruct (String.eqb (strip line) "4") eqn:E4;
    [inversion H; subst; split; [simpl; tauto | intros; reflexivity] |].
  destruct (String.eqb (strip line) "5") eqn:E5;
    [inversion H; subst; split; [simpl; tauto
                               | intros; reflexivity] |].
  destruct (String.eqb (strip line) "6") eqn:E6;
    [inversion H; subst; split; [simpl; tauto
                               | intros; reflexivity] |].
  discriminate H.
Qed.

Lemma no_choice_skipped (line : string) (rest : list string) :
  no_choice line = true ->
  SicilyCli.read_strength (line :: rest) = SicilyCli.read_strength rest.
Proof.
  unfold no_choice, preset_of, presets. simpl.
  destruct (String.eqb (strip line) "1"); [discriminate |].
  destruct (String.eqb (strip line) "2"); [discriminate |].
  destruct (String.eqb (strip line) "3"); [discriminate |].
  destruct (String.eqb (strip line) "4"); [discriminate |].
  destruct (String.eqb (strip line) "5"); [discriminate |].
  destruct (String.eqb (strip line) "6"); [discriminate |].
  destruct (String.eqb (strip line) ""); [discriminate | reflexivity].
Qed.

Lemma custom_elo_step (line answer : string) (rest : list string) :
  preset_of line = None -> strip line = "" ->
  SicilyCli.read_strength (line :: answer :: rest)
  = match answer_within 800 3200 answer with
    | Some elo => SicilyCli.Returns (SicilyCli.skill_of_elo elo, elo, rest)
    | None => SicilyCli.read_strength rest
    end.
Proof.
  unfold preset_of, presets, answer_within. intros H E.
  cbn [SicilyCli.read_strength]. rewrite E. cbn [String.eqb Ascii.eqb].
  simpl. destruct (int_of_str answer) as [n |]; [| reflexivity].
  destruct ((800 <=? n)%Z && (n <=? 3200)%Z); reflexivity.
Qed.

Lemma read_depth_step (line : string) (rest : list string) :
  SicilyCli.read_depth (line :: rest)
  = match answer_within 1 20 line with
    | Some depth => SicilyCli.Returns (depth, rest)
    | None => SicilyCli.read_depth rest
    end.
Proof.
  unfold answer_within. cbn [SicilyCli.read_depth].
  destruct (int_of_str line) as [n |]; [| reflexivity].
  destruct ((1 <=? n)%Z && (n <=? 20)%Z); reflexivity.
Qed.

Lemma answer_within_bounds (lo hi n : Z) (line : string) :
  answer_within lo hi line = Some n -> (lo <= n <= hi)%Z.
Proof.
  unfold answer_within. destruct (int_of_str line) as [m |]; [| discriminate].
  destruct ((lo <=? m)%Z && (m <=? hi)%Z) eqn:E; [| discriminate].
  intros H. inversion H. subst. apply andb_true_iff in E. lia.
Qed.

Lemma preset_in_range (skill elo : Z) :
  In (skill, elo) [(0, 800); (3, 1200); (6, 1600); (10, 2000); (15, 2400);
                   (20, 2800)]%Z ->
  (0 <= skill <= 20)%Z /\ (800 <= elo <= 3200)%Z.
Proof.
  simpl. intros H.
  repeat (destruct H as [H | H]; [apply pair_equal_spec in H; lia |]).
  destruct H.
Qed.

(** What the strength loop returns, whatever was typed. *)
Lemma read_strength_returns (n : nat) :
  forall (inputs rest : list string) (skill elo : Z),
    (List.length inputs <= n)%nat ->
    SicilyCli.read_strength inputs = SicilyCli.Returns (skill, elo, rest) ->
    (0 <= skill <= 20)%Z /\ (800 <= elo <= 3200)%Z
    /\ (In (skill, elo) (map snd presets) \/ skill = ((elo - 800) / 120)%Z)
    /\ exists used, inputs = used ++ rest /\ (1 <= List.length used)%nat.
Proof.
  induction n as [| n IH]; intros inputs rest skill elo Hn H.
  - destruct inputs; [discriminate H | simpl in Hn; lia].
  - destruct inputs as [| line inputs]; [discriminate H |].
    simpl in Hn.
    destruct (preset_of line) as [[skill' elo'] |] eqn:P.
    + destruct (preset_of_cases _ _ _ P) as [Hin Hret].
      rewrite Hret in H. inversion H. subst.
      destruct (preset_in_range _ _ Hin) as [? ?].
      repeat split; try lia; [now left |].
      exists [line]. split; [reflexivity | simpl; lia].
    + destruct (String.eqb (strip line) "") eqn:E.
      * apply String.eqb_eq in E.
        destruct inputs as [| answer inputs]; [simpl in H; rewrite ?E in H |].
        { unfold preset_of, presets in P. simpl in P. rewrite E in *.
          simpl in H. discriminate H. }
        rewrite (custom_elo_step _ _ _ P E) in H.
        destruct (answer_within 800 3200 answer) as [e |] eqn:A.
        -- inversion H. subst.
           apply answer_within_bounds in A.
           destruct (skill_of_elo_quotient elo A) as [Hq Hr].
           repeat split; try lia.
           exists [line; answer]. split; [reflexivity | simpl; lia].
        -- destruct (IH inputs rest skill elo) as (? & ? & ? & used & -> & ?);
             [simpl in Hn; lia | exact H |].
           repeat split; try lia; [assumption |].
           exists (line :: answer :: used). split; [reflexivity | simpl; lia].
      * rewrite no_choice_skipped in H by (unfold no_choice; now rewrite P, E).
        destruct (IH inputs rest skill elo) as (? & ? & ? & used & -> & ?);
          [lia | exact H |].
        repeat split; try lia; [assumption |].
        exists (line :: used). split; [reflexivity | simpl; lia].
Qed.

Lemma read_depth_returns (inputs rest : list string) (depth : Z) :
  SicilyCli.read_depth inputs = SicilyCli.Returns (depth, rest) ->
  (1 <= depth <= 20)%Z
  /\ exists used, inputs = used ++ rest /\ (1 <= List.length used)%nat.
Proof.
  induction inputs as [| line inputs IH]; [discriminate |].
  rewrite read_depth_step.
  destruct (answer_within 1 20 line) as [d |] eqn:A.
  - intros H. inversion H. subst. apply answer_within_bounds in A.
    split; [lia |]. exists [line]. split; [reflexivity | simpl; lia].
  - intros H. destruct (IH H) as (? & used & -> & ?).
    split; [lia |]. exists (line :: used). split; [reflexivity | simpl; lia].
Qed.

(** X13. Whatever is typed at the configuration prompt, the parameters that
    [get_stockfish_parameters] returns are within the ranges it asks for:
    skill level 0..20, ELO 800..3200, depth 1..20; the skill level is the
    one of a preset or the quotient [(elo - 800) / 120]; and at least two
    lines were read, the lines left being a suffix of the input. *)
Theorem get_stockfish_parameters_ranges (inputs rest : list string)
  (p : Sicily.params) :
  SicilyCli.get_stockfish_parameters inputs = SicilyCli.Returns (p, rest) ->
  (0 <= Sicily.skill_level p <= 20)%Z
  /\ (800 <= Sicily.elo p <= 3200)%Z
  /\ (1 <= Sicily.depth p <= 20)%Z
  /\ (In (Sicily.skill_level p, Sicily.elo p) (map snd presets)
      \/ Sicily.skill_level p = ((Sicily.elo p - 800) / 120)%Z)
  /\ exists used, inputs = used ++ rest /\ (2 <= List.length used)%nat.
Proof.
  unfold SicilyCli.get_stockfish_parameters.
  destruct (SicilyCli.read_strength inputs) as [[[skill elo] rest1] |] eqn:S;
    [| discriminate].
  destruct (SicilyCli.read_depth rest1) as [[depth rest2] |] eqn:D;
    [| discriminate].
  intros H. inversion H. subst. simpl.
  destruct (read_strength_returns _ _ _ _ _ (le_n _) S)
    as (? & ? & ? & used1 & -> & ?).
  destruct (read_depth_returns _ _ _ D) as (? & used2 & -> & ?).
  repeat split; try lia; [assumption |].
  exists (used1 ++ used2). split; [now rewrite <- app_assoc |].
  rewrite length_app. lia.
Qed.

Lemma get_stockfish_parameters_ranges_witness :
  let p := {| Sicily.skill_level := 10; Sicily.elo := 2000; Sicily.depth := 12 |} in
  SicilyCli.get_stockfish_parameters ["seven"; ""; "4000"; " 4 "; "0"; "12"; "q"]
  = SicilyCli.Returns (p, ["q"])
  /\ (0 <= Sicily.skill_level p <= 20)%Z.
Proof.
  split; [reflexivity |].
  exact (proj1 (get_stockfish_parameters_ranges
                  ["seven"; ""; "4000"; " 4 "; "0"; "12"; "q"] ["q"] _ eq_refl)).
Defined.

(** X14. An answer that is no choice is asked again, and a custom ELO that is
    rejected (not a number, or outside 800..3200) sends the user back to
    the menu: the line after it is read as a menu choice, not as an ELO. *)
Theorem strength_prompt_retries (inputs : list string) :
  (forall junk, Forall (fun l => no_choice l = true) junk ->
                SicilyCli.read_strength (junk ++ inputs)
                = SicilyCli.read_strength inputs)
  /\ (forall line bad,
         strip line = "" -> answer_within 800 3200 bad = None ->
         SicilyCli.read_strength (line :: bad :: inputs)
         = SicilyCli.read_strength inputs).
Proof.
  split.
  - intros junk H. induction H as [| l junk Hl _ IH]; [reflexivity |].
    simpl app. now rewrite no_choice_skipped.
  - intros line bad E A.
    assert (P : preset_of line = None) by (unfold preset_of; now rewrite E).
    rewrite (custom_elo_step _ _ _ P E). now rewrite A.
Qed.

Lemma strength_prompt_retries_witness :
  Forall (fun l => no_choice l = true) ["7"; "master"]
  /\ strip "  " = "" /\ answer_within 800 3200 "5000" = None
  /\ SicilyCli.read_strength (["7"; "master"] ++ ["  "; "5000"; "2000"; "3"])
     = SicilyCli.read_strength ["2000"; "3"]
  /\ SicilyCli.read_strength ["2000"; "3"] = SicilyCli.Returns (6, 1600, [])%Z.
Proof.
  assert (J : Forall (fun l => no_choice l = true) ["7"; "master"])
    by (repeat constructor).
  split; [exact J |]. split; [reflexivity |]. split; [reflexivity |].
  split; [| reflexivity].
  rewrite (proj1 (strength_prompt_retries ["  "; "5000"; "2000"; "3"]) _ J).
  exact (proj2 (strength_prompt_retries ["2000"; "3"]) "  " "5000"
           eq_refl eq_refl).
Defined.

(** ** The interactive loop *)

Lemma main_loop_nil (fuel : nat) (shots : nat -> option Sicily.player -> SicilyCli.analysis)
  (n : nat) :
  SicilyCli.main_loop fuel shots [] n = (repeat SicilyCli.error_line fuel, false).
Proof.
  induction fuel as [| fuel IH]; [reflexivity |].
  simpl. now rewrite IH.
Qed.

(** What one iteration prints for an analysis. *)
Lemma result_lines_no_header (r : Sicily.retval) (lines : list SicilyCli.event) :
  SicilyCli.result_lines r = Some lines -> announced lines = [].
Proof.
  destruct r as [[fen best_move] success]. unfold SicilyCli.result_lines.
  destruct success; [destruct best_move; [| discriminate] |];
    intros H; inversion H; reflexivity.
Qed.

Lemma main_loop_cons (fuel : nat) (shots : nat -> option Sicily.player -> SicilyCli.analysis)
  (line : string) (rest : list string) (n : nat) :
  SicilyCli.main_loop (S fuel) shots (line :: rest) n
  = match SicilyCli.parse_command line with
    | SicilyCli.quit => ([SicilyCli.goodbye], true)
    | SicilyCli.analyse manual_side =>
        let later := SicilyCli.main_loop fuel shots rest (S n) in
        ((SicilyCli.analysis_header (S n)
            :: match shots (S n) manual_side with
               | SicilyCli.no_screenshot => [SicilyCli.skipping]
               | SicilyCli.analysed r =>
                   match SicilyCli.result_lines r with
                   | Some lines => lines
                   | None => [SicilyCli.error_line]
                   end
               end) ++ fst later, snd later)
    | SicilyCli.unknown =>
        let later := SicilyCli.main_loop fuel shots rest n in
        (SicilyCli.unknown_command :: fst later, snd later)
    end.
Proof.
  cbn [SicilyCli.main_loop]. destruct (SicilyCli.parse_command line); [reflexivity | |].
  - destruct (SicilyCli.main_loop fuel shots rest (S n)) as [events exited].
    cbn [fst snd].
    destruct (shots (S n) manual_side) as [| r]; [reflexivity |].
    destruct (SicilyCli.result_lines r); reflexivity.
  - now destruct (SicilyCli.main_loop fuel shots rest n).
Qed.

(** X15. The loop is left exactly when one of the lines it reads asks to quit:
    neither the end of the input, nor a failed analysis, nor an unknown
    command ends it. *)
Theorem main_loop_exit_iff_quit (fuel : nat)
  (shots : nat -> option Sicily.player -> SicilyCli.analysis)
  (inputs : list string) (n : nat) :
  snd (SicilyCli.main_loop fuel shots inputs n) = existsb quits (firstn fuel inputs).
Proof.
  revert inputs n. induction fuel as [| fuel IH]; intros inputs n; [reflexivity |].
  destruct inputs as [| line rest]; [now rewrite main_loop_nil |].
  rewrite main_loop_cons. cbn [firstn existsb]. unfold quits at 1.
  destruct (SicilyCli.parse_command line); cbn [snd orb]; [reflexivity | |]; apply IH.
Qed.

(** X16. Up to the first line that asks to quit, every line is answered; the
    analyses are numbered from the count on, one number for each line that
    asks for one; the loop then says goodbye and ends, and what was typed
    after that line has no effect. *)
Theorem main_loop_stops_at_quit (shots : nat -> option Sicily.player -> SicilyCli.analysis)
  (before : list string) (line : string) (fuel n : nat) :
  existsb quits before = false -> quits line = true ->
  (List.length before < fuel)%nat ->
  exists events,
    announced events = seq (S n) (List.length (filter analyses before))
    /\ ~ In SicilyCli.goodbye events
    /\ forall after,
         SicilyCli.main_loop fuel shots (before ++ line :: after) n
         = (events ++ [SicilyCli.goodbye], true).
Proof.
  intros Hb Hq. revert fuel n.
  induction before as [| a before IH]; intros fuel n Hf.
  - exists []. split; [reflexivity |]. split; [intros [] |]. intros after.
    destruct fuel as [| fuel]; [simpl in Hf; lia |].
    simpl app. rewrite main_loop_cons. unfold quits in Hq.
    now destruct (SicilyCli.parse_command line).
  - destruct fuel as [| fuel]; [simpl in Hf; lia |].
    cbn [existsb] in Hb. apply orb_false_iff in Hb. destruct Hb as [Ha Hb].
    cbn [filter]. unfold quits in Ha. unfold analyses at 1.
    destruct (SicilyCli.parse_command a) as [| manual_side |] eqn:Pa;
      [discriminate Ha | |].
    + destruct (IH Hb fuel (S n)) as (events & Hann & Hno & Hrun);
        [simpl in Hf; lia |].
      set (printed :=
             SicilyCli.analysis_header (S n)
               :: match shots (S n) manual_side with
                  | SicilyCli.no_screenshot => [SicilyCli.skipping]
                  | SicilyCli.analysed r =>
                      match SicilyCli.result_lines r with
                      | Some lines => lines
                      | None => [SicilyCli.error_line]
                      end
                  end).
      assert (Hp : announced printed = [S n] /\ ~ In SicilyCli.goodbye printed).
      { unfold printed. destruct (shots (S n) manual_side) as [| r].
        - split; [reflexivity |]. simpl. intros [H | [H | []]]; discriminate H.
        - destruct (SicilyCli.result_lines r) as [lines |] eqn:R.
          + split.
            * change (announced (SicilyCli.analysis_header (S n) :: lines))
                with (S n :: announced lines).
              now rewrite (result_lines_no_header _ _ R).
            * destruct r as [[fen best_move] success].
              unfold SicilyCli.result_lines in R.
              destruct success; [destruct best_move; [| discriminate] |];
                inversion R; simpl; intros [H | [H | []]]; discriminate H.
          + split; [reflexivity |]. simpl. intros [H | [H | []]]; discriminate H. }
      exists (printed ++ events). split; [| split].
      * unfold announced in *. rewrite flat_map_app, Hann.
        destruct Hp as [-> _]. reflexivity.
      * intros H. apply in_app_or in H. destruct Hp as [_ Hp]. tauto.
      * intros after. simpl app. rewrite main_loop_cons, Pa.
        cbv zeta. rewrite Hrun. cbn [fst snd]. fold printed.
        now rewrite app_assoc.
    + destruct (IH Hb fuel n) as (events & Hann & Hno & Hrun);
        [simpl in Hf; lia |].
      exists (SicilyCli.unknown_command :: events). split; [| split].
      * exact Hann.
      * simpl. intros [H | H]; [discriminate H | tauto].
      * intros after. simpl app. rewrite main_loop_cons, Pa.
        cbv zeta. now rewrite Hrun.
Qed.

Lemma main_loop_stops_at_quit_witness :
  existsb quits ["w"; "help"; ""] = false /\ quits " Q " = true
  /\ exists events,
       announced events = [1; 2]%nat
       /\ forall after,
            SicilyCli.main_loop 4 (fun _ _ => SicilyCli.no_screenshot)
              (["w"; "help"; ""] ++ " Q " :: after) 0
            = (events ++ [SicilyCli.goodbye], true).
Proof.
  split; [reflexivity |]. split; [reflexivity |].
  destruct (main_loop_stops_at_quit (fun _ _ => SicilyCli.no_screenshot)
              ["w"; "help"; ""] " Q " 4 0 eq_refl eq_refl (le_n 4))
    as (events & Hann & _ & Hrun).
  exists events. split; [exact Hann | exact Hrun].
Defined.

(** X17. When the input ends without a line that asks to quit, the loop goes
    on: each further iteration prints one error line, and the loop is
    never left. *)
Theorem main_loop_end_of_input (shots : nat -> option Sicily.player -> SicilyCli.analysis)
  (inputs : list string) (more n : nat) :
  existsb quits inputs = false ->
  SicilyCli.main_loop (List.length inputs + more) shots inputs n
  = (fst (SicilyCli.main_loop (List.length inputs) shots inputs n)
       ++ repeat SicilyCli.error_line more, false).
Proof.
  revert n. induction inputs as [| line rest IH]; intros n Hq.
  - simpl. apply main_loop_nil.
  - cbn [existsb] in Hq. apply orb_false_iff in Hq. destruct Hq as [Hl Hr].
    cbn [List.length Nat.add]. rewrite !main_loop_cons. unfold quits in Hl.
    destruct (SicilyCli.parse_command line); [discriminate Hl | |];
      cbv zeta; rewrite IH by assumption; cbn [fst snd].
    + now rewrite app_assoc.
    + reflexivity.
Qed.

Lemma main_loop_end_of_input_witness :
  existsb quits ["w"; "x"] = false
  /\ SicilyCli.main_loop (2 + 3) (fun _ _ => SicilyCli.no_screenshot) ["w"; "x"] 0
     = ([SicilyCli.analysis_header 1; SicilyCli.skipping; SicilyCli.unknown_command;
         SicilyCli.error_line; SicilyCli.error_line; SicilyCli.error_line], false).
Proof.
  split; [reflexivity |].
  exact (main_loop_end_of_input (fun _ _ => SicilyCli.no_screenshot)
           ["w"; "x"] 3 0 eq_refl).
Defined.

(** X18. The move explanation cuts the move into source square, target square
    and promotion without losing a character, and prints the promotion
    exactly when the move has more than four characters. *)
Theorem result_lines_partition (fen : option string) (move : string) :
  exists from_square to_square promotion,
    SicilyCli.result_lines (fen, Some move, true)
    = Some [SicilyCli.success_lines fen move from_square to_square promotion]
    /\ (from_square ++ to_square
          ++ match promotion with Some p => p | None => "" end)%string = move
    /\ (promotion = None <-> (String.length move <= 4)%nat)
    /\ ((4 <= String.length move)%nat ->
        String.length from_square = 2%nat /\ String.length to_square = 2%nat).
Proof.
  unfold SicilyCli.result_lines.
  exists (slice 0 2 move), (slice 2 4 move),
    (if (4 <? String.length move)%nat then Some (slice_from 4 move) else None).
  split; [reflexivity |].
  destruct move as [| c0 [| c1 [| c2 [| c3 [| c4 rest]]]]];
    simpl; repeat split; intros; try reflexivity; try lia; try discriminate.
  all: simpl in *; try lia; try discriminate.
Qed.

(** ** White space and letter case at the prompts *)

Lemma blank_app (s t : string) : blank (s ++ t) = blank s && blank t.
Proof.
  induction s as [| c s IH]; [reflexivity |].
  simpl. now rewrite IH, andb_assoc.
Qed.

Lemma blank_reversed (s : string) : blank (reversed_str s) = blank s.
Proof.
  induction s as [| c s IH]; [reflexivity |].
  simpl. rewrite blank_app, IH. simpl. rewrite andb_true_r. apply andb_comm.
Qed.

Lemma lstrip_blank (s : string) : blank s = true -> lstrip isspace s = "".
Proof.
  induction s as [| c s IH]; [reflexivity |].
  simpl. intros H. apply andb_true_iff in H. destruct H as [-> H]. auto.
Qed.

Lemma lstrip_app (s t : string) :
  lstrip isspace (s ++ t)
  = if blank s then lstrip isspace t else (lstrip isspace s ++ t)%string.
Proof.
  induction s as [| c s IH]; [reflexivity |].
  simpl. destruct (isspace c); [exact IH | reflexivity].
Qed.

Lemma rstrip_app (s t : string) :
  rstrip isspace (s ++ t)
  = if blank t then rstrip isspace s else (s ++ rstrip isspace t)%string.
Proof.
  unfold rstrip. rewrite reversed_str_app, lstrip_app, blank_reversed.
  destruct (blank t); [reflexivity |].
  now rewrite reversed_str_app, reversed_str_involutive.
Qed.

Lemma strip_padding (pad line pad' : string) :
  blank pad = true -> blank pad' = true ->
  strip (pad ++ line ++ pad') = strip line.
Proof.
  intros H H'. unfold strip. rewrite lstrip_app, H, lstrip_app.
  destruct (blank line) eqn:B.
  - now rewrite (lstrip_blank _ H'), (lstrip_blank _ B).
  - now rewrite rstrip_app, H'.
Qed.

Lemma lower_char_letter (c : ascii) :
  (lower_char c = "q"%char <-> c = "q"%char \/ c = "Q"%char)
  /\ (lower_char c = "w"%char <-> c = "w"%char \/ c = "W"%char)
  /\ (lower_char c = "b"%char <-> c = "b"%char \/ c = "B"%char).
Proof.
  destruct c as [[] [] [] [] [] [] [] []]; vm_compute;
    repeat split; intros; try (now left); try (now right); try discriminate;
    match goal with H : _ \/ _ |- _ => destruct H; discriminate end.
Qed.

Lemma lower_one (s : string) (c : ascii) :
  lower s = String c "" <-> exists d, s = String d "" /\ lower_char d = c.
Proof.
  destruct s as [| d [| e s]]; simpl; split; intros H;
    try discriminate; try (destruct H as (? & H & _); discriminate).
  - inversion H. now exists d.
  - destruct H as (d' & H & <-). now inversion H.
Qed.

Lemma lower_empty (s : string) : lower s = "" <-> s = "".
Proof. destruct s; simpl; split; intros H; (reflexivity || discriminate). Qed.

(** X19. The commands of the loop are read without regard to the white space
    around them and to the case of the letter: the loop is left on q or Q,
    analyses for White on w or W, for Black on b or B, detects the side on
    an empty line, and takes every other line for an unknown command. *)
Theorem parse_command_cases (line : string) :
  (forall pad pad', blank pad = true -> blank pad' = true ->
                    SicilyCli.parse_command (pad ++ line ++ pad')
                    = SicilyCli.parse_command line)
  /\ (SicilyCli.parse_command line = SicilyCli.quit
      <-> strip line = "q" \/ strip line = "Q")
  /\ (SicilyCli.parse_command line = SicilyCli.analyse None <-> strip line = "")
  /\ (SicilyCli.parse_command line = SicilyCli.analyse (Some Sicily.w)
      <-> strip line = "w" \/ strip line = "W")
  /\ (SicilyCli.parse_command line = SicilyCli.analyse (Some Sicily.b)
      <-> strip line = "b" \/ strip line = "B").
Proof.
  split.
  { intros pad pad' H H'. unfold SicilyCli.parse_command.
    now rewrite strip_padding. }
  unfold SicilyCli.parse_command.
  assert (Q : lower (strip line) = "q" <-> strip line = "q" \/ strip line = "Q").
  { rewrite lower_one. split.
    - intros (d & -> & H). apply (proj1 (lower_char_letter d)) in H.
      destruct H as [-> | ->]; tauto.
    - intros [-> | ->]; eexists; split; reflexivity. }
  assert (W : lower (strip line) = "w" <-> strip line = "w" \/ strip line = "W").
  { rewrite lower_one. split.
    - intros (d & -> & H). apply (proj1 (proj2 (lower_char_letter d))) in H.
      destruct H as [-> | ->]; tauto.
    - intros [-> | ->]; eexists; split; reflexivity. }
  assert (B : lower (strip line) = "b" <-> strip line = "b" \/ strip line = "B").
  { rewrite lower_one. split.
    - intros (d & -> & H). apply (proj2 (proj2 (lower_char_letter d))) in H.
      destruct H as [-> | ->]; tauto.
    - intros [-> | ->]; eexists; split; reflexivity. }
  pose proof (lower_empty (strip line)) as N.
  rewrite <- Q, <- W, <- B, <- N.
  destruct (String.eqb (lower (strip line)) "q") eqn:Eq;
    [apply String.eqb_eq in Eq; rewrite Eq; repeat split; intros; congruence
    | apply String.eqb_neq in Eq].
  destruct (String.eqb (lower (strip line)) "") eqn:En;
    [apply String.eqb_eq in En; rewrite En; repeat split; intros; congruence
    | apply String.eqb_neq in En].
  destruct (String.eqb (lower (strip line)) "w") eqn:Ew;
    [apply String.eqb_eq in Ew; rewrite Ew; repeat split; intros; congruence
    | apply String.eqb_neq in Ew].
  destruct (String.eqb (lower (strip line)) "b") eqn:Eb;
    [apply String.eqb_eq in Eb; rewrite Eb; repeat split; intros; congruence
    | apply String.eqb_neq in Eb].
  repeat split; intros; congruence.
Qed.

Lemma parse_command_cases_witness :
  blank (String (ascii_of_nat 9) " ") = true /\ blank "  " = true
  /\ SicilyCli.parse_command (String (ascii_of_nat 9) " " ++ "B" ++ "  ")
     = SicilyCli.analyse (Some Sicily.b).
Proof.
  split; [reflexivity |]. split; [reflexivity |].
  rewrite (proj1 (parse_command_cases "B") (String (ascii_of_nat 9) " ") "  "
             eq_refl eq_refl).
  reflexivity.
Defined.

(** A menu choice is read without regard to the white space around it. *)
Lemma read_strength_padding (pad line pad' : string) (rest : list string) :
  blank pad = true -> blank pad' = true ->
  SicilyCli.read_strength ((pad ++ line ++ pad')%string :: rest)
  = SicilyCli.read_strength (line :: rest).
Proof.
  intros H H'. cbn [SicilyCli.read_strength]. now rewrite strip_padding.
Qed.

(** ** Rotation and orientation together *)

Lemma count_app (p : ascii -> bool) (s t : string) :
  count p (s ++ t) = (count p s + count p t)%Z.
Proof. induction s as [| c s IH]; simpl; [reflexivity | rewrite IH; lia]. Qed.

Lemma count_reversed (p : ascii -> bool) (s : string) :
  count p (reversed_str s) = count p s.
Proof.
  induction s as [| c s IH]; simpl; [reflexivity |].
  rewrite count_app, IH. simpl. lia.
Qed.

Lemma contains_app (c : ascii) (s t : string) :
  contains c (s ++ t) = contains c s || contains c t.
Proof.
  induction s as [| d s IH]; simpl; [reflexivity |].
  now rewrite IH, orb_assoc.
Qed.

Lemma contains_reversed (c : ascii) (s : string) :
  contains c (reversed_str s) = contains c s.
Proof.
  induction s as [| d s IH]; simpl; [reflexivity |].
  rewrite contains_app, IH. simpl. rewrite orb_false_r. apply orb_comm.
Qed.

Lemma rank_squares_app (s t : string) :
  Sicily.rank_squares (s ++ t)
  = match Sicily.rank_squares s, Sicily.rank_squares t with
    | Some x, Some y => Some (x + y)%Z
    | _, _ => None
    end.
Proof.
  induction s as [| c s IH]; cbn [Sicily.rank_squares append].
  - destruct (Sicily.rank_squares t); reflexivity.
  - rewrite IH.
    destruct (Sicily.rank_squares s) as [x |], (Sicily.rank_squares t) as [y |];
      try reflexivity.
    + destruct (isalpha c); [f_equal; lia |].
      destruct (isdigit c); [f_equal; lia | reflexivity].
    + destruct (isalpha c); [reflexivity |]. destruct (isdigit c); reflexivity.
Qed.

Lemma rank_squares_reversed (s : string) :
  Sicily.rank_squares (reversed_str s) = Sicily.rank_squares s.
Proof.
  induction s as [| c s IH]; [reflexivity |].
  cbn [reversed_str]. rewrite rank_squares_app, IH.
  cbn [Sicily.rank_squares].
  destruct (Sicily.rank_squares s) as [x |]; [| reflexivity].
  destruct (isalpha c); [f_equal; lia |].
  destruct (isdigit c); [f_equal; lia | reflexivity].
Qed.

(** The ranks of the rotated placement: those of the placement in reverse
    order, each one reversed. *)
Lemma split_flip_fen_str (p : string) :
  split "/" (Sicily.flip_fen_str p) = map reversed_str (rev (split "/" p)).
Proof.
  unfold Sicily.flip_fen_str. apply split_join.
  - intros H. apply (f_equal (@List.length _)) in H.
    rewrite length_map, length_rev in H.
    pose proof (split_not_nil "/" p) as Hne.
    destruct (split "/" p); [contradiction | discriminate H].
  - apply Forall_forall. intros r Hr. apply in_map_iff in Hr.
    destruct Hr as (r' & <- & Hr'). apply in_rev in Hr'.
    rewrite contains_reversed.
    pose proof (split_pieces_no_sep "/" p) as Hall.
    rewrite Forall_forall in Hall. now apply Hall.
Qed.

Lemma forallb_map_comp {A B : Type} (f : B -> bool) (g : A -> B) (l : list A) :
  forallb f (map g l) = forallb (fun x => f (g x)) l.
Proof. induction l as [| a l IH]; simpl; [reflexivity | now rewrite IH]. Qed.

Lemma forallb_rev {A : Type} (f : A -> bool) (l : list A) :
  forallb f (rev l) = forallb f l.
Proof.
  induction l as [| a l IH]; [reflexivity |].
  simpl. rewrite forallb_app, IH. simpl. rewrite andb_true_r. apply andb_comm.
Qed.

(** X20. The rotation of a placement keeps what the placement holds: every
    kind of character occurs as often as before, and the result is a
    well-formed placement (8 ranks of 8 squares) exactly when the argument
    is one. *)
Theorem flip_fen_keeps_placement (p : string) :
  exists q,
    Sicily.flip_fen (PyStr p) = PyStr q
    /\ Sicily.well_formed q = Sicily.well_formed p
    /\ (forall kind, count kind q = count kind p)
    /\ List.length (split "/" q) = List.length (split "/" p).
Proof.
  exists (Sicily.flip_fen_str p). split; [reflexivity |].
  split; [| split].
  - unfold Sicily.well_formed. rewrite split_flip_fen_str.
    rewrite length_map, length_rev. f_equal.
    rewrite forallb_map_comp, forallb_rev.
    induction (split "/" p) as [| r ranks IH]; [reflexivity |].
    simpl. rewrite IH. unfold Sicily.well_formed_rank.
    now rewrite rank_squares_reversed.
  - intros kind. now rewrite flip_fen_str_reversed, count_reversed.
  - now rewrite split_flip_fen_str, length_map, length_rev.
Qed.

Lemma index_last_rev {A : Type} (l : list A) :
  index_last (rev l) = index_first l.
Proof.
  destruct l as [| a l]; [reflexivity |].
  simpl. apply index_last_snoc.
Qed.

Lemma index_last_map {A B : Type} (f : A -> B) (l : list A) :
  index_last (map f l) = match index_last l with
                         | Ok x => Ok (f x)
                         | Raise e => Raise e
                         end.
Proof.
  induction l as [| a l IH]; [reflexivity |].
  destruct l as [| a' l]; [reflexivity |].
  exact IH.
Qed.

(** The decision of [detect_board_orientation], read off the last rank. *)
Lemma detect_board_orientation_bottom (p bottom : string) :
  index_last (split "/" p) = Ok bottom ->
  Sicily.detect_board_orientation (PyStr p)
  = if (count isupper bottom >? count islower bottom)%Z
    then (Sicily.normal, Sicily.w)
    else if (count islower bottom >? count isupper bottom)%Z
         then (Sicily.flipped, Sicily.b)
         else if contains "r" bottom || contains "k" bottom || contains "q" bottom
              then (Sicily.flipped, Sicily.b)
              else (Sicily.normal, Sicily.w).
Proof.
  intros H.
  unfold Sicily.detect_board_orientation, Sicily.detect_board_orientation_try,
    py_split, rbind.
  rewrite H.
  pose proof (split_not_nil "/" p) as Hne.
  destruct (split "/" p) as [| top ranks]; [contradiction |].
  cbn [index_first].
  rewrite (count_ext _ _ bottom is_white_piece_isupper).
  rewrite (count_ext _ _ bottom is_black_piece_islower).
  destruct (_ >? _)%Z; [reflexivity |].
  destruct (_ >? _)%Z; [reflexivity |].
  destruct (_ || _); reflexivity.
Qed.

Lemma index_last_split (p : string) : exists bottom, index_last (split "/" p) = Ok bottom.
Proof.
  pose proof (split_not_nil "/" p) as Hne.
  destruct (split "/" p) as [| a l] using rev_ind; [contradiction |].
  exists a. apply index_last_snoc.
Qed.

(** X21. [detect_board_orientation] looks at the last rank only: two
    placements with the same last rank get the same answer, whatever
    stands on the other ranks; and the answer pairs the orientation with
    the side, normal with White and flipped with Black. *)
Theorem detect_board_orientation_last_rank :
  (forall p q : string,
      index_last (split "/" p) = index_last (split "/" q) ->
      Sicily.detect_board_orientation (PyStr p)
      = Sicily.detect_board_orientation (PyStr q))
  /\ (forall fen : pyval,
         Sicily.detect_board_orientation fen = (Sicily.normal, Sicily.w)
         \/ Sicily.detect_board_orientation fen = (Sicily.flipped, Sicily.b)).
Proof.
  split; [| exact detect_board_orientation_pairs].
  intros p q H. destruct (index_last_split p) as [bottom Hp].
  rewrite (detect_board_orientation_bottom p bottom Hp).
  rewrite Hp in H. symmetry in H.
  now rewrite (detect_board_orientation_bottom q bottom H).
Qed.

Lemma detect_board_orientation_last_rank_witness :
  index_last (split "/" "8/8/8/8/8/8/8/RNBQKBNR")
  = index_last (split "/" "rnbqkbnr/pppppppp/8/8/8/8/PPPPPPPP/RNBQKBNR")
  /\ Sicily.detect_board_orientation (PyStr "8/8/8/8/8/8/8/RNBQKBNR")
     = Sicily.detect_board_orientation
         (PyStr "rnbqkbnr/pppppppp/8/8/8/8/PPPPPPPP/RNBQKBNR").
Proof.
  split; [reflexivity |].
  exact (proj1 detect_board_orientation_last_rank
           "8/8/8/8/8/8/8/RNBQKBNR"
           "rnbqkbnr/pppppppp/8/8/8/8/PPPPPPPP/RNBQKBNR" eq_refl).
Defined.

(** X22. A board seen from Black's side is put upright by the rotation: when
    the last rank holds more lowercase than uppercase letters and the
    first rank more uppercase than lowercase ones, the placement is
    detected as flipped, and its rotation as normal. *)
Theorem rotation_turns_flipped_board (p top bottom : string) :
  index_first (split "/" p) = Ok top ->
  index_last (split "/" p) = Ok bottom ->
  (count isupper top > count islower top)%Z ->
  (count islower bottom > count isupper bottom)%Z ->
  Sicily.detect_board_orientation (PyStr p) = (Sicily.flipped, Sicily.b)
  /\ Sicily.detect_board_orientation (Sicily.flip_fen (PyStr p))
     = (Sicily.normal, Sicily.w).
Proof.
  intros Ht Hb Gt Gb. split.
  - rewrite (detect_board_orientation_bottom p bottom Hb).
    assert (H1 : (count isupper bottom >? count islower bottom)%Z = false) by lia.
    assert (H2 : (count islower bottom >? count isupper bottom)%Z = true) by lia.
    now rewrite H1, H2.
  - rewrite flip_fen_PyStr.
    rewrite (detect_board_orientation_bottom _ (reversed_str top)).
    + rewrite !count_reversed.
      assert (H1 : (count isupper top >? count islower top)%Z = true) by lia.
      now rewrite H1.
    + rewrite split_flip_fen_str, index_last_map, index_last_rev, Ht.
      reflexivity.
Qed.

Lemma rotation_turns_flipped_board_witness :
  let p := "RNBKQBNR/PPPPPPPP/8/8/8/8/pppppppp/rnbkqbnr" in
  index_first (split "/" p) = Ok "RNBKQBNR"
  /\ index_last (split "/" p) = Ok "rnbkqbnr"
  /\ Sicily.detect_board_orientation (PyStr p) = (Sicily.flipped, Sicily.b)
  /\ Sicily.detect_board_orientation (Sicily.flip_fen (PyStr p))
     = (Sicily.normal, Sicily.w).
Proof.
  intros p. split; [reflexivity |]. split; [reflexivity |].
  apply (rotation_turns_flipped_board p "RNBKQBNR" "rnbkqbnr");
    reflexivity.
Defined.
